(** * FinSmart client-side data synchronisation layer

    A shallow embedding of the retry utilities, the error classifier, the
    entity services (transactions, categories, goals) and the React data
    hooks, with the properties of the synchronisation layer stated over
    it.

    Conventions of the embedding:
    - a JavaScript [number] is an exact rational ([Q]); instants
      ([Date.now()], ISO timestamps) are integers ([Z]);
    - an [async] function is a state-passing function returning a
      [JsResult]: the promise resolves ([Ok]) or rejects ([Throw]);
    - a thrown value of type [any] is seen through the fields the code
      inspects ([JsError]);
    - the remote store is a collaborator outside the repository: it is
      modelled by its tables and a script of faults, a request that fails
      leaving the tables as they were. *)

From Stdlib Require Import QArith Qminmax Qpower Lia Lqa.
From stdpp Require Import base strings list gmap pretty sorting.

Open Scope string_scope.

(** ** Thrown values and results *)

(** lib/supabase/errors.ts: [enum SupabaseErrorType]. *)
Inductive SupabaseErrorType :=
| AUTH_ERROR
| NETWORK_ERROR
| PERMISSION_ERROR
| VALIDATION_ERROR
| UNKNOWN_ERROR.

#[global] Instance SupabaseErrorType_eq_dec : EqDecision SupabaseErrorType.
Proof. solve_decision. Defined.

(** What [instanceof] tells about a thrown value that is not a
    [SupabaseError]. *)
Inductive JsClass :=
| PlainValue      (* not an [Error] instance: a plain object, a string, null *)
| ErrorInstance   (* [instanceof Error] *)
| TypeErrorInstance. (* [instanceof TypeError], hence also [instanceof Error] *)

(** A thrown value other than a [SupabaseError], through the properties
    that [transformError] and the retry predicates read.  [None] is
    [undefined]. *)
Record ErrObj := {
  e_class : JsClass;
  e_name : option string;
  __isAuthError : bool;
  e_code : option string;
  e_message : option string;
  e_details : option string;
}.

(** [class SupabaseError extends Error]. *)
Record SupabaseError := {
  message : string;
  type : SupabaseErrorType;
  originalError : option ErrObj;
}.

Inductive JsError :=
| Classified (e : SupabaseError)   (* [error instanceof SupabaseError] *)
| Raw (o : ErrObj).

Inductive JsResult (A : Type) :=
| Ok (a : A)
| Throw (e : JsError).
Arguments Ok {A} a.
Arguments Throw {A} e.

(** [new Error(msg)]. *)
Definition new_Error (msg : string) : ErrObj :=
  {| e_class := ErrorInstance; e_name := Some "Error"; __isAuthError := false;
     e_code := None; e_message := Some msg; e_details := None |}.

(** The [TypeError] raised by reading a property of [undefined]. *)
Definition undefined_property_TypeError (prop : string) : ErrObj :=
  {| e_class := TypeErrorInstance; e_name := Some "TypeError";
     __isAuthError := false; e_code := None;
     e_message :=
       Some ("Cannot read properties of undefined (reading '" +:+ prop +:+ "')");
     e_details := None |}.

(** Truthiness of an optional string: defined and not empty. *)
Definition truthy (o : option string) : bool :=
  match o with
  | Some s => negb (String.eqb s "")
  | None => false
  end.

(** [o || d] on an optional string. *)
Definition or_else (o : option string) (d : string) : string :=
  match o with
  | Some s => if String.eqb s "" then d else s
  | None => d
  end.

(** [String.prototype.includes]. *)
Fixpoint includes (s sub : string) : bool :=
  String.prefix sub s ||
  match s with
  | EmptyString => false
  | String _ s' => includes s' sub
  end.

(** [error.message] of any thrown value. *)
Definition error_message (e : JsError) : option string :=
  match e with
  | Classified se => Some (message se)
  | Raw o => e_message o
  end.

(** [err instanceof Error]. *)
Definition instanceof_Error (e : JsError) : bool :=
  match e with
  | Classified _ => true
  | Raw o => match e_class o with PlainValue => false | _ => true end
  end.

(** ** Error classifier (lib/supabase/errors.ts) *)

Definition ERROR_MESSAGES (t : SupabaseErrorType) : string :=
  match t with
  | AUTH_ERROR => "Authentication failed. Please log in again."
  | NETWORK_ERROR => "Network error. Please check your connection."
  | PERMISSION_ERROR => "You don't have permission to perform this action."
  | VALIDATION_ERROR => "Invalid data. Please check your input."
  | UNKNOWN_ERROR => "An unexpected error occurred. Please try again."
  end.

Definition new_SupabaseError (msg : string) (t : SupabaseErrorType)
    (orig : ErrObj) : SupabaseError :=
  {| message := msg; type := t; originalError := Some orig |}.

Definition code_is (error : ErrObj) (c : string) : bool :=
  match e_code error with
  | Some c' => String.eqb c' c
  | None => false
  end.

Definition transformPostgrestError (error : ErrObj) : SupabaseError :=
  if code_is error "PGRST301" then
    new_SupabaseError (ERROR_MESSAGES PERMISSION_ERROR) PERMISSION_ERROR error
  else if code_is error "23505" then
    new_SupabaseError "This record already exists." VALIDATION_ERROR error
  else if code_is error "23503" then
    new_SupabaseError "Invalid reference. The related record does not exist."
      VALIDATION_ERROR error
  else
    new_SupabaseError (or_else (e_message error) (ERROR_MESSAGES UNKNOWN_ERROR))
      UNKNOWN_ERROR error.

(** [error.message.includes(...)] raises a [TypeError] when the thrown
    value has no [message]. *)
Definition transformAuthError (error : ErrObj) : JsResult SupabaseError :=
  match e_message error with
  | None => Throw (Raw (undefined_property_TypeError "includes"))
  | Some m =>
    if includes m "Invalid login credentials" then
      Ok (new_SupabaseError "Invalid email or password." AUTH_ERROR error)
    else if includes m "Email not confirmed" then
      Ok (new_SupabaseError
            "Please confirm your email address before logging in."
            AUTH_ERROR error)
    else if includes m "User already registered" then
      Ok (new_SupabaseError "An account with this email already exists."
            VALIDATION_ERROR error)
    else
      Ok (new_SupabaseError (or_else (Some m) (ERROR_MESSAGES AUTH_ERROR))
            AUTH_ERROR error)
  end.

Definition name_is (error : ErrObj) (n : string) : bool :=
  match e_name error with
  | Some n' => String.eqb n' n
  | None => false
  end.

Definition is_TypeError (error : ErrObj) : bool :=
  match e_class error with TypeErrorInstance => true | _ => false end.

(** [error?.message?.includes(sub)], [undefined] being falsy. *)
Definition message_includes (error : ErrObj) (sub : string) : bool :=
  match e_message error with
  | Some m => includes m sub
  | None => false
  end.

(** [error instanceof TypeError && error.message.includes('fetch')]:
    the message of a [TypeError] instance is read without [?.], which
    raises when it is [undefined]. *)
Definition TypeError_about_fetch (error : ErrObj) : JsResult bool :=
  if is_TypeError error then
    match e_message error with
    | None => Throw (Raw (undefined_property_TypeError "includes"))
    | Some m => Ok (includes m "fetch")
    end
  else Ok false.

Definition transformError (error : JsError) : JsResult SupabaseError :=
  match error with
  | Classified se => Ok se
  | Raw o =>
    if name_is o "AuthError" || __isAuthError o then transformAuthError o
    else if truthy (e_code o) && truthy (e_message o) && truthy (e_details o)
    then Ok (transformPostgrestError o)
    else
      match TypeError_about_fetch o with
      | Throw e => Throw e
      | Ok true =>
        Ok (new_SupabaseError (ERROR_MESSAGES NETWORK_ERROR) NETWORK_ERROR o)
      | Ok false =>
        if message_includes o "NetworkError"
           || message_includes o "Failed to fetch" then
          Ok (new_SupabaseError (ERROR_MESSAGES NETWORK_ERROR) NETWORK_ERROR o)
        else
          Ok (new_SupabaseError
                (or_else (e_message o) (ERROR_MESSAGES UNKNOWN_ERROR))
                UNKNOWN_ERROR o)
      end
  end.

Definition isNetworkError (error : JsError) : JsResult bool :=
  match transformError error with
  | Ok se => Ok (bool_decide (type se = NETWORK_ERROR))
  | Throw e => Throw e
  end.

Definition getErrorMessage (error : JsError) : JsResult string :=
  match transformError error with
  | Ok se => Ok (message se)
  | Throw e => Throw e
  end.




(** ** Runtime effects

    What the code does to its environment besides calling the remote
    store: lines written with [console.error], draws of [Math.random()],
    and delays awaited with [setTimeout]. *)

(** [interface ErrorContext] (the [metadata] field is never set by the
    code embedded here). *)
Record ErrorContext := {
  operation : option string;
  userId : option string;
  resourceId : option string;
  resourceType : option string;
}.

(** [interface ErrorLogEntry], without the fields read from the clock and
    the browser ([timestamp], [stack], [userAgent], [url]). *)
Record ErrorLogEntry := {
  log_type : SupabaseErrorType;
  log_message : string;
  log_context : ErrorContext;
  log_originalError : option ErrObj;
}.

Inductive ConsoleLine :=
| SupabaseErrorLine (entry : ErrorLogEntry) (* console.error('[SupabaseError]', logEntry) *)
| ErrorLine (label : string) (err : JsError). (* console.error(label, err) *)

Class Runtime (St : Type) := {
  console_error : ConsoleLine -> St -> St;
  Math_random : St -> Q * St;
  setTimeout : Q -> St -> St;
}.

(** An [async] function over the state [St]. *)
Definition Async (St A : Type) : Type := St -> JsResult A * St.

Definition resolve {St A} (a : A) : Async St A := fun s => (Ok a, s).
Definition reject {St A} (e : JsError) : Async St A := fun s => (Throw e, s).

(** [await]: a rejection propagates. *)
Definition await {St A B} (m : Async St A) (k : A -> Async St B) : Async St B :=
  fun s =>
    match m s with
    | (Ok a, s') => k a s'
    | (Throw e, s') => (Throw e, s')
    end.

(** [try { m } catch (error) { h error }]. *)
Definition try_catch {St A} (m : Async St A) (h : JsError -> Async St A)
    : Async St A :=
  fun s =>
    match m s with
    | (Ok a, s') => (Ok a, s')
    | (Throw e, s') => h e s'
    end.

(** A synchronous effect lifted to an [async] step. *)
Definition effect {St} (f : St -> St) : Async St unit := fun s => (Ok tt, f s).

Notation "x <- m ;; k" := (await m (fun x => k))
  (at level 100, m at next level, right associativity).
Notation "m ;;; k" := (await m (fun _ => k))
  (at level 100, right associativity).

Definition context_of_string (op : string) : ErrorContext :=
  {| operation := Some op; userId := None; resourceId := None;
     resourceType := None |}.

(** [logError(error, context)]: classifies, then writes one structured
    line. *)
Definition logError {St} `{Runtime St} (error : JsError) (context : ErrorContext)
    : Async St unit :=
  fun s =>
    match transformError error with
    | Throw e => (Throw e, s)
    | Ok supabaseError =>
      (Ok tt,
       console_error
         (SupabaseErrorLine
            {| log_type := type supabaseError;
               log_message := message supabaseError;
               log_context := context;
               log_originalError := originalError supabaseError |}) s)
    end.

Definition logDatabaseError {St} `{Runtime St} (error : JsError)
    (op resType : string) (resId uid : option string) : Async St unit :=
  logError error
    {| operation := Some op; resourceType := Some resType;
       resourceId := resId; userId := uid |}.

(** ** Shared retry utilities (lib/supabase/retry.ts) *)

Module Retry.

Record RetryOptions (St : Type) := {
  maxRetries : option nat;
  baseDelay : option Q;
  maxDelay : option Q;
  shouldRetry : option (JsError -> JsResult bool);
  onRetry : option (JsError -> nat -> St -> St);
}.
Arguments maxRetries {St} _.
Arguments baseDelay {St} _.
Arguments maxDelay {St} _.
Arguments shouldRetry {St} _.
Arguments onRetry {St} _.

(** [Required<RetryOptions>]. *)
Record RetryConfig (St : Type) := {
  cfg_maxRetries : nat;
  cfg_baseDelay : Q;
  cfg_maxDelay : Q;
  cfg_shouldRetry : JsError -> JsResult bool;
  cfg_onRetry : JsError -> nat -> St -> St;
}.
Arguments cfg_maxRetries {St} _.
Arguments cfg_baseDelay {St} _.
Arguments cfg_maxDelay {St} _.
Arguments cfg_shouldRetry {St} _.
Arguments cfg_onRetry {St} _.

Definition no_options {St} : RetryOptions St :=
  {| maxRetries := None; baseDelay := None; maxDelay := None;
     shouldRetry := None; onRetry := None |}.

Definition DEFAULT_RETRY_OPTIONS {St} : RetryConfig St :=
  {| cfg_maxRetries := 3;
     cfg_baseDelay := 1000;
     cfg_maxDelay := 10000;
     cfg_shouldRetry := fun error => isNetworkError error;
     cfg_onRetry := fun _ _ s => s |}.

(** [{ ...DEFAULT_RETRY_OPTIONS, ...options }], for [options] whose
    [maxRetries], when given, is a natural number: the count that the loop
    condition [attempt <= config.maxRetries] and the test
    [attempt === config.maxRetries] are written for.  (A [maxRetries] that
    is given as [undefined], [NaN] or a negative number makes the loop
    condition false at once; no caller of the repository passes one.) *)
Definition merge_options {St} (options : RetryOptions St) : RetryConfig St :=
  {| cfg_maxRetries := default 3%nat (maxRetries options);
     cfg_baseDelay := default 1000%Q (baseDelay options);
     cfg_maxDelay := default 10000%Q (maxDelay options);
     cfg_shouldRetry :=
       default (cfg_shouldRetry (@DEFAULT_RETRY_OPTIONS St))
               (shouldRetry options);
     cfg_onRetry :=
       default (cfg_onRetry (@DEFAULT_RETRY_OPTIONS St)) (onRetry options) |}.

(** [calculateBackoffDelay(attempt, baseDelay, maxDelay)]; the draw of
    [Math.random()] is taken from the runtime.  The arithmetic is exact,
    where the code rounds each result to a double: a bound that holds
    here with [<=] holds of the code, a strict one need not (the sum
    [0.5 + Math.random()] can round to 1.5). *)
Definition calculateBackoffDelay {St} `{Runtime St}
    (attempt : nat) (baseDelay maxDelay : Q) (s : St) : Q * St :=
  let exponentialDelay := (baseDelay * 2 ^ Z.of_nat attempt)%Q in
  let (rnd, s') := Math_random s in
  let jitter := (0.5 + rnd)%Q in
  let delayWithJitter := (exponentialDelay * jitter)%Q in
  (Qmin delayWithJitter maxDelay, s').

(** The [for (let attempt = 0; attempt <= config.maxRetries; attempt++)]
    loop of [withRetry], entered at [attempt] with [remaining] further
    iterations allowed by the loop condition. *)
Fixpoint withRetry_loop {St T} `{Runtime St} (config : RetryConfig St)
    (operation : Async St T) (remaining attempt : nat) : Async St T :=
  try_catch operation (fun error =>
    let isLastAttempt := Nat.eqb attempt (cfg_maxRetries config) in
    fun s =>
      match cfg_shouldRetry config error with
      | Throw e => (Throw e, s)
      | Ok should =>
        if isLastAttempt || negb should then
          (logError error
             (context_of_string
                ("Operation failed after " +:+ pretty (attempt + 1)%nat
                   +:+ " attempts")) ;;;
           reject error) s
        else
          let (delay, s1) :=
            calculateBackoffDelay attempt (cfg_baseDelay config)
              (cfg_maxDelay config) s in
          (logError error
             (context_of_string
                ("Retry attempt " +:+ pretty (attempt + 1)%nat +:+ "/"
                   +:+ pretty (cfg_maxRetries config))) ;;;
           effect (cfg_onRetry config error (attempt + 1)%nat) ;;;
           effect (setTimeout delay) ;;;
           match remaining with
           | O => reject error           (* loop left: [throw lastError] *)
           | S remaining' =>
             withRetry_loop config operation remaining' (S attempt)
           end) s1
      end).

Definition withRetry {St T} `{Runtime St} (operation : Async St T)
    (options : RetryOptions St) : Async St T :=
  let config := merge_options options in
  withRetry_loop config operation (cfg_maxRetries config) 0.

Definition createRetryWrapper {St} `{Runtime St} (options : RetryOptions St)
    {T} (operation : Async St T) : Async St T :=
  withRetry operation options.

Definition withDatabaseRetry_shouldRetry (error : JsError) : JsResult bool :=
  match isNetworkError error with
  | Throw e => Throw e
  | Ok true => Ok true
  | Ok false =>
    match error with
    | Raw o => Ok (code_is o "PGRST301" || code_is o "08000")
    | Classified _ => Ok false   (* a SupabaseError has no [code] *)
    end
  end.

Definition withDatabaseRetry {St} `{Runtime St} {T}
    : Async St T -> Async St T :=
  createRetryWrapper
    {| maxRetries := Some 3%nat; baseDelay := Some 1000%Q;
       maxDelay := Some 5000%Q;
       shouldRetry := Some withDatabaseRetry_shouldRetry;
       onRetry := None |}.

Definition withAuthRetry {St} `{Runtime St} {T}
    : Async St T -> Async St T :=
  createRetryWrapper
    {| maxRetries := Some 2%nat; baseDelay := Some 1000%Q;
       maxDelay := Some 3000%Q;
       shouldRetry := Some (fun error => isNetworkError error);
       onRetry := None |}.

End Retry.


(** ** Data model (types/index.ts) *)

Record Transaction := {
  tx_id : string;
  tx_user_id : string;
  tx_category_id : option string;
  tx_description : string;
  tx_amount : Q;
  tx_category_name : string;
  tx_created_at : Z;
}.

Record SpendingCategory := {
  cat_id : string;
  cat_user_id : string;
  cat_name : string;
  cat_value : Q;
  cat_budget : Q;
  cat_color : string;
  cat_created_at : Z;
  cat_updated_at : Z;
}.

Record FinancialGoal := {
  goal_id : string;
  goal_user_id : string;
  goal_title : string;
  goal_target_amount : Q;
  goal_current_amount : Q;
  goal_months_remaining : Q;
  goal_created_at : Z;
  goal_updated_at : Z;
}.

(** [Omit<Transaction, 'id' | 'created_at'> & { user_id: string }]. *)
Record TransactionInsert := {
  ti_user_id : string;
  ti_category_id : option string;
  ti_description : string;
  ti_amount : Q;
  ti_category_name : string;
}.

(** [Omit<Transaction, 'id' | 'user_id' | 'created_at'>]. *)
Record TransactionDraft := {
  td_category_id : option string;
  td_description : string;
  td_amount : Q;
  td_category_name : string;
}.

Record CategoryInsert := {
  ci_user_id : string;
  ci_name : string;
  ci_value : Q;
  ci_budget : Q;
  ci_color : string;
}.

(** [Partial<Omit<SpendingCategory, 'id' | 'user_id' | 'created_at' | 'updated_at'>>]. *)
Record CategoryUpdates := {
  cu_name : option string;
  cu_value : option Q;
  cu_budget : option Q;
  cu_color : option string;
}.

(** [Partial<Omit<FinancialGoal, 'id' | 'user_id' | 'created_at' | 'updated_at'>>]. *)
Record GoalUpdates := {
  gu_title : option string;
  gu_target_amount : option Q;
  gu_current_amount : option Q;
  gu_months_remaining : option Q;
}.

(** [{ ...c, ...updates }]. *)
Definition spread_category (c : SpendingCategory) (updates : CategoryUpdates)
    : SpendingCategory :=
  {| cat_id := cat_id c; cat_user_id := cat_user_id c;
     cat_name := default (cat_name c) (cu_name updates);
     cat_value := default (cat_value c) (cu_value updates);
     cat_budget := default (cat_budget c) (cu_budget updates);
     cat_color := default (cat_color c) (cu_color updates);
     cat_created_at := cat_created_at c; cat_updated_at := cat_updated_at c |}.

(** [{ ...g, ...updates }]. *)
Definition spread_goal (g : FinancialGoal) (updates : GoalUpdates)
    : FinancialGoal :=
  {| goal_id := goal_id g; goal_user_id := goal_user_id g;
     goal_title := default (goal_title g) (gu_title updates);
     goal_target_amount :=
       default (goal_target_amount g) (gu_target_amount updates);
     goal_current_amount :=
       default (goal_current_amount g) (gu_current_amount updates);
     goal_months_remaining :=
       default (goal_months_remaining g) (gu_months_remaining updates);
     goal_created_at := goal_created_at g;
     goal_updated_at := goal_updated_at g |}.

(** [{ current_amount: amount }]. *)
Definition only_current_amount (amount : Q) : GoalUpdates :=
  {| gu_title := None; gu_target_amount := None;
     gu_current_amount := Some amount; gu_months_remaining := None |}.

(** [x || 0] on a number. *)
Definition or_zero (x : Q) : Q := if Qeq_bool x 0 then 0%Q else x.

(** Truthiness of a nullable identifier. *)
Definition truthy_id (o : option string) : option string :=
  match o with
  | Some s => if String.eqb s "" then None else Some s
  | None => None
  end.

(** [Array.prototype.sort(cmp)]: a stable sort, [cmp a b < 0] placing [a]
    first. *)
Fixpoint sort_insert {A} (cmp : A -> A -> Z) (x : A) (l : list A) : list A :=
  match l with
  | [] => [x]
  | y :: l' =>
    if (cmp y x <=? 0)%Z then y :: sort_insert cmp x l' else x :: y :: l'
  end.

Definition sort_array {A} (cmp : A -> A -> Z) (l : list A) : list A :=
  foldr (sort_insert cmp) [] (rev l).

(** ** The remote store

    The Supabase client is an external collaborator.  It is modelled by
    the three tables the services query, a script of faults (the outcome
    of the next requests: [Some e] makes the request answer
    [{ data: null, error: e }] without touching the tables), and a count
    of the requests sent.

    What the schema of the repository (the migration quoted in
    hooks/useAuth.ts) adds to a write is part of the model: the
    [BEFORE UPDATE] triggers that set [updated_at] to [NOW()] on
    [spending_categories] and [financial_goals], and
    [transactions.category_id REFERENCES spending_categories ON DELETE SET
    NULL].  The errors of the store, violations of its constraints and
    policies included, are those of the script of faults.  Amounts are
    read as exact numbers: the [DECIMAL(10, 2)] columns keep an amount
    given in cents as it is. *)

(** [PostgrestError]: what a query answers in its [error] field. *)
Record PostgrestError := {
  pg_message : string;
  pg_details : string;
  pg_hint : string;
  pg_code : string;
}.

(** The [error] of a response, as the value that [throw error] raises. *)
Definition thrown (e : PostgrestError) : JsError :=
  Raw {| e_class := ErrorInstance; e_name := Some "PostgrestError";
         __isAuthError := false; e_code := Some (pg_code e);
         e_message := Some (pg_message e); e_details := Some (pg_details e) |}.

(** [const { data, error } = await query]. *)
Inductive Response (A : Type) :=
| Data (data : A)
| Error (error : PostgrestError).
Arguments Data {A} data.
Arguments Error {A} error.

Record Backend := {
  tbl_transactions : list Transaction;
  tbl_spending_categories : list SpendingCategory;
  tbl_financial_goals : list FinancialGoal;
  faults : list (option PostgrestError);
  requests : nat;
  next_id : N;
  server_now : Z;
}.

Definition set_transactions (l : list Transaction) (b : Backend) : Backend :=
  {| tbl_transactions := l;
     tbl_spending_categories := tbl_spending_categories b;
     tbl_financial_goals := tbl_financial_goals b; faults := faults b;
     requests := requests b; next_id := next_id b;
     server_now := server_now b |}.

Definition set_spending_categories (l : list SpendingCategory) (b : Backend)
    : Backend :=
  {| tbl_transactions := tbl_transactions b; tbl_spending_categories := l;
     tbl_financial_goals := tbl_financial_goals b; faults := faults b;
     requests := requests b; next_id := next_id b;
     server_now := server_now b |}.

Definition set_financial_goals (l : list FinancialGoal) (b : Backend)
    : Backend :=
  {| tbl_transactions := tbl_transactions b;
     tbl_spending_categories := tbl_spending_categories b;
     tbl_financial_goals := l; faults := faults b; requests := requests b;
     next_id := next_id b; server_now := server_now b |}.

Definition set_faults (f : list (option PostgrestError)) (b : Backend)
    : Backend :=
  {| tbl_transactions := tbl_transactions b;
     tbl_spending_categories := tbl_spending_categories b;
     tbl_financial_goals := tbl_financial_goals b; faults := f;
     requests := requests b; next_id := next_id b;
     server_now := server_now b |}.

Definition count_request (b : Backend) : Backend :=
  {| tbl_transactions := tbl_transactions b;
     tbl_spending_categories := tbl_spending_categories b;
     tbl_financial_goals := tbl_financial_goals b; faults := faults b;
     requests := S (requests b); next_id := next_id b;
     server_now := server_now b |}.

(** The identifier that the remote store gives to a new row, drawn from a
    counter. *)
Definition take_id (b : Backend) : string * Backend :=
  ("row-" +:+ pretty (next_id b),
   {| tbl_transactions := tbl_transactions b;
      tbl_spending_categories := tbl_spending_categories b;
      tbl_financial_goals := tbl_financial_goals b; faults := faults b;
      requests := requests b; next_id := N.succ (next_id b);
      server_now := server_now b |}).

(** The head of the fault script is consumed by each request. *)
Definition next_fault (b : Backend) : option PostgrestError * Backend :=
  (mjoin (head (faults b)), set_faults (tail (faults b)) b).

(** One request to the remote store: counted, then answered by the fault
    script or by [run]. *)
Definition send {A} (run : Backend -> Response A * Backend) (b : Backend)
    : Response A * Backend :=
  let (fault, b1) := next_fault (count_request b) in
  match fault with
  | Some e => (Error e, b1)
  | None => run b1
  end.

Definition PGRST116 : PostgrestError :=
  {| pg_message := "JSON object requested, multiple (or no) rows returned";
     pg_details := "The result does not contain exactly one row";
     pg_hint := ""; pg_code := "PGRST116" |}.

(** [.single()]. *)
Definition single {A} (rows : list A) : Response A :=
  match rows with
  | [r] => Data r
  | _ => Error PGRST116
  end.

Definition id_eqb (a b : string) : bool := String.eqb a b.

(** [.range(from, to)]: the rows at the positions [from] to [to], both
    included, counted from 0. *)
Definition range {A} (from to : Z) (rows : list A) : list A :=
  take (Z.to_nat (to - from + 1)) (drop (Z.to_nat from) rows).

(** [from('transactions').select('*').eq('user_id', userId)
     .order('created_at', { ascending: false }).range(from, to)].  The
    query orders by [created_at] only: rows of equal [created_at] are
    served here in the order of the table, which the store does not
    promise. *)
Definition select_transactions (userId : string) (from to : Z)
    : Backend -> Response (list Transaction) * Backend :=
  send (fun b =>
    let rows := filter (fun t => tx_user_id t = userId) (tbl_transactions b) in
    let ordered :=
      sort_array (fun x y => (tx_created_at y - tx_created_at x)%Z) rows in
    (Data (range from to ordered), b)).

(** [from('transactions').insert({...}).select().single()] *)
Definition insert_transaction (t : TransactionInsert)
    : Backend -> Response Transaction * Backend :=
  send (fun b =>
    let (new_id, b1) := take_id b in
    let row :=
      {| tx_id := new_id; tx_user_id := ti_user_id t;
         tx_category_id := ti_category_id t;
         tx_description := ti_description t; tx_amount := ti_amount t;
         tx_category_name := ti_category_name t;
         tx_created_at := server_now b |} in
    (Data row, set_transactions (tbl_transactions b1 ++ [row]) b1)).

(** [from('transactions').select('category_id, amount, user_id')
     .eq('id', id).single()] *)
Definition select_transaction (id : string)
    : Backend -> Response Transaction * Backend :=
  send (fun b =>
    (single (filter (fun t => tx_id t = id) (tbl_transactions b)), b)).

(** [from('transactions').delete().eq('id', id)] *)
Definition delete_transaction (id : string)
    : Backend -> Response unit * Backend :=
  send (fun b =>
    (Data tt,
     set_transactions (filter (fun t => tx_id t ≠ id) (tbl_transactions b)) b)).

(** [from('spending_categories').select('*').eq('user_id', userId)
     .order('created_at', { ascending: true })] *)
Definition select_categories (userId : string)
    : Backend -> Response (list SpendingCategory) * Backend :=
  send (fun b =>
    let rows :=
      filter (fun c => cat_user_id c = userId) (tbl_spending_categories b) in
    (Data (sort_array (fun x y => (cat_created_at x - cat_created_at y)%Z) rows),
     b)).

(** [from('spending_categories').select('value').eq('id', id).single()] *)
Definition select_category (id : string)
    : Backend -> Response SpendingCategory * Backend :=
  send (fun b =>
    (single (filter (fun c => cat_id c = id) (tbl_spending_categories b)), b)).

(** [from('spending_categories').insert({...}).select().single()] *)
Definition insert_category (c : CategoryInsert)
    : Backend -> Response SpendingCategory * Backend :=
  send (fun b =>
    let (new_id, b1) := take_id b in
    let row :=
      {| cat_id := new_id; cat_user_id := ci_user_id c; cat_name := ci_name c;
         cat_value := ci_value c; cat_budget := ci_budget c;
         cat_color := ci_color c; cat_created_at := server_now b;
         cat_updated_at := server_now b |} in
    (Data row,
     set_spending_categories (tbl_spending_categories b1 ++ [row]) b1)).

(** The row [c] after an update of the rows of identifier [id]: the
    fields of [updates], and the [updated_at] that the trigger sets. *)
Definition patch_category (id : string) (updates : CategoryUpdates)
    (updated_at : Z) (c : SpendingCategory) : SpendingCategory :=
  if id_eqb (cat_id c) id then
    let c' := spread_category c updates in
    {| cat_id := cat_id c'; cat_user_id := cat_user_id c';
       cat_name := cat_name c'; cat_value := cat_value c';
       cat_budget := cat_budget c'; cat_color := cat_color c';
       cat_created_at := cat_created_at c'; cat_updated_at := updated_at |}
  else c.

(** [from('spending_categories').update({ ...updates, updated_at }).eq('id', id)].
    The [updated_at] of the payload is overwritten by the trigger
    [update_spending_categories_updated_at]: [NEW.updated_at = NOW()]. *)
Definition update_category (id : string) (updates : CategoryUpdates)
    (updated_at : Z) : Backend -> Response unit * Backend :=
  send (fun b =>
    (Data tt,
     set_spending_categories
       (map (patch_category id updates (server_now b))
          (tbl_spending_categories b))
       b)).

(** [... .update({...}).eq('id', id).select().single()] *)
Definition update_category_returning (id : string) (updates : CategoryUpdates)
    (updated_at : Z) : Backend -> Response SpendingCategory * Backend :=
  send (fun b =>
    let rows :=
      map (patch_category id updates (server_now b))
        (tbl_spending_categories b) in
    (single (filter (fun c => cat_id c = id) rows),
     set_spending_categories rows b)).

(** [{ value: newValue }]. *)
Definition only_value (newValue : Q) : CategoryUpdates :=
  {| cu_name := None; cu_value := Some newValue; cu_budget := None;
     cu_color := None |}.

(** [from('financial_goals').select('*').eq('user_id', userId)
     .order('created_at', { ascending: true })] *)
Definition select_goals (userId : string)
    : Backend -> Response (list FinancialGoal) * Backend :=
  send (fun b =>
    let rows :=
      filter (fun g => goal_user_id g = userId) (tbl_financial_goals b) in
    (Data (sort_array (fun x y => (goal_created_at x - goal_created_at y)%Z)
             rows),
     b)).

(** [from('financial_goals').select('current_amount, user_id')
     .eq('id', goalId).single()] *)
Definition select_goal (id : string)
    : Backend -> Response FinancialGoal * Backend :=
  send (fun b =>
    (single (filter (fun g => goal_id g = id) (tbl_financial_goals b)), b)).

(** The row [g] after an update of the rows of identifier [id]: the
    fields of [updates], and the [updated_at] that the trigger sets. *)
Definition patch_goal (id : string) (updates : GoalUpdates) (updated_at : Z)
    (g : FinancialGoal) : FinancialGoal :=
  if id_eqb (goal_id g) id then
    let g' := spread_goal g updates in
    {| goal_id := goal_id g'; goal_user_id := goal_user_id g';
       goal_title := goal_title g';
       goal_target_amount := goal_target_amount g';
       goal_current_amount := goal_current_amount g';
       goal_months_remaining := goal_months_remaining g';
       goal_created_at := goal_created_at g'; goal_updated_at := updated_at |}
  else g.

(** [from('financial_goals').update({ ...updates, updated_at }).eq('id', id)
     .select().single()].  The [updated_at] of the payload is overwritten
    by the trigger [update_financial_goals_updated_at]:
    [NEW.updated_at = NOW()]. *)
Definition update_goal_returning (id : string) (updates : GoalUpdates)
    (updated_at : Z) : Backend -> Response FinancialGoal * Backend :=
  send (fun b =>
    let rows :=
      map (patch_goal id updates (server_now b)) (tbl_financial_goals b) in
    (single (filter (fun g => goal_id g = id) rows),
     set_financial_goals rows b)).

(** [Omit<FinancialGoal, 'id' | 'created_at' | 'updated_at'> & { user_id: string }]. *)
Record GoalInsert := {
  gi_user_id : string;
  gi_title : string;
  gi_target_amount : Q;
  gi_current_amount : Q;
  gi_months_remaining : Q;
}.

(** [from('financial_goals').insert({...}).select().single()] *)
Definition insert_goal (g : GoalInsert)
    : Backend -> Response FinancialGoal * Backend :=
  send (fun b =>
    let (new_id, b1) := take_id b in
    let row :=
      {| goal_id := new_id; goal_user_id := gi_user_id g;
         goal_title := gi_title g; goal_target_amount := gi_target_amount g;
         goal_current_amount := gi_current_amount g;
         goal_months_remaining := gi_months_remaining g;
         goal_created_at := server_now b; goal_updated_at := server_now b |} in
    (Data row, set_financial_goals (tbl_financial_goals b1 ++ [row]) b1)).




(** ** The client-side world *)

(** A [localStorage] value written by the hooks: the JSON text of a
    collection, identified with the collection it encodes. *)
Inductive StoredValue :=
| JsonTransactions (l : list Transaction)
| JsonCategories (l : list SpendingCategory)
| JsonGoals (l : list FinancialGoal).

Record World := {
  navigator_onLine : option bool;   (* [None]: [navigator] is undefined *)
  Date_now : Z;
  entropy : list Q;                 (* the next draws of [Math.random()] *)
  console : list ConsoleLine;       (* oldest line first *)
  timers : list Q;                  (* delays awaited, oldest first *)
  supabase : Backend;
  localStorage : gmap string StoredValue;
}.

Definition set_entropy (l : list Q) (w : World) : World :=
  {| navigator_onLine := navigator_onLine w; Date_now := Date_now w;
     entropy := l; console := console w; timers := timers w;
     supabase := supabase w; localStorage := localStorage w |}.

Definition set_console (l : list ConsoleLine) (w : World) : World :=
  {| navigator_onLine := navigator_onLine w; Date_now := Date_now w;
     entropy := entropy w; console := l; timers := timers w;
     supabase := supabase w; localStorage := localStorage w |}.

Definition set_timers (l : list Q) (w : World) : World :=
  {| navigator_onLine := navigator_onLine w; Date_now := Date_now w;
     entropy := entropy w; console := console w; timers := l;
     supabase := supabase w; localStorage := localStorage w |}.

Definition set_supabase (b : Backend) (w : World) : World :=
  {| navigator_onLine := navigator_onLine w; Date_now := Date_now w;
     entropy := entropy w; console := console w; timers := timers w;
     supabase := b; localStorage := localStorage w |}.

Definition set_localStorage (m : gmap string StoredValue) (w : World) : World :=
  {| navigator_onLine := navigator_onLine w; Date_now := Date_now w;
     entropy := entropy w; console := console w; timers := timers w;
     supabase := supabase w; localStorage := m |}.

(** An exhausted script of draws answers 0. *)
#[global] Instance World_Runtime : Runtime World := {
  console_error line w := set_console (console w ++ [line]) w;
  Math_random w :=
    match entropy w with
    | r :: rest => (r, set_entropy rest w)
    | [] => (0%Q, w)
    end;
  setTimeout delay w := set_timers (timers w ++ [delay]) w;
}.

(** [await supabase.from(...)...]: the promise of a query always resolves,
    to a [{ data, error }] pair. *)
Definition query {A} (q : Backend -> Response A * Backend)
    : Async World (Response A) :=
  fun w => let (r, b) := q (supabase w) in (Ok r, set_supabase b w).

(** [new Date()], read for [toISOString()]. *)
Definition new_Date : Async World Z := fun w => (Ok (Date_now w), w).

(** ** Entity services (lib/supabase/services) *)

Module Services.

(** The [withRetry] helper that each of transactions.ts, categories.ts and
    goals.ts declares for itself, with the same text: the loop
    [for (let i = 0; i < maxRetries; i++)], entered at [i] with
    [remaining] iterations left. *)
Fixpoint withRetry_loop {St T} `{Runtime St} (operation : Async St T)
    (maxRetries : nat) (baseDelay : Q) (remaining i : nat) : Async St T :=
  match remaining with
  | O => reject (Raw (new_Error "Max retries exceeded"))
  | S remaining' =>
    try_catch operation (fun error =>
      if Nat.eqb i (maxRetries - 1) then reject error
      else
        effect (setTimeout (baseDelay * 2 ^ Z.of_nat i)%Q) ;;;
        withRetry_loop operation maxRetries baseDelay remaining' (S i))
  end.

Definition withRetry {St T} `{Runtime St} (operation : Async St T)
    (maxRetries : nat) (baseDelay : Q) : Async St T :=
  withRetry_loop operation maxRetries baseDelay maxRetries 0.

(** The defaults [maxRetries = 3, baseDelay = 1000], which every call site
    uses. *)
Definition withRetry_default {St T} `{Runtime St} (operation : Async St T)
    : Async St T :=
  withRetry operation 3 1000.

(** [handleError(error, operation, userId, resourceId)], for the resource
    type of the calling service. *)
Definition handleError {T} (resType : string) (error : JsError) (op : string)
    (uid resId : option string) : Async World T :=
  logDatabaseError error op resType resId uid ;;;
  reject (Raw (new_Error
                 ("Failed to " +:+ op +:+ ": "
                    +:+ or_else (error_message error) "Unknown error"))).

(** *** transactions.ts *)

Definition getTransactions (userId : string) (limit offset : nat)
    : Async World (list Transaction) :=
  try_catch
    (withRetry_default
       (r <- query (select_transactions userId (Z.of_nat offset)
                      (Z.of_nat offset + Z.of_nat limit - 1)) ;;
        match r with
        | Error error => reject (thrown error)
        | Data data => resolve data
        end))
    (fun error =>
       handleError "transaction" error "get transactions" (Some userId) None).

(** The secondary write of [createTransaction]: add the amount to the
    running value of the category. *)
Definition adjust_category_after_create (category_id user_id : string)
    (amount : Q) : Async World unit :=
  r <- query (select_category category_id) ;;
  match r with
  | Error categoryFetchError =>
    logDatabaseError (thrown categoryFetchError)
      "fetch category for transaction update" "spending_category"
      (Some category_id) (Some user_id)
  | Data category =>
    let newValue := (or_zero (cat_value category) + amount)%Q in
    now <- new_Date ;;
    r' <- query (update_category category_id (only_value newValue) now) ;;
    match r' with
    | Error categoryUpdateError =>
      logDatabaseError (thrown categoryUpdateError)
        "update category value after transaction" "spending_category"
        (Some category_id) (Some user_id)
    | Data _ => resolve tt
    end
  end.

Definition createTransaction (transaction : TransactionInsert)
    : Async World Transaction :=
  try_catch
    (withRetry_default
       (r <- query (insert_transaction transaction) ;;
        match r with
        | Error transactionError => reject (thrown transactionError)
        | Data newTransaction =>
          match truthy_id (ti_category_id transaction) with
          | Some category_id =>
            adjust_category_after_create category_id (ti_user_id transaction)
              (ti_amount transaction)
          | None => resolve tt
          end ;;;
          resolve newTransaction
        end))
    (fun error =>
       handleError "transaction" error "create transaction"
         (Some (ti_user_id transaction)) None).

(** The secondary write of [deleteTransaction]: subtract the amount from
    the running value of the category, not below zero. *)
Definition adjust_category_after_delete (category_id user_id : string)
    (amount : Q) : Async World unit :=
  r <- query (select_category category_id) ;;
  match r with
  | Error categoryFetchError =>
    logDatabaseError (thrown categoryFetchError)
      "fetch category for transaction deletion" "spending_category"
      (Some category_id) (Some user_id)
  | Data category =>
    let newValue := Qmax 0 (or_zero (cat_value category) - amount)%Q in
    now <- new_Date ;;
    r' <- query (update_category category_id (only_value newValue) now) ;;
    match r' with
    | Error categoryUpdateError =>
      logDatabaseError (thrown categoryUpdateError)
        "update category value after transaction deletion"
        "spending_category" (Some category_id) (Some user_id)
    | Data _ => resolve tt
    end
  end.

Definition deleteTransaction (id : string) : Async World unit :=
  try_catch
    (withRetry_default
       (r <- query (select_transaction id) ;;
        match r with
        | Error fetchError => reject (thrown fetchError)
        | Data transaction =>
          r' <- query (delete_transaction id) ;;
          match r' with
          | Error deleteError => reject (thrown deleteError)
          | Data _ =>
            match truthy_id (tx_category_id transaction) with
            | Some category_id =>
              adjust_category_after_delete category_id
                (tx_user_id transaction) (tx_amount transaction)
            | None => resolve tt
            end
          end
        end))
    (fun error =>
       handleError "transaction" error "delete transaction" None (Some id)).

(** *** categories.ts *)

Definition getCategories (userId : string)
    : Async World (list SpendingCategory) :=
  try_catch
    (withRetry_default
       (r <- query (select_categories userId) ;;
        match r with
        | Error error => reject (thrown error)
        | Data data => resolve data
        end))
    (fun error =>
       handleError "spending_category" error "get categories" (Some userId)
         None).

Definition createCategory (category : CategoryInsert)
    : Async World SpendingCategory :=
  try_catch
    (withRetry_default
       (r <- query (insert_category
                      {| ci_user_id := ci_user_id category;
                         ci_name := ci_name category;
                         ci_value := or_zero (ci_value category);
                         ci_budget := ci_budget category;
                         ci_color := ci_color category |}) ;;
        match r with
        | Error error => reject (thrown error)
        | Data data => resolve data
        end))
    (fun error =>
       handleError "spending_category" error "create category"
         (Some (ci_user_id category)) None).

Definition updateCategory (id : string) (updates : CategoryUpdates)
    : Async World SpendingCategory :=
  try_catch
    (withRetry_default
       (now <- new_Date ;;
        r <- query (update_category_returning id updates now) ;;
        match r with
        | Error error => reject (thrown error)
        | Data data => resolve data
        end))
    (fun error =>
       handleError "spending_category" error "update category" None (Some id)).

(** *** goals.ts *)

Definition getGoals (userId : string) : Async World (list FinancialGoal) :=
  try_catch
    (withRetry_default
       (r <- query (select_goals userId) ;;
        match r with
        | Error error => reject (thrown error)
        | Data data => resolve data
        end))
    (fun error =>
       handleError "financial_goal" error "get goals" (Some userId) None).

Definition updateGoal (id : string) (updates : GoalUpdates)
    : Async World FinancialGoal :=
  try_catch
    (withRetry_default
       (now <- new_Date ;;
        r <- query (update_goal_returning id updates now) ;;
        match r with
        | Error error => reject (thrown error)
        | Data data => resolve data
        end))
    (fun error =>
       handleError "financial_goal" error "update goal" None (Some id)).

Definition addContribution (goalId : string) (amount : Q)
    : Async World FinancialGoal :=
  try_catch
    (withRetry_default
       (r <- query (select_goal goalId) ;;
        match r with
        | Error fetchError => reject (thrown fetchError)
        | Data goal =>
          let newAmount := (or_zero (goal_current_amount goal) + amount)%Q in
          now <- new_Date ;;
          r' <- query (update_goal_returning goalId
                         (only_current_amount newAmount) now) ;;
          match r' with
          | Error error => reject (thrown error)
          | Data data => resolve data
          end
        end))
    (fun error =>
       handleError "financial_goal" error "add contribution to goal" None
         (Some goalId)).

(** *** The remaining operations of goals.ts and categories.ts *)

Definition createGoal (goal : GoalInsert) : Async World FinancialGoal :=
  try_catch
    (withRetry_default
       (r <- query (insert_goal
                      {| gi_user_id := gi_user_id goal;
                         gi_title := gi_title goal;
                         gi_target_amount := gi_target_amount goal;
                         gi_current_amount := or_zero (gi_current_amount goal);
                         gi_months_remaining := gi_months_remaining goal |}) ;;
        match r with
        | Error error => reject (thrown error)
        | Data data => resolve data
        end))
    (fun error =>
       handleError "financial_goal" error "create goal"
         (Some (gi_user_id goal)) None).



End Services.

(** ** Data hooks (hooks/) *)

(** [typeof navigator !== 'undefined' && !navigator.onLine]. *)
Definition offline (w : World) : bool :=
  match navigator_onLine w with
  | Some onLine => negb onLine
  | None => false
  end.

(** [err instanceof Error ? err.message : fallback]. *)
Definition message_or (err : JsError) (fallback : string) : option string :=
  if instanceof_Error err then error_message err else Some fallback.

(** [localStorage.setItem(key, JSON.stringify(value))]. *)
Definition localStorage_setItem (key : string) (value : StoredValue)
    (w : World) : World :=
  set_localStorage (<[key := value]> (localStorage w)) w.

(** An optional callback, called when present. *)
Definition call_optional {V} (f : option (V -> V)) (v : V) : V :=
  match f with
  | Some g => g v
  | None => v
  end.

Module useTransactions.

Definition CACHE_KEY_PREFIX : string := "finsmart_transactions_".

(** The [useState] cells of [useTransactions]. *)
Record State := {
  transactions : list Transaction;
  loading : bool;
  error : option string;
  offset : nat;
  hasMore : bool;
}.

Definition setTransactions (l : list Transaction) (st : State) : State :=
  {| transactions := l; loading := loading st; error := error st;
     offset := offset st; hasMore := hasMore st |}.
Definition setLoading (b : bool) (st : State) : State :=
  {| transactions := transactions st; loading := b; error := error st;
     offset := offset st; hasMore := hasMore st |}.
Definition setError (e : option string) (st : State) : State :=
  {| transactions := transactions st; loading := loading st; error := e;
     offset := offset st; hasMore := hasMore st |}.
Definition setOffset (n : nat) (st : State) : State :=
  {| transactions := transactions st; loading := loading st;
     error := error st; offset := n; hasMore := hasMore st |}.
Definition setHasMore (b : bool) (st : State) : State :=
  {| transactions := transactions st; loading := loading st;
     error := error st; offset := offset st; hasMore := b |}.

(** [fetchTransactions(reset)], for the [user?.id], [limit] and [offset]
    that the callback closed over. *)
Definition fetchTransactions (user : option string) (limit offset : nat)
    (reset : bool) (st : State) (w : World) : State * World :=
  match user with
  | None => (setLoading false st, w)
  | Some uid =>
    let st := setError None st in
    let currentOffset := if reset then O else offset in
    match Services.getTransactions uid limit currentOffset w with
    | (Ok data, w) =>
      let '(st, w) :=
        if reset then
          (setOffset 0 (setTransactions data st),
           localStorage_setItem (CACHE_KEY_PREFIX +:+ uid)
             (JsonTransactions data) w)
        else (setTransactions (transactions st ++ data) st, w) in
      (setLoading false (setHasMore (Nat.eqb (length data) limit) st), w)
    | (Throw err, w) =>
      (setLoading false
         (setError (message_or err "Failed to load transactions") st),
       console_error (ErrorLine "Error fetching transactions:" err) w)
    end
  end.

(** [loadMore()]: the fetch uses the offset of the render that created the
    callback, the state update applies to the current one. *)
Definition loadMore (user : option string) (limit : nat) (st : State)
    (w : World) : State * World :=
  if negb (hasMore st) || loading st then (st, w)
  else
    fetchTransactions user limit (offset st) false
      (setOffset (offset st + limit) st) w.

Definition refetch (user : option string) (limit : nat) (st : State)
    (w : World) : State * World :=
  fetchTransactions user limit (offset st) true (setOffset 0 st) w.

(** The callback given to [subscribeToTransactions]. *)
Definition onChange (uid : string) (limit : nat)
    (updatedTransactions : list Transaction) (st : State) (w : World)
    : State * World :=
  (setHasMore (Nat.eqb (length updatedTransactions) limit)
     (setOffset 0 (setTransactions updatedTransactions st)),
   localStorage_setItem (CACHE_KEY_PREFIX +:+ uid)
     (JsonTransactions updatedTransactions) w).

(** The [useState] cells of [useAddTransaction]. *)
Record AddState := {
  adding : bool;
  add_error : option string;
}.

Definition addTransaction {V} (user : option string)
    (onOptimisticAdd : option (Transaction -> V -> V))
    (onRollback : option (string -> V -> V))
    (transaction : TransactionDraft) (st : AddState) (v : V) (w : World)
    : JsResult Transaction * (AddState * V * World) :=
  match user with
  | None => (Throw (Raw (new_Error "User not authenticated")), (st, v, w))
  | Some uid =>
    if offline w then
      (Throw (Raw (new_Error
         "You are offline. Please connect to the internet to add transactions.")),
       (st, v, w))
    else
      let st := {| adding := true; add_error := None |} in
      let optimisticTransaction :=
        {| tx_id := "temp-" +:+ pretty (Date_now w); tx_user_id := uid;
           tx_category_id := td_category_id transaction;
           tx_description := td_description transaction;
           tx_amount := td_amount transaction;
           tx_category_name := td_category_name transaction;
           tx_created_at := Date_now w |} in
      let v := call_optional (option_map (fun f => f optimisticTransaction)
                                onOptimisticAdd) v in
      match Services.createTransaction
              {| ti_user_id := uid;
                 ti_category_id := td_category_id transaction;
                 ti_description := td_description transaction;
                 ti_amount := td_amount transaction;
                 ti_category_name := td_category_name transaction |} w with
      | (Ok newTransaction, w) =>
        (Ok newTransaction, ({| adding := false; add_error := add_error st |}, v, w))
      | (Throw err, w) =>
        let v := call_optional
                   (option_map (fun f => f (tx_id optimisticTransaction))
                      onRollback) v in
        let errorMessage := message_or err "Failed to add transaction" in
        (Throw err, ({| adding := false; add_error := errorMessage |}, v, w))
      end
  end.

(** The [useState] cells of [useDeleteTransaction]. *)
Record DeleteState := {
  deleting : bool;
  delete_error : option string;
}.

Definition deleteTransactionMutation (id : string) (st : DeleteState)
    (w : World) : JsResult unit * (DeleteState * World) :=
  let st := {| deleting := true; delete_error := None |} in
  match Services.deleteTransaction id w with
  | (Ok _, w) =>
    (Ok tt, ({| deleting := false; delete_error := delete_error st |}, w))
  | (Throw err, w) =>
    let errorMessage := message_or err "Failed to delete transaction" in
    (Throw err, ({| deleting := false; delete_error := errorMessage |}, w))
  end.

(** The effect that loads the cached data on mount:
    [const cached = localStorage.getItem(cacheKey);
     if (cached) setX(JSON.parse(cached))].  The key holds what this hook
    stored under it, the JSON text of a collection of its kind, which is
    not empty and which [JSON.parse] reads back. *)
Definition hydrate (user : option string) (st : State) (w : World) : State :=
  match user with
  | Some uid =>
    match localStorage w !! (CACHE_KEY_PREFIX +:+ uid) with
    | Some (JsonTransactions cached) => setTransactions cached st
    | _ => st
    end
  | None => st
  end.

End useTransactions.

(** [Promise.all(ms)]: every call runs; the result is the list of values,
    or the first rejection. *)
Fixpoint Promise_all {St A} (ms : list (Async St A)) : Async St (list A) :=
  match ms with
  | [] => resolve []
  | m :: rest =>
    fun s =>
      match m s with
      | (Ok a, s1) =>
        match Promise_all rest s1 with
        | (Ok l, s2) => (Ok (a :: l), s2)
        | (Throw e, s2) => (Throw e, s2)
        end
      | (Throw e, s1) => (Throw e, snd (Promise_all rest s1))
      end
  end.

(** [Array.prototype.indexOf] on strings: [-1] when absent. *)
Fixpoint indexOf (l : list string) (x : string) : Z :=
  match l with
  | [] => (-1)%Z
  | y :: l' =>
    if String.eqb y x then 0%Z
    else let i := indexOf l' x in if (i =? -1)%Z then (-1)%Z else (i + 1)%Z
  end.

Module useCategories.

Definition CACHE_KEY_PREFIX : string := "finsmart_categories_".

Definition FIXED_CATEGORIES : list string :=
  [ "Food and Groceries"; "Shopping"; "Housing"; "Transportation";
    "Debt Payments"; "Entertainment"; "Utilities"; "Healthcare"; "Personal";
    "Insurance" ].

Definition DEFAULT_COLORS : list string :=
  [ "#10b981"; "#3b82f6"; "#f59e0b"; "#ef4444"; "#8b5cf6"; "#ec4899";
    "#06b6d4"; "#f97316"; "#6366f1"; "#14b8a6" ].

(** The [useState] cells of [useCategories]. *)
Record State := {
  categories : list SpendingCategory;
  loading : bool;
  error : option string;
}.

Definition setCategories (l : list SpendingCategory) (st : State) : State :=
  {| categories := l; loading := loading st; error := error st |}.
Definition setLoading (b : bool) (st : State) : State :=
  {| categories := categories st; loading := b; error := error st |}.
Definition setError (e : option string) (st : State) : State :=
  {| categories := categories st; loading := loading st; error := e |}.

(** The comparator given to [sort] in both branches of [fetchCategories]. *)
Definition by_fixed_order (a b : SpendingCategory) : Z :=
  let aIndex := indexOf FIXED_CATEGORIES (cat_name a) in
  let bIndex := indexOf FIXED_CATEGORIES (cat_name b) in
  if negb (aIndex =? -1)%Z && negb (bIndex =? -1)%Z then (aIndex - bIndex)%Z
  else if negb (aIndex =? -1)%Z then (-1)%Z
  else if negb (bIndex =? -1)%Z then 1%Z
  else 0%Z.

(** [DEFAULT_COLORS[FIXED_CATEGORIES.indexOf(name) % DEFAULT_COLORS.length]]. *)
Definition default_color (name : string) : string :=
  let i := Z.rem (indexOf FIXED_CATEGORIES name)
             (Z.of_nat (length DEFAULT_COLORS)) in
  if (i <? 0)%Z then "" else default "" (DEFAULT_COLORS !! Z.to_nat i).

(** The body of the [try] block of [fetchCategories], up to the value of
    [sortedCategories]. *)
Definition fetchCategories_try (uid : string)
    : Async World (list SpendingCategory) :=
  data <- Services.getCategories uid ;;
  let existingCategoryNames := map cat_name data in
  let missingCategories :=
    filter (fun name => name ∉ existingCategoryNames) FIXED_CATEGORIES in
  if (0 <? length missingCategories)%nat then
    newCategories <-
      Promise_all
        (map (fun name =>
                Services.createCategory
                  {| ci_user_id := uid; ci_name := name; ci_value := 0;
                     ci_budget := 0; ci_color := default_color name |})
             missingCategories) ;;
    let allCategories := (data ++ newCategories)%list in
    resolve (sort_array by_fixed_order allCategories)
  else resolve (sort_array by_fixed_order data).

Definition fetchCategories (user : option string) (st : State) (w : World)
    : State * World :=
  match user with
  | None => (setLoading false st, w)
  | Some uid =>
    let st := setError None st in
    match fetchCategories_try uid w with
    | (Ok sortedCategories, w) =>
      (setLoading false (setCategories sortedCategories st),
       localStorage_setItem (CACHE_KEY_PREFIX +:+ uid)
         (JsonCategories sortedCategories) w)
    | (Throw err, w) =>
      (setLoading false
         (setError (message_or err "Failed to load categories") st),
       console_error (ErrorLine "Error fetching categories:" err) w)
    end
  end.

(** The callback given to [subscribeToCategories]. *)
Definition onChange (uid : string) (updatedCategories : list SpendingCategory)
    (st : State) (w : World) : State * World :=
  (setCategories updatedCategories st,
   localStorage_setItem (CACHE_KEY_PREFIX +:+ uid)
     (JsonCategories updatedCategories) w).

(** The [useState] cells of [useUpdateCategory]. *)
Record UpdateState := {
  updating : bool;
  update_error : option string;
}.

Definition updateCategoryMutation {V}
    (onOptimisticUpdate : option (string -> CategoryUpdates -> V -> V))
    (onRollback : option (string -> CategoryUpdates -> V -> V))
    (id : string) (updates : CategoryUpdates) (st : UpdateState) (v : V)
    (w : World) : JsResult unit * (UpdateState * V * World) :=
  if offline w then
    (Throw (Raw (new_Error
       "You are offline. Please connect to the internet to update categories.")),
     (st, v, w))
  else
    let st := {| updating := true; update_error := None |} in
    (* Store previous data for rollback *)
    let previousData := updates in
    let v := call_optional (option_map (fun f => f id updates)
                              onOptimisticUpdate) v in
    match Services.updateCategory id updates w with
    | (Ok _, w) =>
      (Ok tt, ({| updating := false; update_error := update_error st |}, v, w))
    | (Throw err, w) =>
      let v := call_optional (option_map (fun f => f id previousData)
                                onRollback) v in
      let errorMessage := message_or err "Failed to update category" in
      (Throw err, ({| updating := false; update_error := errorMessage |}, v, w))
    end.

(** The effect that loads the cached data on mount:
    [const cached = localStorage.getItem(cacheKey);
     if (cached) setX(JSON.parse(cached))].  The key holds what this hook
    stored under it, the JSON text of a collection of its kind, which is
    not empty and which [JSON.parse] reads back. *)
Definition hydrate (user : option string) (st : State) (w : World) : State :=
  match user with
  | Some uid =>
    match localStorage w !! (CACHE_KEY_PREFIX +:+ uid) with
    | Some (JsonCategories cached) => setCategories cached st
    | _ => st
    end
  | None => st
  end.

End useCategories.

Module useGoals.

Definition CACHE_KEY_PREFIX : string := "finsmart_goals_".

(** The [useState] cells of [useGoals]. *)
Record State := {
  goals : list FinancialGoal;
  loading : bool;
  error : option string;
}.

Definition setGoals (l : list FinancialGoal) (st : State) : State :=
  {| goals := l; loading := loading st; error := error st |}.
Definition setLoading (b : bool) (st : State) : State :=
  {| goals := goals st; loading := b; error := error st |}.
Definition setError (e : option string) (st : State) : State :=
  {| goals := goals st; loading := loading st; error := e |}.

Definition fetchGoals (user : option string) (st : State) (w : World)
    : State * World :=
  match user with
  | None => (setLoading false st, w)
  | Some uid =>
    let st := setError None st in
    match Services.getGoals uid w with
    | (Ok data, w) =>
      (setLoading false (setGoals data st),
       localStorage_setItem (CACHE_KEY_PREFIX +:+ uid) (JsonGoals data) w)
    | (Throw err, w) =>
      (setLoading false (setError (message_or err "Failed to load goals") st),
       console_error (ErrorLine "Error fetching goals:" err) w)
    end
  end.

(** The callback given to [subscribeToGoals]. *)
Definition onChange (uid : string) (updatedGoals : list FinancialGoal)
    (st : State) (w : World) : State * World :=
  (setGoals updatedGoals st,
   localStorage_setItem (CACHE_KEY_PREFIX +:+ uid) (JsonGoals updatedGoals) w).

(** The [useState] cells of [useUpdateGoal]. *)
Record UpdateState := {
  updating : bool;
  update_error : option string;
}.

Definition updateGoalMutation {V}
    (onOptimisticUpdate : option (string -> GoalUpdates -> V -> V))
    (onRollback : option (string -> GoalUpdates -> V -> V))
    (id : string) (updates : GoalUpdates) (st : UpdateState) (v : V)
    (w : World) : JsResult unit * (UpdateState * V * World) :=
  let st := {| updating := true; update_error := None |} in
  (* Store previous data for rollback *)
  let previousData := updates in
  let v := call_optional (option_map (fun f => f id updates)
                            onOptimisticUpdate) v in
  match Services.updateGoal id updates w with
  | (Ok _, w) =>
    (Ok tt, ({| updating := false; update_error := update_error st |}, v, w))
  | (Throw err, w) =>
    let v := call_optional (option_map (fun f => f id previousData)
                              onRollback) v in
    let errorMessage := message_or err "Failed to update goal" in
    (Throw err, ({| updating := false; update_error := errorMessage |}, v, w))
  end.

Definition addContributionMutation {V}
    (onOptimisticUpdate : option (string -> GoalUpdates -> V -> V))
    (onRollback : option (string -> GoalUpdates -> V -> V))
    (goalId : string) (amount : Q) (st : UpdateState) (v : V) (w : World)
    : JsResult unit * (UpdateState * V * World) :=
  if offline w then
    (Throw (Raw (new_Error
       "You are offline. Please connect to the internet to add contributions.")),
     (st, v, w))
  else
    let st := {| updating := true; update_error := None |} in
    let v := call_optional
               (option_map (fun f => f goalId (only_current_amount amount))
                  onOptimisticUpdate) v in
    match Services.addContribution goalId amount w with
    | (Ok _, w) =>
      (Ok tt, ({| updating := false; update_error := update_error st |}, v, w))
    | (Throw err, w) =>
      let v := call_optional
                 (option_map
                    (fun f => f goalId (only_current_amount (- amount)))
                    onRollback) v in
      let errorMessage := message_or err "Failed to add contribution" in
      (Throw err, ({| updating := false; update_error := errorMessage |}, v, w))
    end.

(** The effect that loads the cached data on mount:
    [const cached = localStorage.getItem(cacheKey);
     if (cached) setX(JSON.parse(cached))].  The key holds what this hook
    stored under it, the JSON text of a collection of its kind, which is
    not empty and which [JSON.parse] reads back. *)
Definition hydrate (user : option string) (st : State) (w : World) : State :=
  match user with
  | Some uid =>
    match localStorage w !! (CACHE_KEY_PREFIX +:+ uid) with
    | Some (JsonGoals cached) => setGoals cached st
    | _ => st
    end
  | None => st
  end.

(** The [useState] cells of [useAddGoal]. *)
Record AddState := {
  adding : bool;
  add_error : option string;
}.

(** [Omit<FinancialGoal, 'id' | 'user_id' | 'created_at' | 'updated_at'>]. *)
Record GoalDraft := {
  gd_title : string;
  gd_target_amount : Q;
  gd_current_amount : Q;
  gd_months_remaining : Q;
}.

Definition addGoal (user : option string) (goal : GoalDraft) (st : AddState)
    (w : World) : JsResult FinancialGoal * (AddState * World) :=
  match user with
  | None => (Throw (Raw (new_Error "User not authenticated")), (st, w))
  | Some uid =>
    if offline w then
      (Throw (Raw (new_Error
         "You are offline. Please connect to the internet to add goals.")),
       (st, w))
    else
      let st := {| adding := true; add_error := None |} in
      match Services.createGoal
              {| gi_user_id := uid; gi_title := gd_title goal;
                 gi_target_amount := gd_target_amount goal;
                 gi_current_amount := gd_current_amount goal;
                 gi_months_remaining := gd_months_remaining goal |} w with
      | (Ok newGoal, w) =>
        (Ok newGoal, ({| adding := false; add_error := add_error st |}, w))
      | (Throw err, w) =>
        let errorMessage := message_or err "Failed to add goal" in
        (Throw err, ({| adding := false; add_error := errorMessage |}, w))
      end
  end.

End useGoals.

(** ** Consumers of the mutation hooks *)

(** context/AppContext.tsx: the handlers given to [useAddTransaction],
    acting on the [optimisticTransactions] cell. *)
Module AppContext.

Definition handleOptimisticAdd (transaction : Transaction)
    (prev : list Transaction) : list Transaction :=
  transaction :: prev.

Definition handleRollback (transactionId : string) (prev : list Transaction)
    : list Transaction :=
  filter (fun t => tx_id t ≠ transactionId) prev.

(** The merged list that the context exposes: the optimistic entries
    whose key [description + amount] is not that of a persisted
    transaction, then the persisted ones.  [toString] is the conversion of
    a number to a string that [+] applies to [t.amount]. *)
Definition transactions (toString : Q -> string)
    (dbTransactions optimisticTransactions : list Transaction)
    : list Transaction :=
  let key t := tx_description t +:+ toString (tx_amount t) in
  let persistedIds := map key dbTransactions in
  let validOptimistic :=
    filter (fun t => key t ∉ persistedIds) optimisticTransactions in
  (validOptimistic ++ dbTransactions)%list.

End AppContext.

(** components/Goals.tsx: the handlers given to [useUpdateGoal], acting on
    the [optimisticGoals] cell, and the merged list that is rendered. *)
Module Goals.

Definition has_id (goalId : string) (g : FinancialGoal) : bool :=
  id_eqb (goal_id g) goalId.

Definition handleOptimisticUpdate (dbGoals : list FinancialGoal)
    (goalId : string) (updates : GoalUpdates) (prev : list FinancialGoal)
    : list FinancialGoal :=
  match List.find (has_id goalId) prev with
  | Some _ =>
    map (fun g => if has_id goalId g then spread_goal g updates else g) prev
  | None =>
    match List.find (has_id goalId) dbGoals with
    | Some dbGoal => prev ++ [spread_goal dbGoal updates]
    | None => prev
    end
  end.

Definition set_current_amount (amount : Q) (g : FinancialGoal)
    : FinancialGoal :=
  spread_goal g (only_current_amount amount).

Definition handleRollback (goalId : string) (previousData : GoalUpdates)
    (prev : list FinancialGoal) : list FinancialGoal :=
  match List.find (has_id goalId) prev, gu_current_amount previousData with
  | Some _, Some previous_amount =>
    map (fun g =>
           if has_id goalId g
           then set_current_amount (goal_current_amount g - previous_amount)%Q g
           else g) prev
  | _, _ => filter (fun g => goal_id g ≠ goalId) prev
  end.

(** [optimisticMap.get(g.id) || g], a later entry of [optimisticGoals]
    overriding an earlier one with the same id. *)
Definition goals (dbGoals optimisticGoals : list FinancialGoal)
    : list FinancialGoal :=
  map (fun g =>
         default g (List.find (has_id (goal_id g)) (rev optimisticGoals)))
      dbGoals.

End Goals.

(** docs/OPTIMISTIC_UPDATES.md: the handlers documented for
    [useUpdateCategory], acting on the categories list. *)
Module CategoryHandlers.

Definition handleOptimisticUpdate (id : string) (updates : CategoryUpdates)
    (prev : list SpendingCategory) : list SpendingCategory :=
  map (fun c => if id_eqb (cat_id c) id then spread_category c updates else c)
      prev.

Definition handleRollback (id : string) (previousData : CategoryUpdates)
    (prev : list SpendingCategory) : list SpendingCategory :=
  map (fun c =>
         if id_eqb (cat_id c) id then spread_category c previousData else c)
      prev.

End CategoryHandlers.

(** components/SpendingBreakdown.tsx: the colour of the bar of a
    category. *)
Module SpendingBreakdown.

Definition gtb (x y : Q) : bool := negb (Qle_bool x y).

Definition getBarColor (value budget : Q) : string :=
  if Qeq_bool budget 0 && gtb value 0 then "bg-red-500"
  else if Qeq_bool budget 0 then "bg-slate-300"
  else
    let percentage := (value / budget * 100)%Q in
    if gtb percentage 100 then "bg-red-500"
    else if gtb percentage 90 then "bg-orange-500"
    else if gtb percentage 70 then "bg-yellow-500"
    else "bg-green-500".

End SpendingBreakdown.

(** ** Change-event subscriptions

    [subscribeToGoals], [subscribeToTransactions] and
    [subscribeToCategories] register a handler of the same text on their
    channel:
    [async () => { try { const rows = await getX(userId); callback(rows) }
    catch (error) { logDatabaseError(error, label, type, undefined, userId) } }].
    An invocation calls [getX(userId)] at once and is suspended at the
    [await]; it resumes when the call settles, other invocations and other
    code running in between.  The call is taken to reach the store as the
    event fires: its requests are served then, and its outcome waits in
    flight until the handler resumes. *)
Module Realtime.

(** What a subscription is made of: the list call of the handler, the
    arguments of its [logDatabaseError], and the callback of the hook,
    which acts on the cells [St] of the hook and on [localStorage]. *)
Record Handler (A St : Type) := {
  list_call : Async World (list A);
  label : string;
  resource : string;
  owner : string;
  callback : list A -> St -> World -> St * World;
}.
Arguments list_call {A St} _.
Arguments label {A St} _.
Arguments resource {A St} _.
Arguments owner {A St} _.
Arguments callback {A St} _.

Definition subscribeToGoals {St} (userId : string)
    (callback : list FinancialGoal -> St -> World -> St * World)
    : Handler FinancialGoal St :=
  {| list_call := Services.getGoals userId;
     label := "refetch goals on real-time update";
     resource := "financial_goal"; owner := userId; callback := callback |}.

(** [getTransactions(userId)]: [limit = 50], [offset = 0]. *)
Definition subscribeToTransactions {St} (userId : string)
    (callback : list Transaction -> St -> World -> St * World)
    : Handler Transaction St :=
  {| list_call := Services.getTransactions userId 50 0;
     label := "refetch transactions on real-time update";
     resource := "transaction"; owner := userId; callback := callback |}.

Definition subscribeToCategories {St} (userId : string)
    (callback : list SpendingCategory -> St -> World -> St * World)
    : Handler SpendingCategory St :=
  {| list_call := Services.getCategories userId;
     label := "refetch categories on real-time update";
     resource := "spending_category"; owner := userId;
     callback := callback |}.

(** A subscription at work: the invocations of the handler that are
    suspended at their [await], each with the outcome of its list call,
    the number of invocations so far, the cells of the hook and the
    world. *)
Record Channel (A St : Type) := {
  in_flight : list (nat * JsResult (list A));
  issued : nat;
  hook : St;
  world : World;
}.
Arguments in_flight {A St} _.
Arguments issued {A St} _.
Arguments hook {A St} _.
Arguments world {A St} _.

Definition subscribe {A St} (st : St) (w : World) : Channel A St :=
  {| in_flight := []; issued := 0; hook := st; world := w |}.

(** A change event fires: the handler is invoked and calls
    [getX(userId)], whatever is in flight. *)
Definition on_postgres_changes {A St} (h : Handler A St) (ch : Channel A St)
    : Channel A St :=
  let (result, w) := list_call h (world ch) in
  {| in_flight := (in_flight ch ++ [(issued ch, result)])%list;
     issued := S (issued ch); hook := hook ch; world := w |}.

(** The handler after its [await]: [callback(rows)], or the [catch]
    block. *)
Definition resume {A St} (h : Handler A St) (result : JsResult (list A))
    (st : St) (w : World) : St * World :=
  match result with
  | Ok rows => callback h rows st w
  | Throw error =>
    (st,
     snd (logDatabaseError error (label h) (resource h) None (Some (owner h))
            w))
  end.

(** The list call of the invocation numbered [call] settles: the handler
    resumes. *)
Definition settle {A St} (h : Handler A St) (call : nat) (ch : Channel A St)
    : Channel A St :=
  match List.find (fun c => Nat.eqb (fst c) call) (in_flight ch) with
  | Some (_, result) =>
    let (st, w) := resume h result (hook ch) (world ch) in
    {| in_flight := filter (fun c => fst c ≠ call) (in_flight ch);
       issued := issued ch; hook := st; world := w |}
  | None => ch
  end.

Inductive Event :=
| ChangeEvent
| Settled (call : nat).

Definition step {A St} (h : Handler A St) (ch : Channel A St) (ev : Event)
    : Channel A St :=
  match ev with
  | ChangeEvent => on_postgres_changes h ch
  | Settled call => settle h call ch
  end.

Definition run {A St} (h : Handler A St) (evs : list Event)
    (ch : Channel A St) : Channel A St :=
  foldl (step h) ch evs.

End Realtime.

(** * Vocabulary and fixtures of the properties *)

(** ** Observing retries

    The outcome of every invocation of an operation is recorded next to
    the state the operation runs on. *)

#[global] Instance Runtime_observed (St X : Type) `{Runtime St}
    : Runtime (St * X) := {
  console_error line sx := (console_error line (fst sx), snd sx);
  Math_random sx := let (r, s) := Math_random (fst sx) in (r, (s, snd sx));
  setTimeout delay sx := (setTimeout delay (fst sx), snd sx);
}.

Definition observed {St T} (operation : Async St T)
    : Async (St * list (JsResult T)) T :=
  fun sx =>
    let (r, s) := operation (fst sx) in (r, (s, (snd sx ++ [r])%list)).

Definition observed_options {St X} (options : Retry.RetryOptions St)
    : Retry.RetryOptions (St * X) :=
  {| Retry.maxRetries := Retry.maxRetries options;
     Retry.baseDelay := Retry.baseDelay options;
     Retry.maxDelay := Retry.maxDelay options;
     Retry.shouldRetry := Retry.shouldRetry options;
     Retry.onRetry :=
       option_map (fun f error attempt sx => (f error attempt (fst sx), snd sx))
         (Retry.onRetry options) |}.

(** ** Vocabulary of the classifier rules *)






(** ** Vocabulary of the remote store *)

(** The fault that the script holds for the next request, if any. *)
Definition pending_fault (w : World) : option PostgrestError :=
  mjoin (head (faults (supabase w))).

(** The next [n] requests are answered by the remote store, not by a
    fault. *)
Definition answered (n : nat) (w : World) : Prop :=
  Forall (fun f => f = None) (take n (faults (supabase w))).

(** The backend once a request has been counted and has consumed its
    entry of the fault script. *)
Definition after_request (b : Backend) : Backend :=
  set_faults (tail (faults b)) (count_request b).

(** The world once the insert of [createTransaction] has been sent. *)
Definition after_insert (transaction : TransactionInsert) (w : World) : World :=
  snd (query (insert_transaction transaction) w).

(** The world once the read and the delete of [deleteTransaction] have
    been sent. *)
Definition after_primary_delete (id : string) (w : World) : World :=
  snd (query (delete_transaction id) (snd (query (select_transaction id) w))).

(** The line that [logDatabaseError] writes for the [error] of a
    response. *)
Definition database_error_line (e : PostgrestError) (op resType : string)
    (resId uid : option string) : ConsoleLine :=
  match transformError (thrown e) with
  | Ok se =>
    SupabaseErrorLine
      {| log_type := type se; log_message := message se;
         log_context :=
           {| operation := Some op; resourceType := Some resType;
              resourceId := resId; userId := uid |};
         log_originalError := originalError se |}
  | Throw err => ErrorLine "unclassified" err
  end.

(** ** Vocabulary of the local cache *)

(** An [async] function that never writes [localStorage]. *)
Definition keeps_localStorage {A} (m : Async World A) : Prop :=
  ∀ w, localStorage (snd (m w)) = localStorage w.

(** ** Fixtures *)

(** What a query answers when the browser cannot reach the remote store. *)
Definition fetch_failure : PostgrestError :=
  {| pg_message := "TypeError: Failed to fetch"; pg_details := "";
     pg_hint := ""; pg_code := "" |}.

Definition unique_violation : PostgrestError :=
  {| pg_message := "duplicate key value violates unique constraint";
     pg_details := "Key (id) already exists."; pg_hint := "";
     pg_code := "23505" |}.



Definition empty_backend : Backend :=
  {| tbl_transactions := []; tbl_spending_categories := [];
     tbl_financial_goals := []; faults := []; requests := 0; next_id := 1;
     server_now := 1700000000000 |}.

Definition idle_world : World :=
  {| navigator_onLine := Some true; Date_now := 1699999999; entropy := [];
     console := []; timers := []; supabase := empty_backend;
     localStorage := ∅ |}.

(** The next draw of [Math.random()] is 0.9. *)
Definition world_drawing_09 : World := set_entropy [0.9%Q] idle_world.

(** The remote store cannot be reached: every request fails. *)
Definition unreachable_world : World :=
  set_supabase (set_faults (replicate 8 (Some fetch_failure)) empty_backend)
    idle_world.

(** The first request hits a uniqueness constraint, the next ones
    succeed. *)
Definition conflicting_world : World :=
  set_supabase (set_faults [Some unique_violation] empty_backend) idle_world.

(** [{ maxRetries: 3 }]. *)
Definition three_retries {St} : Retry.RetryOptions St :=
  {| Retry.maxRetries := Some 3%nat; Retry.baseDelay := None;
     Retry.maxDelay := None; Retry.shouldRetry := None;
     Retry.onRetry := None |}.

(** An operation that rejects with [e] at every invocation. *)
Definition always_rejects {St T} (e : JsError) : Async St T := reject e.

(** One user, a category whose running total is $200.00, and a
    transaction of $45.25 linked to it. *)
Definition groceries : SpendingCategory :=
  {| cat_id := "cat-1"; cat_user_id := "user-1";
     cat_name := "Food and Groceries"; cat_value := 200.00; cat_budget := 500;
     cat_color := "#10b981"; cat_created_at := 1690000000000;
     cat_updated_at := 1690000000000 |}.

Definition lunch : Transaction :=
  {| tx_id := "tx-1"; tx_user_id := "user-1"; tx_category_id := Some "cat-1";
     tx_description := "Lunch"; tx_amount := 45.25;
     tx_category_name := "Food and Groceries";
     tx_created_at := 1695000000000 |}.

Definition ledger_backend : Backend :=
  set_spending_categories [groceries] (set_transactions [lunch] empty_backend).

Definition ledger_world : World := set_supabase ledger_backend idle_world.

(** The same ledger, where the third request (the read of the category)
    fails. *)
Definition ledger_world_category_unreadable : World :=
  set_supabase (set_faults [None; None; Some fetch_failure] ledger_backend)
    idle_world.

Definition coffee : Transaction :=
  {| tx_id := "tx-2"; tx_user_id := "user-1"; tx_category_id := None;
     tx_description := "Coffee"; tx_amount := 3.5;
     tx_category_name := "Food and Groceries";
     tx_created_at := 1696000000000 |}.

(** A user with two transactions, fetched one per page. *)
Definition two_transactions_world : World :=
  set_supabase (set_transactions [lunch; coffee] empty_backend) idle_world.

Definition mounted : useTransactions.State :=
  {| useTransactions.transactions := []; useTransactions.loading := true;
     useTransactions.error := None; useTransactions.offset := 0;
     useTransactions.hasMore := true |}.

(** The first page, by [fetchTransactions(true)]. *)
Definition first_page : useTransactions.State * World :=
  useTransactions.fetchTransactions (Some "user-1") 1 0 true mounted
    two_transactions_world.

(** The second page, by [fetchTransactions(false)] at offset 1. *)
Definition second_page : useTransactions.State * World :=
  useTransactions.fetchTransactions (Some "user-1") 1 1 false
    (fst first_page) (snd first_page).

Definition vacation : FinancialGoal :=
  {| goal_id := "goal-1"; goal_user_id := "user-1"; goal_title := "Vacation";
     goal_target_amount := 1000; goal_current_amount := 100;
     goal_months_remaining := 12; goal_created_at := 1690000000000;
     goal_updated_at := 1690000000000 |}.

(** The ledger with one goal, every request failing for want of a
    connection. *)
Definition unreachable_ledger : Backend :=
  set_faults (replicate 8 (Some fetch_failure))
    (set_financial_goals [vacation] ledger_backend).

(** [navigator.onLine] is true, but the requests fail. *)
Definition failing_world : World := set_supabase unreachable_ledger idle_world.

(** [navigator.onLine] is false. *)
Definition offline_world : World :=
  {| navigator_onLine := Some false; Date_now := 1699999999; entropy := [];
     console := []; timers := []; supabase := unreachable_ledger;
     localStorage := ∅ |}.

(** A callback that records its calls. *)
Definition spy {U} (label id : string) (updates : U)
    (calls : list (string * string * U)) : list (string * string * U) :=
  (calls ++ [(label, id, updates)])%list.

(** [{ title: 'Holiday' }]. *)
Definition rename : GoalUpdates :=
  {| gu_title := Some "Holiday"; gu_target_amount := None;
     gu_current_amount := None; gu_months_remaining := None |}.

(** [{ budget: 650 }]. *)
Definition raise_budget : CategoryUpdates :=
  {| cu_name := None; cu_value := None; cu_budget := Some 650%Q;
     cu_color := None |}.

(** [updateGoalMutation('goal-1', { title: 'Holiday' })] while offline. *)
Definition offline_goal_update :=
  useGoals.updateGoalMutation (Some (spy "onOptimisticUpdate"))
    (Some (spy "onRollback")) "goal-1" rename
    {| useGoals.updating := false; useGoals.update_error := None |} []
    offline_world.

(** [deleteTransactionMutation('tx-1')] while offline. *)
Definition offline_transaction_delete :=
  useTransactions.deleteTransactionMutation "tx-1"
    {| useTransactions.deleting := false;
       useTransactions.delete_error := None |}
    offline_world.

(** [updateCategoryMutation('cat-1', { budget: 650 })] with the handlers of
    the documentation, the update failing. *)
Definition failed_category_update :=
  useCategories.updateCategoryMutation
    (Some CategoryHandlers.handleOptimisticUpdate)
    (Some CategoryHandlers.handleRollback) "cat-1" raise_budget
    {| useCategories.updating := false; useCategories.update_error := None |}
    [groceries] failing_world.

(** [addContributionMutation('goal-1', 30)] with the handlers of the Goals
    component, the contribution failing. *)
Definition failed_contribution :=
  useGoals.addContributionMutation
    (Some (Goals.handleOptimisticUpdate [vacation]))
    (Some Goals.handleRollback) "goal-1" 30
    {| useGoals.updating := false; useGoals.update_error := None |} []
    failing_world.

(** The view that a mutation leaves. *)
Definition view_of {R S V} (outcome : R * (S * V * World)) : V :=
  snd (fst (snd outcome)).

Definition world_of {R S V} (outcome : R * (S * V * World)) : World :=
  snd (snd outcome).

(** The message of the error that a call rejects with. *)
Definition rejection_message {A} (r : JsResult A) : option string :=
  match r with
  | Ok _ => None
  | Throw e => error_message e
  end.

(** ** Vocabulary of the further properties *)

(** A record of invocations made by a retry wrapper and the result the
    wrapper gave: rejections only when the result is a rejection,
    rejections ended by the resolution when the result is a resolution. *)
Definition run_of_attempts {T} (attempts : list (JsResult T))
    (result : JsResult T) : Prop :=
  ∃ errors,
    match result with
    | Ok v => attempts = (map Throw errors ++ [Ok v])%list
    | Throw _ => attempts = map Throw errors
    end.

(** The delays [baseDelay * 2^i] of the retries numbered [first] to
    [first + count - 1]. *)
Definition backoff_delays (baseDelay : Q) (first count : nat) : list Q :=
  map (fun i => (baseDelay * 2 ^ Z.of_nat i)%Q) (seq first count).

(** A permission failure as the remote store reports it. *)
Definition permission_denied : PostgrestError :=
  {| pg_message := "permission denied for table financial_goals";
     pg_details := "row-level security"; pg_hint := "";
     pg_code := "PGRST301" |}.

(** The three tables of the remote store. *)
Definition tables (w : World)
    : list Transaction * list SpendingCategory * list FinancialGoal :=
  (tbl_transactions (supabase w), tbl_spending_categories (supabase w),
   tbl_financial_goals (supabase w)).

(** An [async] function that leaves the tables as they are. *)
Definition keeps_tables {A} (m : Async World A) : Prop :=
  ∀ w, tables (snd (m w)) = tables w.

(** The operation that the list services retry: one query that reads
    [rows], its error thrown. *)
Definition list_attempt {A} (rows : Backend → list A) : Async World (list A) :=
  r <- query (send (fun b => (Data (rows b), b))) ;;
  match r with
  | Error error => reject (thrown error)
  | Data data => resolve data
  end.

(** The rows that [getGoals], [getCategories] and [getTransactions]
    select. *)
Definition goals_of (userId : string) (b : Backend) : list FinancialGoal :=
  sort_array (fun x y => (goal_created_at x - goal_created_at y)%Z)
    (filter (fun g => goal_user_id g = userId) (tbl_financial_goals b)).

Definition categories_of (userId : string) (b : Backend)
    : list SpendingCategory :=
  sort_array (fun x y => (cat_created_at x - cat_created_at y)%Z)
    (filter (fun c => cat_user_id c = userId) (tbl_spending_categories b)).

Definition transactions_page (userId : string) (limit offset : nat)
    (b : Backend) : list Transaction :=
  range (Z.of_nat offset) (Z.of_nat offset + Z.of_nat limit - 1)
    (sort_array (fun x y => (tx_created_at y - tx_created_at x)%Z)
       (filter (fun t => tx_user_id t = userId) (tbl_transactions b))).

(** The error that [handleError] throws. *)
Definition failed_to (op : string) (error : JsError) : JsError :=
  Raw (new_Error
         ("Failed to " +:+ op +:+ ": "
            +:+ or_else (error_message error) "Unknown error")).

(** What a call of a list service amounted to, from the world [w] it
    started in to its outcome [out]: a resolution carries the [rows]
    selected from the tables of [w], after one to three requests and no
    log line; a rejection carries the message of the fault that answered
    the third request, after exactly three requests and one log line.
    The delays awaited are 1000 and 2000 times the base unit, one fewer
    than the requests. *)
Definition list_service_outcome {A} (resType op : string) (uid : string)
    (rows : Backend → list A) (w : World) (out : JsResult (list A) * World)
    : Prop :=
  let (result, w') := out in
  match result with
  | Ok data =>
    data = rows (supabase w)
    ∧ console w' = console w
    ∧ ∃ n, (1 <= n <= 3)%nat
           ∧ requests (supabase w') = (requests (supabase w) + n)%nat
           ∧ faults (supabase w') = drop n (faults (supabase w))
           ∧ timers w' = (timers w ++ backoff_delays 1000 0 (n - 1))%list
  | Throw e =>
    ∃ fault,
      mjoin (faults (supabase w) !! 2%nat) = Some fault
      ∧ e = failed_to op (thrown fault)
      ∧ console w'
        = (console w
           ++ [database_error_line fault op resType None (Some uid)])%list
      ∧ requests (supabase w') = (requests (supabase w) + 3)%nat
      ∧ faults (supabase w') = drop 3 (faults (supabase w))
      ∧ timers w' = (timers w ++ backoff_delays 1000 0 2)%list
  end.

(** The transactions of a user in the store, as a list. *)
Definition transactions_of (userId : string) (b : Backend)
    : list Transaction :=
  filter (fun t => tx_user_id t = userId) (tbl_transactions b).

(** Newest first, no two of the same instant. *)
Definition newest_first (l : list Transaction) : Prop :=
  StronglySorted (fun a b => (tx_created_at b < tx_created_at a)%Z) l.

(** The error of the request numbered [n] (from 0) of a call on [w] that
    selects a single row which is not there: the fault of the script, or
    else the answer of [.single()] to an empty selection. *)
Definition missing_row_error (n : nat) (w : World) : PostgrestError :=
  default PGRST116 (mjoin (faults (supabase w) !! n)).

(** A call that gave up: it rejected with the message of the error that
    answered its third request, after exactly three requests, two delays
    and one log line, the tables left as they were. *)
Definition gave_up {A} (op : string) (w : World)
    (out : JsResult A * World) : Prop :=
  fst out = Throw (failed_to op (thrown (missing_row_error 2 w)))
  ∧ tables (snd out) = tables w
  ∧ requests (supabase (snd out)) = (requests (supabase w) + 3)%nat
  ∧ timers (snd out) = (timers w ++ backoff_delays 1000 0 2)%list
  ∧ length (console (snd out)) = S (length (console w)).

(** A second lunch, to be stored. *)
Definition second_lunch : TransactionInsert :=
  {| ti_user_id := "user-1"; ti_category_id := Some "cat-1";
     ti_description := "Lunch"; ti_amount := 45.25;
     ti_category_name := "Food and Groceries" |}.

(** The row that the ledger stores for it. *)
Definition second_lunch_row : Transaction :=
  {| tx_id := "row-1"; tx_user_id := "user-1"; tx_category_id := Some "cat-1";
     tx_description := "Lunch"; tx_amount := 45.25;
     tx_category_name := "Food and Groceries";
     tx_created_at := 1700000000000 |}.

(** A call that rejects only with values that satisfy [P]. *)
Definition rejects_with {A} (P : JsError → Prop) (m : Async World A) : Prop :=
  ∀ w e w', m w = (Throw e, w') → P e.

(** The [error] of a response of the remote store, thrown. *)
Definition store_error (e : JsError) : Prop := ∃ pe, e = thrown pe.

(** The error of a service: an [Error] whose message is
    [Failed to <operation>: ] followed by the message of an error of the
    store. *)
Definition service_error (op : string) (e : JsError) : Prop :=
  ∃ pe, e = failed_to op (thrown pe).

(** A mutation hook that has settled: its busy flag is down, and its
    error cell is empty after a resolution, or holds the message of the
    service error that the hook rethrew. *)
Definition settled {R} (op : string) (result : JsResult R) (busy : bool)
    (error : option string) : Prop :=
  busy = false
  ∧ match result with
    | Ok _ => error = None
    | Throw e => error = error_message e ∧ service_error op e
    end.

(** How grave the colour of a bar is. *)
Definition severity (colour : string) : nat :=
  if String.eqb colour "bg-red-500" then 3
  else if String.eqb colour "bg-orange-500" then 2
  else if String.eqb colour "bg-yellow-500" then 1
  else 0.

(** The categories of a user in the store. *)
Definition categories_in_store (userId : string) (w : World)
    : list SpendingCategory :=
  filter (fun c => cat_user_id c = userId)
    (tbl_spending_categories (supabase w)).

(** The rank of a category in the list that [fetchCategories] builds:
    the index of its name in [FIXED_CATEGORIES], the other categories
    coming after the fixed ones. *)
Definition fixed_rank (c : SpendingCategory) : Z :=
  let i := indexOf useCategories.FIXED_CATEGORIES (cat_name c) in
  if (i =? -1)%Z then Z.of_nat (length useCategories.FIXED_CATEGORIES) else i.

(** A category as [fetchCategories] creates it: owned by the user,
    nothing spent, no budget. *)
Definition seeded (userId : string) (c : SpendingCategory) : Prop :=
  cat_user_id c = userId ∧ cat_value c = 0%Q ∧ cat_budget c = 0%Q
  ∧ cat_color c = useCategories.default_color (cat_name c).

(** The ledger with one goal. *)
Definition goals_world : World :=
  set_supabase (set_financial_goals [vacation] ledger_backend) idle_world.

(** [useGoals] as it mounts. *)
Definition goals_mounted : useGoals.State :=
  {| useGoals.goals := []; useGoals.loading := true; useGoals.error := None |}.

(** ** Vocabulary of the subscriptions *)

(** [n] change events in a row, no list call settling in between. *)
Definition burst (n : nat) : list Realtime.Event :=
  replicate n Realtime.ChangeEvent.

(** A handler that starts a list call of its own on every change event:
    [n] events in a row, whatever is in flight, leave [n] more calls in
    flight, numbered from [issued], after at least [n] requests to the
    store, the cells of the hook untouched. *)
Definition calls_on_every_event {A St} (h : Realtime.Handler A St) : Prop :=
  ∀ n ch,
    map fst (Realtime.in_flight (Realtime.run h (burst n) ch))
    = (map fst (Realtime.in_flight ch) ++ seq (Realtime.issued ch) n)%list
    ∧ (requests (supabase (Realtime.world ch)) + n
       <= requests
            (supabase (Realtime.world (Realtime.run h (burst n) ch))))%nat
    ∧ Realtime.hook (Realtime.run h (burst n) ch) = Realtime.hook ch.

(** A handler that hands the rows it fetched to its callback: after [n]
    events in a row on a fresh subscription whose store answers, the call
    numbered [k] settles by applying the callback to the [rows] that the
    store held, on the cells and the world of that moment, and the other
    calls stay in flight. *)
Definition hands_over {A St} (h : Realtime.Handler A St)
    (rows : Backend → list A) : Prop :=
  ∀ n k st w,
    answered n w → (k < n)%nat →
    (Realtime.hook
       (Realtime.settle h k
          (Realtime.run h (burst n) (Realtime.subscribe st w))),
     Realtime.world
       (Realtime.settle h k
          (Realtime.run h (burst n) (Realtime.subscribe st w))))
    = Realtime.callback h (rows (supabase w)) st
        (Realtime.world (Realtime.run h (burst n) (Realtime.subscribe st w)))
    ∧ map fst
        (Realtime.in_flight
           (Realtime.settle h k
              (Realtime.run h (burst n) (Realtime.subscribe st w))))
      = filter (fun i => i ≠ k) (seq 0 n).

(** The subscription that [useGoals] opens. *)
Definition goals_subscription (userId : string)
    : Realtime.Handler FinancialGoal useGoals.State :=
  Realtime.subscribeToGoals userId (useGoals.onChange userId).

(** The context of the log line that the handler of the goals writes. *)
Definition goals_refetch_context (uid : string) : ErrorContext :=
  {| operation := Some "refetch goals on real-time update";
     resourceType := Some "financial_goal"; resourceId := None;
     userId := Some uid |}.

(** * Properties *)

(** ** Error classifier *)




(** ** Backoff policy *)

(** C9, as stated, fails: with [attempt = 2], [baseDelay = 1000] and
    [maxDelay = 10000], a draw of 0.9 gives a delay of 5600 ms, outside
    [1500, 4500]. *)
Lemma backoff_attempt2_above_4500 :
  (0 <= fst (Math_random world_drawing_09) < 1)%Q
  ∧ ¬ (1500 <= fst (Retry.calculateBackoffDelay 2 1000 10000 world_drawing_09)
       <= 4500)%Q.
Proof.
  split; [split; [discriminate|reflexivity]|].
  intros [_ H]. vm_compute in H. apply H. reflexivity.
Qed.

(** C9 (amended): whenever [Math.random()] draws from [0, 1), the delay is
    [min(base * 2^attempt * jitter, max)] for a jitter between 0.5 and
    1.5; for [attempt = 2], [base = 1000], [max = 10000] it lies between
    2000 and 6000.  The bounds are closed: the code rounds the sum
    [0.5 + Math.random()] to a double, which can be 1.5. *)
Theorem calculateBackoffDelay_spec {St} `{Runtime St} (s : St) :
  (0 <= fst (Math_random s) < 1)%Q →
  (∀ (attempt : nat) (baseDelay maxDelay : Q),
     ∃ jitter : Q,
       (0.5 <= jitter <= 1.5)%Q ∧
       fst (Retry.calculateBackoffDelay attempt baseDelay maxDelay s)
       == Qmin (baseDelay * 2 ^ Z.of_nat attempt * jitter) maxDelay)
  ∧ (2000 <= fst (Retry.calculateBackoffDelay 2 1000 10000 s) <= 6000)%Q.
Proof.
  intros [Hlo Hhi]. unfold Retry.calculateBackoffDelay.
  destruct (Math_random s) as [rnd s'] eqn:Hdraw. simpl in *.
  assert (Hj : (0.5 <= 0.5 + rnd <= 1.5)%Q) by (split; lra).
  split.
  - intros attempt baseDelay maxDelay. exists (0.5 + rnd)%Q.
    split; [exact Hj|reflexivity].
  - change (1000 * 2 ^ Z.of_nat 2)%Q with (1000 * 4)%Q.
    split.
    + apply Q.min_glb; lra.
    + eapply Qle_trans; [apply Q.le_min_l|lra].
Qed.

(** [calculateBackoffDelay_spec] at a draw of 0.9. *)
Lemma calculateBackoffDelay_spec_witness :
  (2000 <= fst (Retry.calculateBackoffDelay 2 1000 10000 world_drawing_09)
   <= 6000)%Q.
Proof.
  apply (calculateBackoffDelay_spec world_drawing_09).
  split; [discriminate|reflexivity].
Defined.

(** ** Remote operation wrappers *)

(** One iteration of the loop of the shared wrapper. *)
Lemma withRetry_loop_unfold {St T} `{Runtime St}
    (config : Retry.RetryConfig St) (operation : Async St T)
    (remaining attempt : nat) (s : St) :
  Retry.withRetry_loop config operation remaining attempt s =
  match operation s with
  | (Ok v, s1) => (Ok v, s1)
  | (Throw error, s1) =>
    match Retry.cfg_shouldRetry config error with
    | Throw e => (Throw e, s1)
    | Ok should =>
      if Nat.eqb attempt (Retry.cfg_maxRetries config) || negb should then
        match logError error
                (context_of_string
                   ("Operation failed after " +:+ pretty (attempt + 1)%nat
                      +:+ " attempts")) s1 with
        | (Ok _, s2) => (Throw error, s2)
        | (Throw e, s2) => (Throw e, s2)
        end
      else
        let (delay, s2) :=
          Retry.calculateBackoffDelay attempt (Retry.cfg_baseDelay config)
            (Retry.cfg_maxDelay config) s1 in
        match logError error
                (context_of_string
                   ("Retry attempt " +:+ pretty (attempt + 1)%nat +:+ "/"
                      +:+ pretty (Retry.cfg_maxRetries config))) s2 with
        | (Throw e, s3) => (Throw e, s3)
        | (Ok _, s3) =>
          let s4 :=
            setTimeout delay
              (Retry.cfg_onRetry config error (attempt + 1)%nat s3) in
          match remaining with
          | O => (Throw error, s4)
          | S remaining' =>
            Retry.withRetry_loop config operation remaining' (S attempt) s4
          end
        end
    end
  end.
Proof.
  destruct remaining; cbn [Retry.withRetry_loop]; unfold try_catch;
    destruct (operation s) as [[v|error] s1]; try reflexivity;
    destruct (Retry.cfg_shouldRetry config error) as [should|e];
    try reflexivity;
    destruct (Nat.eqb attempt (Retry.cfg_maxRetries config) || negb should);
    unfold await, reject, effect;
    try (destruct (logError _ _ s1) as [[[]|?] ?]; reflexivity);
    destruct (Retry.calculateBackoffDelay _ _ _ s1) as [delay s2];
    destruct (logError _ _ s2) as [[[]|?] ?]; reflexivity.
Qed.

(** One iteration of the loop of the entity services. *)
Lemma Services_withRetry_loop_unfold {St T} `{Runtime St}
    (operation : Async St T) (maxRetries : nat) (baseDelay : Q)
    (remaining i : nat) (s : St) :
  Services.withRetry_loop operation maxRetries baseDelay (S remaining) i s =
  match operation s with
  | (Ok v, s1) => (Ok v, s1)
  | (Throw error, s1) =>
    if Nat.eqb i (maxRetries - 1) then (Throw error, s1)
    else
      Services.withRetry_loop operation maxRetries baseDelay remaining (S i)
        (setTimeout (baseDelay * 2 ^ Z.of_nat i)%Q s1)
  end.
Proof.
  cbn [Services.withRetry_loop]. unfold try_catch.
  destruct (operation s) as [[v|error] s1]; [reflexivity|].
  destruct (Nat.eqb i (maxRetries - 1)); reflexivity.
Qed.

Section Observed.
Context {St T : Type} `{Runtime St}.
Implicit Types (operation : Async St T) (s : St) (tr : list (JsResult T)).

Lemma observed_step operation s tr r s' :
  operation s = (r, s') →
  observed operation (s, tr) = (r, (s', (tr ++ [r])%list)).
Proof. intros Hop. unfold observed. simpl. rewrite Hop. reflexivity. Qed.

Lemma logError_observed (error : JsError) (ctx : ErrorContext) se s tr :
  transformError error = Ok se →
  ∃ s', @logError (St * list (JsResult T)) _ error ctx (s, tr)
        = (Ok tt, (s', tr)).
Proof. intros Hse. unfold logError. rewrite Hse. simpl. eauto. Qed.

Lemma merge_observed_maxRetries (options : Retry.RetryOptions St) :
  Retry.cfg_maxRetries
    (Retry.merge_options (@observed_options St (list (JsResult T)) options))
  = Retry.cfg_maxRetries (Retry.merge_options options).
Proof. reflexivity. Qed.

Lemma merge_observed_shouldRetry (options : Retry.RetryOptions St) :
  Retry.cfg_shouldRetry
    (Retry.merge_options (@observed_options St (list (JsResult T)) options))
  = Retry.cfg_shouldRetry (Retry.merge_options options).
Proof. destruct options as [? ? ? [?|] ?]; reflexivity. Qed.

Lemma onRetry_observed (options : Retry.RetryOptions St) error attempt s tr :
  ∃ s', Retry.cfg_onRetry
          (Retry.merge_options
             (@observed_options St (list (JsResult T)) options))
          error attempt (s, tr) = (s', tr).
Proof. destruct options as [? ? ? ? [?|]]; simpl; eauto. Qed.

Lemma backoff_observed attempt baseDelay maxDelay s tr :
  ∃ delay s',
    @Retry.calculateBackoffDelay (St * list (JsResult T)) _ attempt baseDelay
      maxDelay (s, tr) = (delay, (s', tr)).
Proof.
  unfold Retry.calculateBackoffDelay. simpl.
  destruct (Math_random s) as [rnd s']. eauto.
Qed.

(** The shared wrapper gives up after one attempt on an error that its
    predicate refuses. *)
Lemma withRetry_refused operation (options : Retry.RetryOptions St) s e s1 se :
  operation s = (Throw e, s1) →
  Retry.cfg_shouldRetry (Retry.merge_options options) e = Ok false →
  transformError e = Ok se →
  ∃ s', Retry.withRetry (observed operation) (observed_options options) (s, [])
        = (Throw e, (s', [Throw e])).
Proof.
  intros Hop Hno Hse. unfold Retry.withRetry.
  rewrite withRetry_loop_unfold, (observed_step _ _ _ _ _ Hop).
  rewrite merge_observed_shouldRetry, Hno, orb_true_r.
  match goal with
  | |- context [logError e ?ctx (s1, ?t)] =>
    destruct (logError_observed e ctx se s1 t Hse) as [s' Hlog]
  end.
  rewrite Hlog. eauto.
Qed.

(** The loop of the shared wrapper on an operation that fails with a
    retryable error at every invocation: it runs once more than the
    iterations that remain, then raises the last error. *)
Lemma withRetry_loop_exhausts operation (options : Retry.RetryOptions St) :
  (∀ s, ∃ e s' se,
     operation s = (Throw e, s')
     ∧ Retry.cfg_shouldRetry (Retry.merge_options options) e = Ok true
     ∧ transformError e = Ok se) →
  ∀ remaining attempt s tr,
    (attempt + remaining)%nat
      = Retry.cfg_maxRetries (Retry.merge_options options) →
    ∃ e s' tr',
      Retry.withRetry_loop (Retry.merge_options (observed_options options))
        (observed operation) remaining attempt (s, tr)
      = (Throw e, (s', (tr ++ tr')%list))
      ∧ length tr' = S remaining ∧ last tr' = Some (Throw e).
Proof.
  intros Hfail.
  induction remaining as [|remaining IH]; intros attempt s tr Hinv;
    destruct (Hfail s) as (e & s1 & se & Hop & Hyes & Hse);
    rewrite withRetry_loop_unfold, (observed_step _ _ _ _ _ Hop);
    rewrite merge_observed_shouldRetry, Hyes, merge_observed_maxRetries.
  - replace (attempt =? _)%nat with true
      by (symmetry; apply Nat.eqb_eq; lia).
    cbn [orb].
    match goal with
    | |- context [logError e ?ctx (s1, ?t)] =>
      destruct (logError_observed e ctx se s1 t Hse) as [s' Hlog]
    end.
    rewrite Hlog. exists e, s', [Throw e]. auto.
  - replace (attempt =? _)%nat with false
      by (symmetry; apply Nat.eqb_neq; lia).
    cbn [orb negb].
    match goal with
    | |- context [Retry.calculateBackoffDelay ?a ?b ?m (s1, ?t)] =>
      destruct (backoff_observed a b m s1 t) as (delay & s2 & Hdelay)
    end.
    rewrite Hdelay.
    match goal with
    | |- context [logError e ?ctx (s2, ?t)] =>
      destruct (logError_observed e ctx se s2 t Hse) as [s3 Hlog]
    end.
    rewrite Hlog.
    destruct (onRetry_observed options e (attempt + 1)%nat s3
                (tr ++ [Throw e])%list) as [s4 Hon].
    rewrite Hon. cbn [setTimeout Runtime_observed fst snd].
    destruct (IH (S attempt) (setTimeout delay s4) (tr ++ [Throw e])%list
                ltac:(lia))
      as (e' & s' & tr' & Hrun & Hlen & Hlast).
    rewrite Hrun.
    exists e', s', (Throw e :: tr'). rewrite <- app_assoc. simpl.
    repeat split; [lia|].
    destruct tr'; [discriminate Hlen|exact Hlast].
Qed.

(** The loop of the entity services on an operation that fails at every
    invocation: it runs as many times as iterations remain, then raises
    the last error. *)
Lemma Services_withRetry_loop_exhausts operation (maxRetries : nat) baseDelay :
  (∀ s, ∃ e s', operation s = (Throw e, s')) →
  ∀ remaining i s tr,
    (i + S remaining)%nat = maxRetries →
    ∃ e s' tr',
      Services.withRetry_loop (observed operation) maxRetries baseDelay
        (S remaining) i (s, tr)
      = (Throw e, (s', (tr ++ tr')%list))
      ∧ length tr' = S remaining ∧ last tr' = Some (Throw e).
Proof.
  intros Hfail.
  induction remaining as [|remaining IH]; intros i s tr Hinv;
    destruct (Hfail s) as (e & s1 & Hop);
    rewrite Services_withRetry_loop_unfold, (observed_step _ _ _ _ _ Hop).
  - replace (i =? _)%nat with true by (symmetry; apply Nat.eqb_eq; lia).
    exists e, s1, [Throw e]. auto.
  - replace (i =? _)%nat with false by (symmetry; apply Nat.eqb_neq; lia).
    cbn [setTimeout Runtime_observed fst snd].
    destruct (IH (S i) (setTimeout (baseDelay * 2 ^ Z.of_nat i) s1)
                (tr ++ [Throw e])%list ltac:(lia))
      as (e' & s' & tr' & Hrun & Hlen & Hlast).
    rewrite Hrun.
    exists e', s', (Throw e :: tr'). rewrite <- app_assoc. simpl.
    repeat split; [lia|].
    destruct tr'; [discriminate Hlen|exact Hlast].
Qed.

End Observed.

Section ObservedServices.
Context {St T : Type} `{Runtime St}.

(** The loop of the entity services only adds to the record of
    invocations. *)
Lemma Services_withRetry_loop_extends (operation : Async St T) maxRetries
    baseDelay remaining i (s : St) (tr : list (JsResult T)) :
  ∃ result s' tr',
    Services.withRetry_loop (observed operation) maxRetries baseDelay
      remaining i (s, tr) = (result, (s', (tr ++ tr')%list)).
Proof.
  revert i s tr. induction remaining as [|remaining IH]; intros i s tr.
  - exists (Throw (Raw (new_Error "Max retries exceeded"))), s, [].
    rewrite app_nil_r. reflexivity.
  - rewrite Services_withRetry_loop_unfold.
    destruct (operation s) as [r s1] eqn:Hop.
    rewrite (observed_step _ _ _ _ _ Hop).
    destruct r as [v|error].
    + exists (Ok v), s1, [Ok v]. reflexivity.
    + destruct (i =? maxRetries - 1)%nat.
      * exists (Throw error), s1, [Throw error]. reflexivity.
      * cbn [setTimeout Runtime_observed fst snd].
        destruct (IH (S i) (setTimeout (baseDelay * 2 ^ Z.of_nat i) s1)
                    (tr ++ [Throw error])%list)
          as (result & s' & tr' & Hrun).
        rewrite Hrun. exists result, s', (Throw error :: tr').
        rewrite <- app_assoc. reflexivity.
Qed.

(** After a first failure, whatever its kind, the entity services invoke
    the operation again. *)
Lemma Services_withRetry_retries_any_error (operation : Async St T) (s s1 : St)
    (e : JsError) :
  operation s = (Throw e, s1) →
  ∃ result s' second rest,
    Services.withRetry_default (observed operation) (s, [])
    = (result, (s', Throw e :: second :: rest)).
Proof.
  intros Hop. unfold Services.withRetry_default, Services.withRetry.
  rewrite Services_withRetry_loop_unfold, (observed_step _ _ _ _ _ Hop).
  cbn [Nat.eqb Nat.sub setTimeout Runtime_observed fst snd app].
  rewrite Services_withRetry_loop_unfold.
  destruct (operation (setTimeout (1000 * 2 ^ Z.of_nat 0) s1))
    as [second s2] eqn:Hop2.
  rewrite (observed_step _ _ _ _ _ Hop2). cbn [app].
  destruct second as [v|e2]; [eauto 6|].
  cbn [Nat.eqb Nat.sub setTimeout Runtime_observed fst snd].
  match goal with
  | |- context [Services.withRetry_loop ?op ?m ?b ?r ?i (?s, ?tr)] =>
    destruct (Services_withRetry_loop_extends operation m b r i s tr)
      as (result & s' & tr' & Hrun)
  end.
  rewrite Hrun. eauto 6.
Qed.

End ObservedServices.

(** C3, as stated, fails: [getGoals], whose requests all fail with a
    network error, makes 3 attempts (one request each), not 4. *)
Lemma getGoals_unreachable_three_attempts :
  isNetworkError (thrown fetch_failure) = Ok true
  ∧ requests (supabase (snd (Services.getGoals "user-1" unreachable_world)))
    = 3%nat
  ∧ requests (supabase (snd (Services.getGoals "user-1" unreachable_world)))
    ≠ 4%nat.
Proof.
  split; [reflexivity|]. split; [vm_compute; reflexivity|].
  vm_compute. discriminate.
Qed.

(** C3 (amended): on an operation that fails at every invocation, the
    [withRetry] of the entity services, with [maxRetries = 3], invokes the
    operation exactly 3 times (one attempt and two retries), whatever the
    errors, and raises the last one; the shared wrapper of retry.ts, with
    [maxRetries = 3] and errors that its predicate accepts, invokes it
    exactly 4 times and raises the last error. *)
Theorem retry_ceiling {St T} `{Runtime St} (operation : Async St T) (s : St) :
  (∀ s, ∃ e s', operation s = (Throw e, s')) →
  (∃ e s' attempts,
     Services.withRetry (observed operation) 3 1000 (s, [])
     = (Throw e, (s', attempts))
     ∧ length attempts = 3%nat ∧ last attempts = Some (Throw e))
  ∧ (∀ options : Retry.RetryOptions St,
       Retry.maxRetries options = Some 3%nat →
       (∀ s, ∃ e s' se,
          operation s = (Throw e, s')
          ∧ Retry.cfg_shouldRetry (Retry.merge_options options) e = Ok true
          ∧ transformError e = Ok se) →
       ∃ e s' attempts,
         Retry.withRetry (observed operation) (observed_options options)
           (s, [])
         = (Throw e, (s', attempts))
         ∧ length attempts = 4%nat ∧ last attempts = Some (Throw e)).
Proof.
  intros Hfail. split.
  - unfold Services.withRetry.
    destruct (Services_withRetry_loop_exhausts operation 3 1000 Hfail 2 0 s []
                eq_refl)
      as (e & s' & attempts & Hrun & Hlen & Hlast).
    exists e, s', attempts. auto.
  - intros options Hmax Hretryable.
    unfold Retry.withRetry. rewrite merge_observed_maxRetries.
    assert (Hcfg : Retry.cfg_maxRetries (Retry.merge_options options) = 3%nat)
      by (unfold Retry.merge_options; simpl; rewrite Hmax; reflexivity).
    rewrite Hcfg.
    destruct (withRetry_loop_exhausts operation options Hretryable 3 0 s []
                ltac:(rewrite Hcfg; reflexivity))
      as (e & s' & attempts & Hrun & Hlen & Hlast).
    exists e, s', attempts. auto.
Qed.

(** [retry_ceiling] on an operation that always rejects with a fetch
    failure. *)
Lemma retry_ceiling_witness :
  (∃ e s' attempts,
     Services.withRetry
       (observed (@always_rejects World unit (thrown fetch_failure)))
       3 1000 (idle_world, [])
     = (Throw e, (s', attempts))
     ∧ length attempts = 3%nat ∧ last attempts = Some (Throw e))
  ∧ (∃ e s' attempts,
       Retry.withRetry
         (observed (@always_rejects World unit (thrown fetch_failure)))
         (observed_options three_retries) (idle_world, [])
       = (Throw e, (s', attempts))
       ∧ length attempts = 4%nat ∧ last attempts = Some (Throw e)).
Proof.
  destruct (retry_ceiling (@always_rejects World unit (thrown fetch_failure))
              idle_world) as [Hservices Hshared].
  - intros s. exists (thrown fetch_failure), s. reflexivity.
  - split; [exact Hservices|]. apply (Hshared three_retries).
    + reflexivity.
    + intros s. eexists _, s, _. repeat split; reflexivity.
Defined.

(** C4, as stated, fails: [getGoals], whose first request fails with a
    uniqueness violation (classified [VALIDATION_ERROR]), sends a second
    request. *)
Lemma getGoals_conflict_retried :
  (∃ se, transformError (thrown unique_violation) = Ok se
         ∧ type se = VALIDATION_ERROR)
  ∧ requests (supabase (snd (Services.getGoals "user-1" conflicting_world)))
    = 2%nat
  ∧ requests (supabase (snd (Services.getGoals "user-1" conflicting_world)))
    ≠ 1%nat.
Proof.
  split; [eexists; split; reflexivity|].
  split; [vm_compute; reflexivity|]. vm_compute. discriminate.
Qed.

(** C4 (amended): an operation whose failure is classified
    [VALIDATION_ERROR], [PERMISSION_ERROR] or [AUTH_ERROR] is invoked
    exactly once by the shared wrapper under its default predicate and by
    [withAuthRetry], and by [withDatabaseRetry] unless the thrown value
    carries the code PGRST301 or 08000; each re-raises the error.  The
    [withRetry] of the entity services has no predicate and invokes the
    operation again. *)
Theorem no_retry_on_non_retryable {St T} `{Runtime St}
    (operation : Async St T) (s s1 : St) (e : JsError) (se : SupabaseError) :
  operation s = (Throw e, s1) →
  transformError e = Ok se →
  type se = VALIDATION_ERROR ∨ type se = PERMISSION_ERROR
    ∨ type se = AUTH_ERROR →
  (∃ s', Retry.withRetry (observed operation) Retry.no_options (s, [])
         = (Throw e, (s', [Throw e])))
  ∧ (∃ s', Retry.withAuthRetry (observed operation) (s, [])
           = (Throw e, (s', [Throw e])))
  ∧ (match e with
     | Raw o => code_is o "PGRST301" || code_is o "08000" = false
     | Classified _ => True
     end →
     ∃ s', Retry.withDatabaseRetry (observed operation) (s, [])
           = (Throw e, (s', [Throw e])))
  ∧ (∃ result s' second rest,
       Services.withRetry_default (observed operation) (s, [])
       = (result, (s', Throw e :: second :: rest))).
Proof.
  intros Hop Hse Hkind.
  assert (Hnet : isNetworkError e = Ok false).
  { unfold isNetworkError. rewrite Hse. f_equal. apply bool_decide_eq_false.
    destruct Hkind as [-> | [-> | ->]]; discriminate. }
  split; [|split; [|split]].
  - apply (withRetry_refused operation Retry.no_options s e s1 se Hop Hnet Hse).
  - unfold Retry.withAuthRetry, Retry.createRetryWrapper.
    apply (withRetry_refused operation
             {| Retry.maxRetries := Some 2%nat; Retry.baseDelay := Some 1000%Q;
                Retry.maxDelay := Some 3000%Q;
                Retry.shouldRetry := Some (fun error => isNetworkError error);
                Retry.onRetry := None |} s e s1 se Hop Hnet Hse).
  - intros Hcode. unfold Retry.withDatabaseRetry, Retry.createRetryWrapper.
    apply (withRetry_refused operation
             {| Retry.maxRetries := Some 3%nat; Retry.baseDelay := Some 1000%Q;
                Retry.maxDelay := Some 5000%Q;
                Retry.shouldRetry := Some Retry.withDatabaseRetry_shouldRetry;
                Retry.onRetry := None |} s e s1 se Hop); [|exact Hse].
    simpl. unfold Retry.withDatabaseRetry_shouldRetry. rewrite Hnet.
    destruct e; [reflexivity|]. rewrite Hcode. reflexivity.
  - exact (Services_withRetry_retries_any_error operation s s1 e Hop).
Qed.

(** [no_retry_on_non_retryable] on an operation that always rejects with
    a uniqueness violation. *)
Lemma no_retry_on_non_retryable_witness :
  ∃ s', Retry.withRetry
          (observed (@always_rejects World unit (thrown unique_violation)))
          Retry.no_options (idle_world, [])
        = (Throw (thrown unique_violation),
           (s', [Throw (thrown unique_violation)])).
Proof.
  refine (proj1 (no_retry_on_non_retryable
                   (always_rejects (thrown unique_violation)) idle_world
                   idle_world (thrown unique_violation) _ eq_refl eq_refl
                   (or_introl eq_refl))).
Defined.

(** ** Requests and their faults *)

Lemma query_send_answered {A} (run : Backend → Response A * Backend) (w : World) :
  pending_fault w = None →
  query (send run) w =
  (Ok (fst (run (after_request (supabase w)))),
   set_supabase (snd (run (after_request (supabase w)))) w).
Proof.
  unfold pending_fault, query, send, next_fault. intros Hq.
  change (faults (count_request (supabase w))) with (faults (supabase w)).
  rewrite Hq. unfold after_request.
  destruct (run _). reflexivity.
Qed.

Lemma query_send_fault {A} (run : Backend → Response A * Backend) (w : World) e :
  pending_fault w = Some e →
  query (send run) w =
  (Ok (Error e), set_supabase (after_request (supabase w)) w).
Proof.
  unfold pending_fault, query, send, next_fault. intros Hq.
  change (faults (count_request (supabase w))) with (faults (supabase w)).
  rewrite Hq. reflexivity.
Qed.

(** The [error] of a response is always classifiable: logging it does not
    raise. *)
Lemma transformError_thrown (e : PostgrestError) :
  ∃ se, transformError (thrown e) = Ok se.
Proof.
  unfold transformError, thrown. cbn [name_is e_name __isAuthError].
  change (String.eqb "PostgrestError" "AuthError") with false.
  cbn [orb]. repeat (match goal with |- context [if ?c then _ else _] =>
                       destruct c end); eauto.
Qed.

Lemma logDatabaseError_thrown (e : PostgrestError) op resType resId uid
    (w : World) :
  logDatabaseError (thrown e) op resType resId uid w
  = (Ok tt, console_error (database_error_line e op resType resId uid) w).
Proof.
  unfold logDatabaseError, logError, database_error_line.
  destruct (transformError_thrown e) as [se ->]. reflexivity.
Qed.

(** ** Transactions and the running total of their category *)

Ltac step_query :=
  match goal with
  | H : pending_fault ?w = None |- context [query (send ?run) ?w] =>
    rewrite (query_send_answered run w H)
  | H : pending_fault ?w = Some ?e |- context [query (send ?run) ?w] =>
    rewrite (query_send_fault run w e H)
  end.

(** The secondary write of [createTransaction] always resolves, and leaves
    the transactions alone. *)
Lemma adjust_category_after_create_resolves cid uid amount (w : World) :
  ∃ w', Services.adjust_category_after_create cid uid amount w = (Ok tt, w')
        ∧ tbl_transactions (supabase w') = tbl_transactions (supabase w).
Proof.
  unfold Services.adjust_category_after_create, select_category, await.
  destruct (pending_fault w) as [e|] eqn:Hq; step_query.
  { rewrite logDatabaseError_thrown. eauto. }
  cbn [fst snd].
  destruct (single _) as [category|e]; [|rewrite logDatabaseError_thrown; eauto].
  unfold new_Date, update_category.
  match goal with
  | |- context [query (send ?run) ?w1] =>
    destruct (pending_fault w1) as [e|] eqn:Hq'
  end; step_query.
  - rewrite logDatabaseError_thrown. eauto.
  - cbn [fst snd]. unfold resolve. eauto.
Qed.

(** The secondary write of [deleteTransaction] always resolves, and leaves
    the transactions alone. *)
Lemma adjust_category_after_delete_resolves cid uid amount (w : World) :
  ∃ w', Services.adjust_category_after_delete cid uid amount w = (Ok tt, w')
        ∧ tbl_transactions (supabase w') = tbl_transactions (supabase w).
Proof.
  unfold Services.adjust_category_after_delete, select_category, await.
  destruct (pending_fault w) as [e|] eqn:Hq; step_query.
  { rewrite logDatabaseError_thrown. eauto. }
  cbn [fst snd].
  destruct (single _) as [category|e]; [|rewrite logDatabaseError_thrown; eauto].
  unfold new_Date, update_category.
  match goal with
  | |- context [query (send ?run) ?w1] =>
    destruct (pending_fault w1) as [e|] eqn:Hq'
  end; step_query.
  - rewrite logDatabaseError_thrown. eauto.
  - cbn [fst snd]. unfold resolve. eauto.
Qed.

(** Whatever happens to the secondary write, [createTransaction] returns
    the inserted transaction as soon as the insert is answered. *)
Lemma createTransaction_succeeds (transaction : TransactionInsert) (w : World) :
  pending_fault w = None →
  ∃ newTransaction w',
    Services.createTransaction transaction w = (Ok newTransaction, w')
    ∧ newTransaction ∈ tbl_transactions (supabase w')
    ∧ tx_user_id newTransaction = ti_user_id transaction
    ∧ tx_category_id newTransaction = ti_category_id transaction
    ∧ tx_description newTransaction = ti_description transaction
    ∧ tx_amount newTransaction = ti_amount transaction.
Proof.
  intros Hq. unfold Services.createTransaction, Services.withRetry_default,
    Services.withRetry, try_catch.
  rewrite Services_withRetry_loop_unfold.
  unfold insert_transaction, await at 1. step_query.
  cbn [fst snd take_id].
  match goal with
  | |- context [await ?m ?k ?w1] =>
    assert (Hsec : ∃ w2, m w1 = (Ok tt, w2)
                         ∧ tbl_transactions (supabase w2)
                           = tbl_transactions (supabase w1))
  end.
  { destruct (truthy_id _) as [cid|].
    - apply adjust_category_after_create_resolves.
    - unfold resolve. eauto. }
  destruct Hsec as (w2 & Hsec & Htbl).
  unfold await. rewrite Hsec. unfold resolve.
  eexists _, w2. split; [reflexivity|].
  split; [|repeat split; reflexivity].
  rewrite Htbl. cbn. apply elem_of_app. right. apply list_elem_of_singleton.
  reflexivity.
Qed.

Lemma answered_next n (w : World) :
  answered (S n) w →
  pending_fault w = None
  ∧ Forall (fun f => f = None) (take n (tail (faults (supabase w)))).
Proof.
  unfold answered, pending_fault.
  destruct (faults (supabase w)) as [|f rest]; cbn [take head tail mjoin].
  - intros _. split; [reflexivity|]. destruct n; constructor.
  - intros Hall. apply Forall_cons in Hall as [-> Hrest]. split; [reflexivity|].
    exact Hrest.
Qed.

Lemma answered_set_supabase n (w : World) (b : Backend) :
  Forall (fun f => f = None) (take n (faults b)) →
  answered n (set_supabase b w).
Proof. intros Hall. exact Hall. Qed.

(** Whatever happens to the secondary write, [deleteTransaction] completes
    the deletion as soon as the read and the delete of the transaction are
    answered. *)
Lemma deleteTransaction_succeeds (id : string) (t : Transaction) (w : World) :
  answered 2 w →
  filter (fun t => tx_id t = id) (tbl_transactions (supabase w)) = [t] →
  ∃ w',
    Services.deleteTransaction id w = (Ok tt, w')
    ∧ ∀ t', t' ∈ tbl_transactions (supabase w') → tx_id t' ≠ id.
Proof.
  intros Hans Hrow. apply answered_next in Hans as [Hq Hans].
  unfold Services.deleteTransaction, Services.withRetry_default,
    Services.withRetry, try_catch.
  rewrite Services_withRetry_loop_unfold.
  unfold select_transaction, await at 1. step_query.
  cbn [fst snd]. change (tbl_transactions (after_request (supabase w)))
    with (tbl_transactions (supabase w)).
  rewrite Hrow. cbn [single].
  unfold delete_transaction, await at 1.
  match goal with
  | |- context [query (send ?run) ?w1] =>
    assert (Hq1 : pending_fault w1 = None)
  end.
  { apply (answered_next 0). apply answered_set_supabase. exact Hans. }
  step_query. cbn [fst snd].
  destruct (truthy_id (tx_category_id t)) as [cid|].
  - match goal with
    | |- context [Services.adjust_category_after_delete ?c ?u ?a ?w1] =>
      destruct (adjust_category_after_delete_resolves c u a w1)
        as (w2 & Hsec & Htbl)
    end.
    rewrite Hsec. exists w2. split; [reflexivity|].
    intros t'. rewrite Htbl. cbn. intros Hin.
    apply list_elem_of_filter in Hin as [Hne _]. exact Hne.
  - unfold resolve. eexists. split; [reflexivity|].
    intros t'. cbn. intros Hin.
    apply list_elem_of_filter in Hin as [Hne _]. exact Hne.
Qed.

Lemma patch_category_id id updates now (c : SpendingCategory) :
  cat_id (patch_category id updates now c) = cat_id c.
Proof. unfold patch_category. destruct (id_eqb _ _); reflexivity. Qed.

Lemma filter_patch_category id updates now (l : list SpendingCategory) :
  filter (fun c => cat_id c = id) (map (patch_category id updates now) l)
  = map (patch_category id updates now) (filter (fun c => cat_id c = id) l).
Proof.
  induction l as [|c l IH]; [reflexivity|].
  cbn [map]. rewrite !filter_cons, patch_category_id.
  destruct (decide (cat_id c = id)); cbn [map]; rewrite IH; reflexivity.
Qed.

Lemma id_eqb_refl (id : string) : id_eqb id id = true.
Proof. apply String.eqb_refl. Qed.

(** The three ways the secondary write of [deleteTransaction] ends: the
    read of the category fails (logged), the update fails (logged), or
    the category gets its new value. *)
Lemma adjust_category_after_delete_fetch_fault cid uid amount (w : World) e :
  pending_fault w = Some e →
  ∃ w', Services.adjust_category_after_delete cid uid amount w = (Ok tt, w')
    ∧ console w' =
      (console w ++
       [database_error_line e "fetch category for transaction deletion"
          "spending_category" (Some cid) (Some uid)])%list
    ∧ tbl_spending_categories (supabase w')
      = tbl_spending_categories (supabase w).
Proof.
  intros Hq.
  unfold Services.adjust_category_after_delete, select_category, await.
  step_query. rewrite logDatabaseError_thrown. eauto.
Qed.

Lemma adjust_category_after_delete_update_fault cid uid amount (w : World) c e :
  pending_fault w = None →
  filter (fun c => cat_id c = cid) (tbl_spending_categories (supabase w)) = [c] →
  mjoin (head (tail (faults (supabase w)))) = Some e →
  ∃ w', Services.adjust_category_after_delete cid uid amount w = (Ok tt, w')
    ∧ console w' =
      (console w ++
       [database_error_line e
          "update category value after transaction deletion"
          "spending_category" (Some cid) (Some uid)])%list
    ∧ tbl_spending_categories (supabase w')
      = tbl_spending_categories (supabase w).
Proof.
  intros Hq Hrow Hq'.
  unfold Services.adjust_category_after_delete, select_category, await.
  step_query. cbn [fst snd].
  change (tbl_spending_categories (after_request (supabase w)))
    with (tbl_spending_categories (supabase w)).
  rewrite Hrow. cbn [single]. unfold new_Date, update_category.
  match goal with
  | |- context [query (send ?run) ?w1] =>
    assert (Hq1 : pending_fault w1 = Some e) by exact Hq'
  end.
  step_query. rewrite logDatabaseError_thrown. eauto.
Qed.

Lemma adjust_category_after_delete_applied cid uid amount (w : World) c :
  answered 2 w →
  filter (fun c => cat_id c = cid) (tbl_spending_categories (supabase w)) = [c] →
  ∃ w' c',
    Services.adjust_category_after_delete cid uid amount w = (Ok tt, w')
    ∧ console w' = console w
    ∧ filter (fun c => cat_id c = cid) (tbl_spending_categories (supabase w'))
      = [c']
    ∧ cat_value c' = Qmax 0 (or_zero (cat_value c) - amount)
    ∧ cat_updated_at c' = server_now (supabase w).
Proof.
  intros Hans Hrow. apply answered_next in Hans as [Hq Hans].
  unfold Services.adjust_category_after_delete, select_category, await.
  step_query. cbn [fst snd].
  change (tbl_spending_categories (after_request (supabase w)))
    with (tbl_spending_categories (supabase w)).
  rewrite Hrow. cbn [single]. unfold new_Date, update_category.
  match goal with
  | |- context [query (send ?run) ?w1] =>
    assert (Hq1 : pending_fault w1 = None)
      by (apply (answered_next 0); apply answered_set_supabase; exact Hans)
  end.
  step_query. cbn [fst snd]. unfold resolve.
  eexists _, _. split; [reflexivity|]. split; [reflexivity|].
  cbn [supabase set_supabase tbl_spending_categories set_spending_categories
       after_request set_faults count_request].
  rewrite filter_patch_category, Hrow. cbn [map].
  split; [reflexivity|].
  assert (Hid : cat_id c = cid).
  { assert (Hin : c ∈ [c]) by apply list_elem_of_singleton, eq_refl.
    rewrite <- Hrow in Hin. apply list_elem_of_filter in Hin as [Hid _].
    exact Hid. }
  unfold patch_category. rewrite Hid, id_eqb_refl. split; reflexivity.
Qed.

(** The same for the secondary write of [createTransaction]. *)
Lemma adjust_category_after_create_fetch_fault cid uid amount (w : World) e :
  pending_fault w = Some e →
  ∃ w', Services.adjust_category_after_create cid uid amount w = (Ok tt, w')
    ∧ console w' =
      (console w ++
       [database_error_line e "fetch category for transaction update"
          "spending_category" (Some cid) (Some uid)])%list
    ∧ tbl_spending_categories (supabase w')
      = tbl_spending_categories (supabase w).
Proof.
  intros Hq.
  unfold Services.adjust_category_after_create, select_category, await.
  step_query. rewrite logDatabaseError_thrown. eauto.
Qed.

Lemma adjust_category_after_create_update_fault cid uid amount (w : World) c e :
  pending_fault w = None →
  filter (fun c => cat_id c = cid) (tbl_spending_categories (supabase w)) = [c] →
  mjoin (head (tail (faults (supabase w)))) = Some e →
  ∃ w', Services.adjust_category_after_create cid uid amount w = (Ok tt, w')
    ∧ console w' =
      (console w ++
       [database_error_line e "update category value after transaction"
          "spending_category" (Some cid) (Some uid)])%list
    ∧ tbl_spending_categories (supabase w')
      = tbl_spending_categories (supabase w).
Proof.
  intros Hq Hrow Hq'.
  unfold Services.adjust_category_after_create, select_category, await.
  step_query. cbn [fst snd].
  change (tbl_spending_categories (after_request (supabase w)))
    with (tbl_spending_categories (supabase w)).
  rewrite Hrow. cbn [single]. unfold new_Date, update_category.
  match goal with
  | |- context [query (send ?run) ?w1] =>
    assert (Hq1 : pending_fault w1 = Some e) by exact Hq'
  end.
  step_query. rewrite logDatabaseError_thrown. eauto.
Qed.

Lemma after_insert_frame (transaction : TransactionInsert) (w : World) :
  pending_fault w = None →
  console (after_insert transaction w) = console w
  ∧ Date_now (after_insert transaction w) = Date_now w
  ∧ tbl_spending_categories (supabase (after_insert transaction w))
    = tbl_spending_categories (supabase w)
  ∧ faults (supabase (after_insert transaction w))
    = tail (faults (supabase w)).
Proof.
  intros Hq. unfold after_insert, insert_transaction. step_query.
  repeat split; reflexivity.
Qed.

Lemma after_primary_delete_frame (id : string) (w : World) :
  answered 2 w →
  console (after_primary_delete id w) = console w
  ∧ Date_now (after_primary_delete id w) = Date_now w
  ∧ tbl_spending_categories (supabase (after_primary_delete id w))
    = tbl_spending_categories (supabase w)
  ∧ faults (supabase (after_primary_delete id w))
    = tail (tail (faults (supabase w))).
Proof.
  intros Hans. apply answered_next in Hans as [Hq Hans].
  unfold after_primary_delete, select_transaction. step_query. cbn [snd].
  unfold delete_transaction.
  match goal with
  | |- context [query (send ?run) ?w1] =>
    assert (Hq1 : pending_fault w1 = None)
      by (apply (answered_next 0); apply answered_set_supabase; exact Hans)
  end.
  step_query. repeat split; reflexivity.
Qed.

(** [createTransaction] on a transaction linked to a category, once the
    insert is answered: the inserted row is returned, and the world is
    the one the secondary write leaves. *)
Lemma createTransaction_secondary (transaction : TransactionInsert) cid
    (w : World) :
  pending_fault w = None →
  truthy_id (ti_category_id transaction) = Some cid →
  ∃ newTransaction,
    Services.createTransaction transaction w =
    (Ok newTransaction,
     snd (Services.adjust_category_after_create cid (ti_user_id transaction)
            (ti_amount transaction) (after_insert transaction w))).
Proof.
  intros Hq Hcat. unfold Services.createTransaction, Services.withRetry_default,
    Services.withRetry, try_catch.
  rewrite Services_withRetry_loop_unfold.
  unfold after_insert, insert_transaction, await at 1. step_query.
  cbn [fst snd take_id]. rewrite Hcat. unfold await.
  match goal with
  | |- context [Services.adjust_category_after_create ?c ?u ?a ?w1] =>
    destruct (adjust_category_after_create_resolves c u a w1)
      as (w2 & Hsec & _)
  end.
  rewrite Hsec. unfold resolve. eauto.
Qed.

(** [deleteTransaction] on a transaction linked to a category, once its
    read and its delete are answered. *)
Lemma deleteTransaction_secondary (id : string) (t : Transaction) cid
    (w : World) :
  answered 2 w →
  filter (fun t => tx_id t = id) (tbl_transactions (supabase w)) = [t] →
  truthy_id (tx_category_id t) = Some cid →
  Services.deleteTransaction id w =
  (Ok tt,
   snd (Services.adjust_category_after_delete cid (tx_user_id t) (tx_amount t)
          (after_primary_delete id w))).
Proof.
  intros Hans Hrow Hcat. apply answered_next in Hans as [Hq Hans].
  unfold Services.deleteTransaction, Services.withRetry_default,
    Services.withRetry, try_catch.
  rewrite Services_withRetry_loop_unfold.
  unfold after_primary_delete, select_transaction, await at 1. step_query.
  cbn [fst snd]. change (tbl_transactions (after_request (supabase w)))
    with (tbl_transactions (supabase w)).
  rewrite Hrow. cbn [single].
  unfold delete_transaction, await at 1.
  match goal with
  | |- context [query (send ?run) ?w1] =>
    assert (Hq1 : pending_fault w1 = None)
      by (apply (answered_next 0); apply answered_set_supabase; exact Hans)
  end.
  step_query. cbn [fst snd]. rewrite Hcat.
  match goal with
  | |- context [Services.adjust_category_after_delete ?c ?u ?a ?w1] =>
    destruct (adjust_category_after_delete_resolves c u a w1)
      as (w2 & Hsec & _)
  end.
  rewrite Hsec. reflexivity.
Qed.

(** C8: a failure of the secondary category write is logged and
    swallowed.  [createTransaction] returns the inserted transaction as
    soon as the insert is answered, and [deleteTransaction] completes the
    deletion as soon as its read and delete are answered, whatever the
    category read and the category update do; when the category read or
    the category update fails, the only trace is one line on the
    console. *)
Theorem secondary_write_failure_swallowed :
  (∀ transaction w,
     pending_fault w = None →
     ∃ newTransaction w',
       Services.createTransaction transaction w = (Ok newTransaction, w')
       ∧ newTransaction ∈ tbl_transactions (supabase w')
       ∧ tx_description newTransaction = ti_description transaction
       ∧ tx_amount newTransaction = ti_amount transaction)
  ∧ (∀ transaction cid w e rest,
       truthy_id (ti_category_id transaction) = Some cid →
       faults (supabase w) = None :: Some e :: rest →
       ∃ newTransaction w',
         Services.createTransaction transaction w = (Ok newTransaction, w')
         ∧ console w' =
           (console w ++
            [database_error_line e "fetch category for transaction update"
               "spending_category" (Some cid)
               (Some (ti_user_id transaction))])%list)
  ∧ (∀ transaction cid c w e rest,
       truthy_id (ti_category_id transaction) = Some cid →
       filter (fun c => cat_id c = cid) (tbl_spending_categories (supabase w))
         = [c] →
       faults (supabase w) = None :: None :: Some e :: rest →
       ∃ newTransaction w',
         Services.createTransaction transaction w = (Ok newTransaction, w')
         ∧ console w' =
           (console w ++
            [database_error_line e "update category value after transaction"
               "spending_category" (Some cid)
               (Some (ti_user_id transaction))])%list)
  ∧ (∀ id t w,
       answered 2 w →
       filter (fun t => tx_id t = id) (tbl_transactions (supabase w)) = [t] →
       ∃ w',
         Services.deleteTransaction id w = (Ok tt, w')
         ∧ ∀ t', t' ∈ tbl_transactions (supabase w') → tx_id t' ≠ id)
  ∧ (∀ id t cid w e rest,
       filter (fun t => tx_id t = id) (tbl_transactions (supabase w)) = [t] →
       truthy_id (tx_category_id t) = Some cid →
       faults (supabase w) = None :: None :: Some e :: rest →
       ∃ w',
         Services.deleteTransaction id w = (Ok tt, w')
         ∧ console w' =
           (console w ++
            [database_error_line e "fetch category for transaction deletion"
               "spending_category" (Some cid) (Some (tx_user_id t))])%list)
  ∧ (∀ id t cid c w e rest,
       filter (fun t => tx_id t = id) (tbl_transactions (supabase w)) = [t] →
       truthy_id (tx_category_id t) = Some cid →
       filter (fun c => cat_id c = cid) (tbl_spending_categories (supabase w))
         = [c] →
       faults (supabase w) = None :: None :: None :: Some e :: rest →
       ∃ w',
         Services.deleteTransaction id w = (Ok tt, w')
         ∧ console w' =
           (console w ++
            [database_error_line e
               "update category value after transaction deletion"
               "spending_category" (Some cid) (Some (tx_user_id t))])%list).
Proof.
  split; [|split; [|split; [|split; [|split]]]].
  - intros transaction w Hq.
    destruct (createTransaction_succeeds transaction w Hq)
      as (new & w' & Hrun & Hin & _ & _ & Hdesc & Hamount).
    eauto 6.
  - intros transaction cid w e rest Hcat Hf.
    assert (Hq : pending_fault w = None)
      by (unfold pending_fault; rewrite Hf; reflexivity).
    destruct (createTransaction_secondary transaction cid w Hq Hcat)
      as [new Hrun].
    destruct (after_insert_frame transaction w Hq) as (Hc & _ & _ & Hfaults).
    destruct (adjust_category_after_create_fetch_fault cid
                (ti_user_id transaction) (ti_amount transaction)
                (after_insert transaction w) e) as (w' & Hsec & Hlog & _).
    { unfold pending_fault. rewrite Hfaults, Hf. reflexivity. }
    rewrite Hsec in Hrun. exists new, w'. split; [exact Hrun|].
    rewrite Hlog, Hc. reflexivity.
  - intros transaction cid c w e rest Hcat Hrow Hf.
    assert (Hq : pending_fault w = None)
      by (unfold pending_fault; rewrite Hf; reflexivity).
    destruct (createTransaction_secondary transaction cid w Hq Hcat)
      as [new Hrun].
    destruct (after_insert_frame transaction w Hq)
      as (Hc & _ & Hcats & Hfaults).
    destruct (adjust_category_after_create_update_fault cid
                (ti_user_id transaction) (ti_amount transaction)
                (after_insert transaction w) c e) as (w' & Hsec & Hlog & _).
    { unfold pending_fault. rewrite Hfaults, Hf. reflexivity. }
    { rewrite Hcats. exact Hrow. }
    { rewrite Hfaults, Hf. reflexivity. }
    rewrite Hsec in Hrun. exists new, w'. split; [exact Hrun|].
    rewrite Hlog, Hc. reflexivity.
  - intros id t w Hans Hrow. exact (deleteTransaction_succeeds id t w Hans Hrow).
  - intros id t cid w e rest Hrow Hcat Hf.
    assert (Hans : answered 2 w).
    { unfold answered. rewrite Hf. repeat constructor. }
    rewrite (deleteTransaction_secondary id t cid w Hans Hrow Hcat).
    destruct (after_primary_delete_frame id w Hans) as (Hc & _ & _ & Hfaults).
    destruct (adjust_category_after_delete_fetch_fault cid (tx_user_id t)
                (tx_amount t) (after_primary_delete id w) e)
      as (w' & Hsec & Hlog & _).
    { unfold pending_fault. rewrite Hfaults, Hf. reflexivity. }
    rewrite Hsec. exists w'. split; [reflexivity|].
    rewrite Hlog, Hc. reflexivity.
  - intros id t cid c w e rest Hrow Hcat Hcrow Hf.
    assert (Hans : answered 2 w).
    { unfold answered. rewrite Hf. repeat constructor. }
    rewrite (deleteTransaction_secondary id t cid w Hans Hrow Hcat).
    destruct (after_primary_delete_frame id w Hans)
      as (Hc & _ & Hcats & Hfaults).
    destruct (adjust_category_after_delete_update_fault cid (tx_user_id t)
                (tx_amount t) (after_primary_delete id w) c e)
      as (w' & Hsec & Hlog & _).
    { unfold pending_fault. rewrite Hfaults, Hf. reflexivity. }
    { rewrite Hcats. exact Hrow || exact Hcrow. }
    { rewrite Hfaults, Hf. reflexivity. }
    rewrite Hsec. exists w'. split; [reflexivity|].
    rewrite Hlog, Hc. reflexivity.
Qed.



(** [secondary_write_failure_swallowed] on the deletion of the $45.25
    transaction while the category cannot be read. *)
Lemma secondary_write_failure_swallowed_witness :
  ∃ w',
    Services.deleteTransaction "tx-1" ledger_world_category_unreadable
    = (Ok tt, w')
    ∧ console w' =
      [database_error_line fetch_failure
         "fetch category for transaction deletion" "spending_category"
         (Some "cat-1") (Some "user-1")].
Proof.
  destruct secondary_write_failure_swallowed as (_ & _ & _ & _ & Hlog & _).
  exact (Hlog "tx-1" lunch "cat-1" ledger_world_category_unreadable
           fetch_failure [] eq_refl eq_refl eq_refl).
Defined.


(** ** Local cache *)

Lemma keeps_query {A} (q : Backend → Response A * Backend) :
  keeps_localStorage (query q).
Proof. intros w. unfold query. destruct (q (supabase w)). reflexivity. Qed.

Lemma keeps_resolve {A} (a : A) : keeps_localStorage (resolve a).
Proof. intros w. reflexivity. Qed.

Lemma keeps_reject {A} (e : JsError) : keeps_localStorage (@reject World A e).
Proof. intros w. reflexivity. Qed.

Lemma keeps_await {A B} (m : Async World A) (k : A → Async World B) :
  keeps_localStorage m → (∀ a, keeps_localStorage (k a)) →
  keeps_localStorage (await m k).
Proof.
  intros Hm Hk w. unfold await. specialize (Hm w).
  destruct (m w) as [[a|e] w1]; cbn [snd] in *; [|exact Hm].
  rewrite (Hk a w1). exact Hm.
Qed.

Lemma keeps_try_catch {A} (m : Async World A) (h : JsError → Async World A) :
  keeps_localStorage m → (∀ e, keeps_localStorage (h e)) →
  keeps_localStorage (try_catch m h).
Proof.
  intros Hm Hh w. unfold try_catch. specialize (Hm w).
  destruct (m w) as [[a|e] w1]; cbn [snd] in *; [exact Hm|].
  rewrite (Hh e w1). exact Hm.
Qed.

Lemma keeps_logDatabaseError error op resType resId uid :
  keeps_localStorage (logDatabaseError error op resType resId uid).
Proof.
  intros w. unfold logDatabaseError, logError.
  destruct (transformError error); reflexivity.
Qed.

Lemma keeps_handleError {A} resType error op uid resId :
  keeps_localStorage (@Services.handleError A resType error op uid resId).
Proof.
  apply keeps_await; [apply keeps_logDatabaseError|].
  intros _. apply keeps_reject.
Qed.

Lemma keeps_withRetry_loop {A} (operation : Async World A) maxRetries baseDelay
    remaining i :
  keeps_localStorage operation →
  keeps_localStorage
    (Services.withRetry_loop operation maxRetries baseDelay remaining i).
Proof.
  intros Hop. revert i. induction remaining as [|remaining IH]; intros i.
  - apply keeps_reject.
  - cbn [Services.withRetry_loop]. apply keeps_try_catch; [exact Hop|].
    intros error. destruct (i =? maxRetries - 1)%nat; [apply keeps_reject|].
    apply keeps_await; [intros w; reflexivity|]. intros _. apply IH.
Qed.

Lemma keeps_getTransactions userId limit offset :
  keeps_localStorage (Services.getTransactions userId limit offset).
Proof.
  apply keeps_try_catch; [|intros e; apply keeps_handleError].
  apply keeps_withRetry_loop, keeps_await; [apply keeps_query|].
  intros [data|error]; [apply keeps_resolve|apply keeps_reject].
Qed.

(** C6, as stated, fails: after the second page is fetched with
    [fetchTransactions(false)], the fetch having succeeded, the cache entry
    still holds the first page: it is neither the page returned nor the
    collection exposed. *)
Lemma load_more_leaves_cache_behind :
  useTransactions.error (fst second_page) = None
  ∧ useTransactions.transactions (fst second_page) = [coffee; lunch]
  ∧ fst (Services.getTransactions "user-1" 1 1 (snd first_page)) = Ok [lunch]
  ∧ localStorage (snd second_page) !! "finsmart_transactions_user-1"
    = Some (JsonTransactions [coffee])
  ∧ localStorage (snd second_page) !! "finsmart_transactions_user-1"
    ≠ Some (JsonTransactions
              (useTransactions.transactions (fst second_page))).
Proof.
  split; [vm_compute; reflexivity|].
  split; [vm_compute; reflexivity|].
  split; [vm_compute; reflexivity|].
  split; [vm_compute; reflexivity|].
  vm_compute. discriminate.
Qed.

(** C6 (amended): after a successful fetch that replaces the collection
    ([fetchTransactions(true)], [fetchGoals], [fetchCategories]) and after
    a change-event callback, the cache entry of the owner equals the
    collection exposed to consumers: for transactions and goals the list
    the service returned, for categories that list completed with the
    missing fixed categories and sorted.  A load-more fetch
    ([fetchTransactions(false)]) appends the page it received to the
    exposed collection and leaves [localStorage] as it was. *)
Theorem cache_fidelity :
  (∀ uid limit offset st w data w1,
     Services.getTransactions uid limit 0 w = (Ok data, w1) →
     let after := useTransactions.fetchTransactions (Some uid) limit offset
                    true st w in
     useTransactions.transactions (fst after) = data
     ∧ localStorage (snd after) !! (useTransactions.CACHE_KEY_PREFIX +:+ uid)
       = Some (JsonTransactions data))
  ∧ (∀ uid st w data w1,
       Services.getGoals uid w = (Ok data, w1) →
       let after := useGoals.fetchGoals (Some uid) st w in
       useGoals.goals (fst after) = data
       ∧ localStorage (snd after) !! (useGoals.CACHE_KEY_PREFIX +:+ uid)
         = Some (JsonGoals data))
  ∧ (∀ uid st w sortedCategories w1,
       useCategories.fetchCategories_try uid w = (Ok sortedCategories, w1) →
       let after := useCategories.fetchCategories (Some uid) st w in
       useCategories.categories (fst after) = sortedCategories
       ∧ localStorage (snd after) !! (useCategories.CACHE_KEY_PREFIX +:+ uid)
         = Some (JsonCategories sortedCategories))
  ∧ (∀ uid limit updated st w,
       let after := useTransactions.onChange uid limit updated st w in
       useTransactions.transactions (fst after) = updated
       ∧ localStorage (snd after) !! (useTransactions.CACHE_KEY_PREFIX +:+ uid)
         = Some (JsonTransactions updated))
  ∧ (∀ uid updated st w,
       let after := useGoals.onChange uid updated st w in
       useGoals.goals (fst after) = updated
       ∧ localStorage (snd after) !! (useGoals.CACHE_KEY_PREFIX +:+ uid)
         = Some (JsonGoals updated))
  ∧ (∀ uid updated st w,
       let after := useCategories.onChange uid updated st w in
       useCategories.categories (fst after) = updated
       ∧ localStorage (snd after) !! (useCategories.CACHE_KEY_PREFIX +:+ uid)
         = Some (JsonCategories updated))
  ∧ (∀ uid limit offset st w data w1,
       Services.getTransactions uid limit offset w = (Ok data, w1) →
       let after := useTransactions.fetchTransactions (Some uid) limit offset
                      false st w in
       useTransactions.transactions (fst after)
       = (useTransactions.transactions st ++ data)%list
       ∧ localStorage (snd after) = localStorage w).
Proof.
  split; [|split; [|split; [|split; [|split; [|split]]]]].
  - intros uid limit offset st w data w1 Hfetch. cbv zeta.
    unfold useTransactions.fetchTransactions. rewrite Hfetch.
    split; [reflexivity|]. cbn. apply lookup_insert_eq.
  - intros uid st w data w1 Hfetch. cbv zeta.
    unfold useGoals.fetchGoals. rewrite Hfetch.
    split; [reflexivity|]. cbn. apply lookup_insert_eq.
  - intros uid st w sortedCategories w1 Hfetch. cbv zeta.
    unfold useCategories.fetchCategories. rewrite Hfetch.
    split; [reflexivity|]. cbn. apply lookup_insert_eq.
  - intros uid limit updated st w. cbv zeta.
    split; [reflexivity|]. cbn. apply lookup_insert_eq.
  - intros uid updated st w. cbv zeta.
    split; [reflexivity|]. cbn. apply lookup_insert_eq.
  - intros uid updated st w. cbv zeta.
    split; [reflexivity|]. cbn. apply lookup_insert_eq.
  - intros uid limit offset st w data w1 Hfetch. cbv zeta.
    unfold useTransactions.fetchTransactions.
    pose proof (keeps_getTransactions uid limit offset w) as Hkeep.
    rewrite Hfetch in *. split; [reflexivity|exact Hkeep].
Qed.

(** [cache_fidelity] on the fetch of the first page. *)
Lemma cache_fidelity_witness :
  useTransactions.transactions (fst first_page) = [coffee]
  ∧ localStorage (snd first_page) !! "finsmart_transactions_user-1"
    = Some (JsonTransactions [coffee]).
Proof.
  destruct cache_fidelity as (Hreset & _).
  refine (Hreset "user-1" 1%nat 0%nat mounted two_transactions_world [coffee]
            (snd (Services.getTransactions "user-1" 1 0
                    two_transactions_world)) _).
  vm_compute. reflexivity.
Defined.

(** ** Connectivity gate *)

(** The mutations that consult [navigator.onLine] reject at once, leaving
    the hook state, the view and the world untouched. *)
Lemma addTransaction_offline {V} user onOptimisticAdd onRollback transaction
    st (v : V) (w : World) :
  offline w = true →
  ∃ e, useTransactions.addTransaction user onOptimisticAdd onRollback
         transaction st v w = (Throw e, (st, v, w)).
Proof.
  intros Hoff. unfold useTransactions.addTransaction.
  destruct user; [rewrite Hoff|]; eauto.
Qed.

Lemma updateCategoryMutation_offline {V} onOptimisticUpdate onRollback id
    updates st (v : V) (w : World) :
  offline w = true →
  useCategories.updateCategoryMutation onOptimisticUpdate onRollback id updates
    st v w
  = (Throw (Raw (new_Error
       "You are offline. Please connect to the internet to update categories.")),
     (st, v, w)).
Proof.
  intros Hoff. unfold useCategories.updateCategoryMutation. rewrite Hoff.
  reflexivity.
Qed.

Lemma addContributionMutation_offline {V} onOptimisticUpdate onRollback goalId
    amount st (v : V) (w : World) :
  offline w = true →
  useGoals.addContributionMutation onOptimisticUpdate onRollback goalId amount
    st v w
  = (Throw (Raw (new_Error
       "You are offline. Please connect to the internet to add contributions.")),
     (st, v, w)).
Proof.
  intros Hoff. unfold useGoals.addContributionMutation. rewrite Hoff.
  reflexivity.
Qed.

(** C1: the code at the failing inputs.  While [navigator.onLine] is
    false, [updateGoalMutation] calls the optimistic callback, sends three
    requests, calls the rollback callback and rejects with the error of
    the service, not with an offline error; [deleteTransactionMutation]
    sends three requests likewise. *)
Theorem mutations_missing_offline_guard :
  offline offline_world = true
  ∧ view_of offline_goal_update
    = [("onOptimisticUpdate", "goal-1", rename);
       ("onRollback", "goal-1", rename)]
  ∧ requests (supabase (world_of offline_goal_update)) = 3%nat
  ∧ rejection_message (fst offline_goal_update)
    = Some "Failed to update goal: TypeError: Failed to fetch"
  ∧ requests (supabase (snd (snd offline_transaction_delete))) = 3%nat
  ∧ rejection_message (fst offline_transaction_delete)
    = Some "Failed to delete transaction: TypeError: Failed to fetch".
Proof. repeat split; vm_compute; reflexivity. Qed.

(** ** Rollback *)

(** What [updateCategoryMutation] hands to the rollback callback is the
    [updates] it was called with. *)
Lemma updateCategoryMutation_rollback_argument {V}
    (onOptimisticUpdate onRollback : string → CategoryUpdates → V → V)
    id updates st (v : V) (w w1 : World) err :
  offline w = false →
  Services.updateCategory id updates w = (Throw err, w1) →
  ∃ st',
    useCategories.updateCategoryMutation (Some onOptimisticUpdate)
      (Some onRollback) id updates st v w
    = (Throw err,
       (st', onRollback id updates (onOptimisticUpdate id updates v), w1)).
Proof.
  intros Hon Hfail. unfold useCategories.updateCategoryMutation.
  rewrite Hon, Hfail. cbn. eauto.
Qed.

(** What [addContributionMutation] hands to the rollback callback is the
    opposite of the contribution. *)
Lemma addContributionMutation_rollback_argument {V}
    (onOptimisticUpdate onRollback : string → GoalUpdates → V → V)
    goalId amount st (v : V) (w w1 : World) err :
  offline w = false →
  Services.addContribution goalId amount w = (Throw err, w1) →
  ∃ st',
    useGoals.addContributionMutation (Some onOptimisticUpdate)
      (Some onRollback) goalId amount st v w
    = (Throw err,
       (st',
        onRollback goalId (only_current_amount (- amount))
          (onOptimisticUpdate goalId (only_current_amount amount) v), w1)).
Proof.
  intros Hon Hfail. unfold useGoals.addContributionMutation.
  rewrite Hon, Hfail. cbn. eauto.
Qed.

(** The rollback of an optimistic insert does restore the list, when no
    other entry carries the provisional id. *)
Lemma AppContext_rollback_restores (t : Transaction) (prev : list Transaction) :
  Forall (fun t' => tx_id t' ≠ tx_id t) prev →
  AppContext.handleRollback (tx_id t) (AppContext.handleOptimisticAdd t prev)
  = prev.
Proof.
  intros Hfresh.
  unfold AppContext.handleRollback, AppContext.handleOptimisticAdd.
  rewrite filter_cons_False by (intros Hne; apply Hne; reflexivity).
  induction Hfresh as [|t' prev Hne _ IH]; [reflexivity|].
  rewrite filter_cons_True by exact Hne. rewrite IH. reflexivity.
Qed.

(** C2: the code at the failing inputs.  A category update of the budget
    from 500 to 650 that fails is rolled back with the new budget, and
    leaves 650 in the list; a contribution of 30 to a goal holding 100 that
    fails leaves 60 on display, the list of optimistic goals not being
    empty as it was before. *)
Theorem rollback_does_not_restore :
  rejection_message (fst failed_category_update)
    = Some "Failed to update category: TypeError: Failed to fetch"
  ∧ view_of failed_category_update
    = [spread_category groceries raise_budget]
  ∧ view_of failed_category_update ≠ [groceries]
  ∧ rejection_message (fst failed_contribution)
    = Some "Failed to add contribution to goal: TypeError: Failed to fetch"
  ∧ view_of failed_contribution = [Goals.set_current_amount 60 vacation]
  ∧ Goals.goals [vacation] (view_of failed_contribution)
    ≠ Goals.goals [vacation] [].
Proof.
  split; [vm_compute; reflexivity|].
  split; [vm_compute; reflexivity|].
  split; [vm_compute; discriminate|].
  split; [vm_compute; reflexivity|].
  split; [vm_compute; reflexivity|].
  vm_compute. discriminate.
Qed.

(** * Further properties *)

(** ** Retry wrappers: attempts and delays *)

Section ObservedBounds.
Context {St T : Type} `{Runtime St}.
Implicit Types (operation : Async St T) (s : St) (tr : list (JsResult T)).

Lemma logError_observed_any (error : JsError) (ctx : ErrorContext) s tr :
  ∃ r s', @logError (St * list (JsResult T)) _ error ctx (s, tr)
          = (r, (s', tr)).
Proof. unfold logError. destruct (transformError error); simpl; eauto. Qed.

Lemma run_of_attempts_rejected (e e' : JsError) :
  @run_of_attempts T [Throw e] (Throw e').
Proof. exists [e]. reflexivity. Qed.

Lemma run_of_attempts_cons (e : JsError) tr (r : JsResult T) :
  run_of_attempts tr r → run_of_attempts (Throw e :: tr) r.
Proof.
  intros [errors Hrun]. exists (e :: errors).
  destruct r; rewrite Hrun; reflexivity.
Qed.

(** The loop of the shared wrapper, on any operation. *)
Lemma withRetry_loop_bounds operation (options : Retry.RetryOptions St)
    remaining attempt s tr :
  ∃ r s' tr',
    Retry.withRetry_loop (Retry.merge_options (observed_options options))
      (observed operation) remaining attempt (s, tr)
    = (r, (s', (tr ++ tr')%list))
    ∧ (1 <= length tr' <= S remaining)%nat
    ∧ run_of_attempts tr' r.
Proof.
  revert attempt s tr.
  induction remaining as [|remaining IH]; intros attempt s tr.
  all: rewrite withRetry_loop_unfold.
  all: destruct (operation s) as [[v|e] s1] eqn:Hop.
  all: rewrite (observed_step _ _ _ _ _ Hop).
  all: try (exists (Ok v), s1, [Ok v]; split; [reflexivity|];
            split; [cbn; lia|exists []; reflexivity]).
  all: destruct (Retry.cfg_shouldRetry _ e) as [should|e'].
  all: try (exists (Throw e'), s1, [Throw e]; split; [reflexivity|];
            split; [cbn; lia|apply run_of_attempts_rejected]).
  all: destruct (_ || negb should).
  all: try (match goal with
            | |- context [logError ?err ?ctx (?x, ?t)] =>
              destruct (logError_observed_any err ctx x t)
                as ([[]|e'] & s2 & ->)
            end;
            eexists _, s2, [Throw e]; (split; [reflexivity|]);
            (split; [cbn; lia|apply run_of_attempts_rejected])).
  all: match goal with
       | |- context [Retry.calculateBackoffDelay ?a ?b ?m (?x, ?t)] =>
         destruct (backoff_observed a b m x t) as (delay & s2 & ->)
       end.
  all: match goal with
       | |- context [logError ?err ?ctx (?x, ?t)] =>
         destruct (logError_observed_any err ctx x t) as ([[]|e'] & s3 & ->)
       end.
  all: try (eexists _, s3, [Throw e]; (split; [reflexivity|]);
            (split; [cbn; lia|apply run_of_attempts_rejected])).
  all: destruct (onRetry_observed options e (attempt + 1)%nat s3
                   (tr ++ [Throw e])%list) as [s4 ->].
  all: cbn [setTimeout Runtime_observed fst snd].
  - eexists _, _, [Throw e]. split; [reflexivity|].
    split; [cbn; lia|apply run_of_attempts_rejected].
  - destruct (IH (S attempt) (setTimeout delay s4) (tr ++ [Throw e])%list)
      as (r & s' & tr' & -> & Hlen & Hrun).
    exists r, s', (Throw e :: tr'). rewrite <- app_assoc.
    split; [reflexivity|]. split; [cbn; lia|].
    apply run_of_attempts_cons. exact Hrun.
Qed.

End ObservedBounds.

(** X1: for options whose [maxRetries] is left out or is a natural
    number (as in every wrapper that the repository builds), and whatever
    the operation and the other options, the shared wrapper invokes the
    operation at least once and at most [maxRetries + 1] times, and never
    again after an invocation resolved: when it resolves, it is with the
    value of the last invocation, all the earlier ones having rejected;
    when it rejects, no invocation resolved.  ([RetryOptions] holds no
    other [maxRetries]: one given as [undefined], [NaN] or a negative
    number would leave the loop before the first invocation.) *)
Theorem withRetry_attempts {St T} `{Runtime St} (operation : Async St T)
    (options : Retry.RetryOptions St) (s : St) :
  ∃ result s' attempts,
    Retry.withRetry (observed operation) (observed_options options) (s, [])
    = (result, (s', attempts))
    ∧ (1 <= length attempts
       <= S (Retry.cfg_maxRetries (Retry.merge_options options)))%nat
    ∧ run_of_attempts attempts result.
Proof.
  unfold Retry.withRetry. rewrite merge_observed_maxRetries.
  destruct (withRetry_loop_bounds operation options
              (Retry.cfg_maxRetries (Retry.merge_options options)) 0 s [])
    as (r & s' & tr' & Hrun & Hlen & Hshape).
  exists r, s', tr'. auto.
Qed.

(** X2: the [withRetry] of the entity services invokes the operation at
    most [maxRetries] times, never again after an invocation resolved, and
    with [maxRetries = 0] not at all: it then rejects with 'Max retries
    exceeded'. *)
Theorem Services_withRetry_attempts {St T} `{Runtime St}
    (operation : Async St T) (maxRetries : nat) (baseDelay : Q) (s : St) :
  (maxRetries = 0%nat →
   Services.withRetry (observed operation) maxRetries baseDelay (s, [])
   = (Throw (Raw (new_Error "Max retries exceeded")), (s, [])))
  ∧ ((1 <= maxRetries)%nat →
     ∃ result s' attempts,
       Services.withRetry (observed operation) maxRetries baseDelay (s, [])
       = (result, (s', attempts))
       ∧ (1 <= length attempts <= maxRetries)%nat
       ∧ run_of_attempts attempts result).
Proof.
  split.
  - intros ->. reflexivity.
  - intros Hpos. destruct maxRetries as [|n]; [lia|].
    unfold Services.withRetry.
    assert (Hgen : ∀ remaining i s tr,
               (i + S remaining)%nat = S n →
               ∃ r s' tr',
                 Services.withRetry_loop (observed operation) (S n) baseDelay
                   (S remaining) i (s, tr)
                 = (r, (s', (tr ++ tr')%list))
                 ∧ (1 <= length tr' <= S remaining)%nat
                 ∧ run_of_attempts tr' r).
    { induction remaining as [|remaining IH]; intros i s0 tr Hinv.
      all: rewrite Services_withRetry_loop_unfold.
      all: destruct (operation s0) as [[v|e] s1] eqn:Hop.
      all: rewrite (observed_step _ _ _ _ _ Hop).
      all: try (exists (Ok v), s1, [Ok v]; split; [reflexivity|];
                split; [cbn; lia|exists []; reflexivity]).
      - replace (i =? _)%nat with true by (symmetry; apply Nat.eqb_eq; lia).
        exists (Throw e), s1, [Throw e]. split; [reflexivity|].
        split; [cbn; lia|apply run_of_attempts_rejected].
      - replace (i =? _)%nat with false by (symmetry; apply Nat.eqb_neq; lia).
        cbn [setTimeout Runtime_observed fst snd].
        destruct (IH (S i) (setTimeout (baseDelay * 2 ^ Z.of_nat i) s1)
                    (tr ++ [Throw e])%list ltac:(lia))
          as (r & s' & tr' & -> & Hlen & Hrun).
        exists r, s', (Throw e :: tr'). rewrite <- app_assoc.
        split; [reflexivity|]. split; [cbn; lia|].
        apply run_of_attempts_cons. exact Hrun. }
    destruct (Hgen n 0%nat s [] eq_refl) as (r & s' & tr' & Hrun & Hlen & Hshape).
    exists r, s', tr'. auto.
Qed.

(** [Services_withRetry_attempts] with the defaults of the services. *)
Lemma Services_withRetry_attempts_witness :
  ∃ result s' attempts,
    Services.withRetry
      (observed (@always_rejects World unit (thrown fetch_failure))) 3 1000
      (idle_world, [])
    = (result, (s', attempts))
    ∧ (1 <= length attempts <= 3)%nat
    ∧ run_of_attempts attempts result.
Proof.
  apply (Services_withRetry_attempts
           (@always_rejects World unit (thrown fetch_failure)) 3 1000
           idle_world).
  lia.
Defined.

Lemma backoff_delays_cons (baseDelay : Q) (first count : nat) :
  backoff_delays baseDelay first (S count)
  = (baseDelay * 2 ^ Z.of_nat first)%Q
    :: backoff_delays baseDelay (S first) count.
Proof. reflexivity. Qed.

(** X3: between two invocations the [withRetry] of the entity services
    waits [baseDelay * 2^i] after the failure numbered [i], and it never
    waits after the last invocation: when the operation sets no timer of
    its own, the delays awaited are [baseDelay, 2 baseDelay, ...], one
    fewer than the invocations. *)
Theorem Services_withRetry_delays {T} (operation : Async World T)
    (maxRetries : nat) (baseDelay : Q) (w : World) :
  (∀ w, timers (snd (operation w)) = timers w) →
  (1 <= maxRetries)%nat →
  ∃ result w' attempts,
    Services.withRetry (observed operation) maxRetries baseDelay (w, [])
    = (result, (w', attempts))
    ∧ timers w'
      = (timers w ++ backoff_delays baseDelay 0 (length attempts - 1))%list.
Proof.
  intros Hquiet Hpos. destruct maxRetries as [|n]; [lia|].
  unfold Services.withRetry.
  assert (Hgen : ∀ remaining i w tr,
             (i + S remaining)%nat = S n →
             ∃ r w' tr',
               Services.withRetry_loop (observed operation) (S n) baseDelay
                 (S remaining) i (w, tr)
               = (r, (w', (tr ++ tr')%list))
               ∧ (1 <= length tr')%nat
               ∧ timers w'
                 = (timers w
                    ++ backoff_delays baseDelay i (length tr' - 1))%list).
  { induction remaining as [|remaining IH]; intros i w0 tr Hinv.
    all: rewrite Services_withRetry_loop_unfold.
    all: pose proof (Hquiet w0) as Hq.
    all: destruct (operation w0) as [[v|e] w1] eqn:Hop.
    all: rewrite (observed_step _ _ _ _ _ Hop).
    all: cbn [snd] in Hq.
    all: try (exists (Ok v), w1, [Ok v]; split; [reflexivity|];
              split; [cbn; lia|cbn; rewrite app_nil_r; exact Hq]).
    - replace (i =? _)%nat with true by (symmetry; apply Nat.eqb_eq; lia).
      exists (Throw e), w1, [Throw e]. split; [reflexivity|].
      split; [cbn; lia|cbn; rewrite app_nil_r; exact Hq].
    - replace (i =? _)%nat with false by (symmetry; apply Nat.eqb_neq; lia).
      cbn [setTimeout Runtime_observed fst snd].
      destruct (IH (S i) (setTimeout (baseDelay * 2 ^ Z.of_nat i) w1)
                  (tr ++ [Throw e])%list ltac:(lia))
        as (r & w' & tr' & -> & Hlen & Htimers).
      exists r, w', (Throw e :: tr'). rewrite <- app_assoc.
      split; [reflexivity|]. split; [cbn; lia|].
      rewrite Htimers. cbn [setTimeout World_Runtime timers set_timers length].
      rewrite Hq, <- app_assoc. cbn [app].
      destruct tr' as [|a tr']; [cbn in Hlen; lia|].
      cbn [length]. rewrite !Nat.sub_succ, !Nat.sub_0_r.
      rewrite backoff_delays_cons. reflexivity. }
  destruct (Hgen n 0%nat w [] eq_refl) as (r & w' & tr' & Hrun & _ & Htimers).
  exists r, w', tr'. auto.
Qed.

(** [Services_withRetry_delays] on an operation that always rejects:
    three invocations, two delays. *)
Lemma Services_withRetry_delays_witness :
  ∃ result w' attempts,
    Services.withRetry
      (observed (@always_rejects World unit (thrown fetch_failure))) 3 1000
      (idle_world, [])
    = (result, (w', attempts))
    ∧ timers w'
      = (timers idle_world
         ++ backoff_delays 1000 0 (length attempts - 1))%list.
Proof.
  apply (Services_withRetry_delays
           (@always_rejects World unit (thrown fetch_failure)) 3 1000
           idle_world).
  - intros w. reflexivity.
  - lia.
Defined.

(** X4: the backoff delay never exceeds [maxDelay], whatever
    [Math.random()] draws; and for a non-negative base delay and draw it
    does not decrease from one attempt to the next. *)
Theorem calculateBackoffDelay_capped {St} `{Runtime St} (s : St)
    (attempt : nat) (baseDelay maxDelay : Q) :
  (fst (Retry.calculateBackoffDelay attempt baseDelay maxDelay s)
   <= maxDelay)%Q
  ∧ ((0 <= baseDelay)%Q → (0 <= fst (Math_random s))%Q →
     (fst (Retry.calculateBackoffDelay attempt baseDelay maxDelay s)
      <= fst (Retry.calculateBackoffDelay (S attempt) baseDelay maxDelay s))%Q).
Proof.
  unfold Retry.calculateBackoffDelay.
  destruct (Math_random s) as [rnd s']. cbn [fst].
  split; [apply Q.le_min_r|].
  intros Hbase Hrnd. apply Q.min_le_compat_r.
  assert (Hpow : (2 ^ Z.of_nat (S attempt) == 2 ^ Z.of_nat attempt * 2)%Q).
  { rewrite Nat2Z.inj_succ. unfold Z.succ.
    rewrite Qpower_plus by discriminate. reflexivity. }
  rewrite Hpow.
  assert (Hp : (0 <= 2 ^ Z.of_nat attempt)%Q)
    by (apply Qpower_0_le; discriminate).
  assert (Hx : (0 <= baseDelay * 2 ^ Z.of_nat attempt)%Q)
    by (apply Qmult_le_0_compat; assumption).
  assert (Hj : (0 <= 0.5 + rnd)%Q) by lra.
  assert (Hxj : (0 <= baseDelay * 2 ^ Z.of_nat attempt * (0.5 + rnd))%Q)
    by (apply Qmult_le_0_compat; assumption).
  assert (Hdouble :
            (baseDelay * (2 ^ Z.of_nat attempt * 2) * (0.5 + rnd)
             == 2 * (baseDelay * 2 ^ Z.of_nat attempt * (0.5 + rnd)))%Q)
    by ring.
  rewrite Hdouble. lra.
Qed.

(** [calculateBackoffDelay_capped] at a draw of 0.9: 1400 ms for the first
    retry, 2800 ms for the second. *)
Lemma calculateBackoffDelay_capped_witness :
  (fst (Retry.calculateBackoffDelay 0 1000 10000 world_drawing_09)
   <= fst (Retry.calculateBackoffDelay 1 1000 10000 world_drawing_09))%Q.
Proof.
  apply (calculateBackoffDelay_capped world_drawing_09 0 1000 10000);
    discriminate.
Defined.

(** X5: [withAuthRetry] invokes an operation that fails with a network
    error at every invocation exactly 3 times, then raises the last
    error. *)
Theorem withAuthRetry_ceiling {St T} `{Runtime St} (operation : Async St T)
    (s : St) :
  (∀ s, ∃ e s', operation s = (Throw e, s') ∧ isNetworkError e = Ok true) →
  ∃ e s' attempts,
    Retry.withAuthRetry (observed operation) (s, [])
    = (Throw e, (s', attempts))
    ∧ length attempts = 3%nat ∧ last attempts = Some (Throw e).
Proof.
  intros Hfail. unfold Retry.withAuthRetry, Retry.createRetryWrapper.
  set (options :=
         {| Retry.maxRetries := Some 2%nat; Retry.baseDelay := Some 1000%Q;
            Retry.maxDelay := Some 3000%Q;
            Retry.shouldRetry := Some (fun error => isNetworkError error);
            Retry.onRetry := @None (JsError → nat → St → St) |}).
  destruct (withRetry_loop_exhausts operation options) with
    (remaining := 2%nat) (attempt := 0%nat) (s := s)
    (tr := @nil (JsResult T)) as (e & s' & tr' & Hrun & Hlen & Hlast).
  - intros s0. destruct (Hfail s0) as (e & s' & Hop & Hnet).
    unfold isNetworkError in Hnet.
    destruct (transformError e) as [se|] eqn:Hse; [|discriminate].
    exists e, s', se. repeat split; [exact Hop| |exact Hse].
    cbn. unfold isNetworkError. rewrite Hse. exact Hnet.
  - reflexivity.
  - exists e, s', tr'. split; [exact Hrun|]. auto.
Qed.

(** [withAuthRetry_ceiling] on an operation that always rejects with a
    fetch failure. *)
Lemma withAuthRetry_ceiling_witness :
  ∃ e s' attempts,
    Retry.withAuthRetry
      (observed (@always_rejects World unit (thrown fetch_failure)))
      (idle_world, [])
    = (Throw e, (s', attempts))
    ∧ length attempts = 3%nat ∧ last attempts = Some (Throw e).
Proof.
  apply (withAuthRetry_ceiling
           (@always_rejects World unit (thrown fetch_failure)) idle_world).
  intros s. exists (thrown fetch_failure), s. split; reflexivity.
Defined.

(** X6: [withDatabaseRetry] retries a failure that carries the code
    PGRST301, the code that the classifier turns into [PERMISSION_ERROR]:
    an operation that fails so at every invocation is invoked 4 times. *)
Theorem withDatabaseRetry_retries_PGRST301 {St T} `{Runtime St}
    (operation : Async St T) (s : St) :
  (∀ s, ∃ o s' se,
     operation s = (Throw (Raw o), s')
     ∧ code_is o "PGRST301" = true
     ∧ transformError (Raw o) = Ok se) →
  ∃ e s' attempts,
    Retry.withDatabaseRetry (observed operation) (s, [])
    = (Throw e, (s', attempts))
    ∧ length attempts = 4%nat ∧ last attempts = Some (Throw e).
Proof.
  intros Hfail. unfold Retry.withDatabaseRetry, Retry.createRetryWrapper.
  set (options :=
         {| Retry.maxRetries := Some 3%nat; Retry.baseDelay := Some 1000%Q;
            Retry.maxDelay := Some 5000%Q;
            Retry.shouldRetry := Some Retry.withDatabaseRetry_shouldRetry;
            Retry.onRetry := @None (JsError → nat → St → St) |}).
  destruct (withRetry_loop_exhausts operation options) with
    (remaining := 3%nat) (attempt := 0%nat) (s := s)
    (tr := @nil (JsResult T)) as (e & s' & tr' & Hrun & Hlen & Hlast).
  - intros s0. destruct (Hfail s0) as (o & s' & se & Hop & Hcode & Hse).
    exists (Raw o), s', se. repeat split; [exact Hop| |exact Hse].
    cbn. unfold Retry.withDatabaseRetry_shouldRetry, isNetworkError.
    rewrite Hse, Hcode. destruct (bool_decide _); reflexivity.
  - reflexivity.
  - exists e, s', tr'. split; [exact Hrun|]. auto.
Qed.

(** [withDatabaseRetry_retries_PGRST301] on an operation that always
    rejects with a permission failure, which the classifier calls
    [PERMISSION_ERROR]. *)
Lemma withDatabaseRetry_retries_PGRST301_witness :
  (∃ se, transformError (thrown permission_denied) = Ok se
         ∧ type se = PERMISSION_ERROR)
  ∧ ∃ e s' attempts,
      Retry.withDatabaseRetry
        (observed (@always_rejects World unit (thrown permission_denied)))
        (idle_world, [])
      = (Throw e, (s', attempts))
      ∧ length attempts = 4%nat ∧ last attempts = Some (Throw e).
Proof.
  split; [eexists; split; reflexivity|].
  apply (withDatabaseRetry_retries_PGRST301
           (@always_rejects World unit (thrown permission_denied)) idle_world).
  intros s. eexists _, s, _. repeat split; reflexivity.
Defined.

(** ** Error classifier: messages *)

Lemma or_else_nonempty (o : option string) (d : string) :
  d ≠ "" → or_else o d ≠ "".
Proof.
  intros Hd. unfold or_else. destruct o as [s|]; [|exact Hd].
  destruct (String.eqb s "") eqn:Hs; [exact Hd|].
  apply String.eqb_neq. exact Hs.
Qed.

(** X7: every classification of a thrown value other than a
    [SupabaseError] keeps the value as [originalError] and carries a
    message that is not empty, which is what [getErrorMessage] returns;
    for the kinds [NETWORK_ERROR] and [PERMISSION_ERROR] the message is the
    fixed one of [ERROR_MESSAGES], never the text of the failure. *)
Theorem transformError_message (o : ErrObj) (se : SupabaseError) :
  transformError (Raw o) = Ok se →
  originalError se = Some o
  ∧ message se ≠ ""
  ∧ getErrorMessage (Raw o) = Ok (message se)
  ∧ (type se = NETWORK_ERROR ∨ type se = PERMISSION_ERROR →
     message se = ERROR_MESSAGES (type se)).
Proof.
  intros Hse. unfold getErrorMessage. rewrite Hse.
  unfold transformError, transformAuthError, transformPostgrestError,
    TypeError_about_fetch in Hse.
  repeat (match type of Hse with
          | context [match e_message o with _ => _ end] =>
            destruct (e_message o) as [m|] eqn:Hm
          | context [if is_TypeError o then _ else _] =>
            destruct (is_TypeError o)
          | context [if ?c then _ else _] => destruct c
          end; cbn beta iota in Hse);
    try discriminate Hse; injection Hse as <-; cbn;
    (split; [reflexivity|]); (split; [|split; [reflexivity|]]);
    try discriminate; try (apply or_else_nonempty; discriminate);
    try (intros [Hty|Hty]; first [reflexivity|discriminate Hty]);
    (destruct (String.eqb m "") eqn:Hempty;
     [discriminate|apply String.eqb_neq; exact Hempty]).
Qed.

(** [transformError_message] on a fetch failure. *)
Lemma transformError_message_witness :
  getErrorMessage (thrown fetch_failure)
  = Ok "Network error. Please check your connection.".
Proof.
  destruct (transformError_message
              {| e_class := ErrorInstance; e_name := Some "PostgrestError";
                 __isAuthError := false; e_code := Some "";
                 e_message := Some "TypeError: Failed to fetch";
                 e_details := Some "" |}
              (new_SupabaseError (ERROR_MESSAGES NETWORK_ERROR) NETWORK_ERROR
                 {| e_class := ErrorInstance; e_name := Some "PostgrestError";
                    __isAuthError := false; e_code := Some "";
                    e_message := Some "TypeError: Failed to fetch";
                    e_details := Some "" |}) eq_refl)
    as (_ & _ & Hmsg & _).
  exact Hmsg.
Defined.

(** ** Masking of e-mail addresses *)





(** ** Entity services: what a call does to the remote store *)

(** The [withRetry] of the services with its defaults, unrolled. *)
Lemma withRetry_default_unroll {T} (operation : Async World T) (w : World) :
  Services.withRetry_default operation w =
  match operation w with
  | (Ok v, w1) => (Ok v, w1)
  | (Throw _, w1) =>
    match operation (setTimeout (1000 * 2 ^ Z.of_nat 0)%Q w1) with
    | (Ok v, w2) => (Ok v, w2)
    | (Throw _, w2) => operation (setTimeout (1000 * 2 ^ Z.of_nat 1)%Q w2)
    end
  end.
Proof.
  unfold Services.withRetry_default, Services.withRetry.
  rewrite Services_withRetry_loop_unfold.
  destruct (operation w) as [[v|e1] w1]; [reflexivity|].
  cbn [Nat.eqb Nat.sub]. rewrite Services_withRetry_loop_unfold.
  destruct (operation _) as [[v|e2] w2]; [reflexivity|].
  cbn [Nat.eqb Nat.sub]. rewrite Services_withRetry_loop_unfold.
  destruct (operation _) as [[v|e3] w3]; reflexivity.
Qed.

Lemma keeps_tables_query {A} (q : Backend → Response A * Backend) :
  (∀ b, tbl_transactions (snd (q b)) = tbl_transactions b
        ∧ tbl_spending_categories (snd (q b)) = tbl_spending_categories b
        ∧ tbl_financial_goals (snd (q b)) = tbl_financial_goals b) →
  keeps_tables (query q).
Proof.
  intros Hq w. unfold query, tables. specialize (Hq (supabase w)).
  destruct (q (supabase w)) as [r b]. cbn in *.
  destruct Hq as (-> & -> & ->). reflexivity.
Qed.

Lemma keeps_tables_send_read {A} (rows : Backend → list A) :
  keeps_tables (query (send (fun b => (Data (rows b), b)))).
Proof.
  apply keeps_tables_query. intros b. unfold send, next_fault.
  destruct (mjoin _); repeat split; reflexivity.
Qed.

Lemma keeps_tables_resolve {A} (a : A) : keeps_tables (resolve a).
Proof. intros w. reflexivity. Qed.

Lemma keeps_tables_reject {A} (e : JsError) : keeps_tables (@reject World A e).
Proof. intros w. reflexivity. Qed.

Lemma keeps_tables_await {A B} (m : Async World A) (k : A → Async World B) :
  keeps_tables m → (∀ a, keeps_tables (k a)) → keeps_tables (await m k).
Proof.
  intros Hm Hk w. unfold await. specialize (Hm w).
  destruct (m w) as [[a|e] w1]; cbn [snd] in *; [|exact Hm].
  rewrite (Hk a w1). exact Hm.
Qed.

Lemma keeps_tables_try_catch {A} (m : Async World A)
    (h : JsError → Async World A) :
  keeps_tables m → (∀ e, keeps_tables (h e)) → keeps_tables (try_catch m h).
Proof.
  intros Hm Hh w. unfold try_catch. specialize (Hm w).
  destruct (m w) as [[a|e] w1]; cbn [snd] in *; [exact Hm|].
  rewrite (Hh e w1). exact Hm.
Qed.

Lemma keeps_tables_handleError {A} resType error op uid resId :
  keeps_tables (@Services.handleError A resType error op uid resId).
Proof.
  apply keeps_tables_await; [|intros _; apply keeps_tables_reject].
  intros w. unfold logDatabaseError, logError.
  destruct (transformError error); reflexivity.
Qed.

Lemma keeps_tables_withRetry_loop {A} (operation : Async World A) maxRetries
    baseDelay remaining i :
  keeps_tables operation →
  keeps_tables
    (Services.withRetry_loop operation maxRetries baseDelay remaining i).
Proof.
  intros Hop. revert i. induction remaining as [|remaining IH]; intros i.
  - apply keeps_tables_reject.
  - cbn [Services.withRetry_loop]. apply keeps_tables_try_catch; [exact Hop|].
    intros error. destruct (i =? maxRetries - 1)%nat;
      [apply keeps_tables_reject|].
    apply keeps_tables_await; [intros w; reflexivity|]. intros _. apply IH.
Qed.

Lemma keeps_tables_list_service {A} (rows : Backend → list A) resType op uid :
  keeps_tables
    (try_catch (Services.withRetry_default (list_attempt rows))
       (fun error => Services.handleError resType error op uid None)).
Proof.
  apply keeps_tables_try_catch; [|intros e; apply keeps_tables_handleError].
  apply keeps_tables_withRetry_loop, keeps_tables_await;
    [apply keeps_tables_send_read|].
  intros [data|error]; [apply keeps_tables_resolve|apply keeps_tables_reject].
Qed.

Lemma keeps_localStorage_list_service {A} (rows : Backend → list A) resType op
    uid :
  keeps_localStorage
    (try_catch (Services.withRetry_default (list_attempt rows))
       (fun error => Services.handleError resType error op uid None)).
Proof.
  apply keeps_try_catch; [|intros e; apply keeps_handleError].
  apply keeps_withRetry_loop, keeps_await; [apply keeps_query|].
  intros [data|error]; [apply keeps_resolve|apply keeps_reject].
Qed.

(** X9: the list services only read: whatever the faults, [getGoals],
    [getCategories] and [getTransactions] leave the three tables and
    [localStorage] as they were. *)
Theorem list_services_read_only (userId : string) (limit offset : nat)
    (w : World) :
  (tables (snd (Services.getGoals userId w)) = tables w
   ∧ localStorage (snd (Services.getGoals userId w)) = localStorage w)
  ∧ (tables (snd (Services.getCategories userId w)) = tables w
     ∧ localStorage (snd (Services.getCategories userId w)) = localStorage w)
  ∧ (tables (snd (Services.getTransactions userId limit offset w)) = tables w
     ∧ localStorage (snd (Services.getTransactions userId limit offset w))
       = localStorage w).
Proof.
  split; [|split]; split.
  - apply (keeps_tables_list_service (goals_of userId)).
  - apply (keeps_localStorage_list_service (goals_of userId)).
  - apply (keeps_tables_list_service (categories_of userId)).
  - apply (keeps_localStorage_list_service (categories_of userId)).
  - apply (keeps_tables_list_service (transactions_page userId limit offset)).
  - apply (keeps_localStorage_list_service
             (transactions_page userId limit offset)).
Qed.

(** One attempt of a list service. *)
Lemma list_attempt_run {A} (rows : Backend → list A) (w : World) :
  list_attempt rows w
  = (match pending_fault w with
     | Some e => Throw (thrown e)
     | None => Ok (rows (after_request (supabase w)))
     end,
     set_supabase (after_request (supabase w)) w).
Proof.
  unfold list_attempt, await.
  destruct (pending_fault w) as [e|] eqn:Hq; step_query; reflexivity.
Qed.

Ltac list_service_resolved n :=
  cbn;
  match goal with
  | Hrows : ∀ b, _ (after_request b) = _ b |- _ => rewrite ?Hrows
  end;
  match goal with
  | Hf : faults _ = _ |- _ => rewrite ?Hf
  end;
  split; [reflexivity|]; split; [reflexivity|]; exists n; cbn;
  rewrite ?app_nil_r, <- ?app_assoc;
  split; [lia|]; split; [lia|]; split; reflexivity.

Lemma list_service_run {A} (rows : Backend → list A)
    (Hrows : ∀ b, rows (after_request b) = rows b) resType op uid (w : World) :
  list_service_outcome resType op uid rows w
    (try_catch (Services.withRetry_default (list_attempt rows))
       (fun error => Services.handleError resType error op (Some uid) None) w).
Proof.
  unfold try_catch. rewrite withRetry_default_unroll.
  rewrite !list_attempt_run. unfold pending_fault.
  cbn [supabase set_supabase setTimeout World_Runtime set_timers faults
       after_request set_faults count_request requests timers console].
  destruct (faults (supabase w)) as [|f1 fs1] eqn:Hf.
  { list_service_resolved 1%nat. }
  destruct f1 as [e1|]; cbn [head tail mjoin option_join]; [|list_service_resolved 1%nat].
  destruct fs1 as [|f2 fs2]; [list_service_resolved 2%nat|].
  destruct f2 as [e2|]; cbn [head tail mjoin option_join]; [|list_service_resolved 2%nat].
  destruct fs2 as [|f3 fs3]; [list_service_resolved 3%nat|].
  destruct f3 as [e3|]; cbn [head tail mjoin option_join]; [|list_service_resolved 3%nat].
  unfold Services.handleError, await. rewrite logDatabaseError_thrown.
  cbn. rewrite ?Hf. exists e3. cbn. rewrite <- ?app_assoc.
  split; [reflexivity|]. split; [reflexivity|]. split; [reflexivity|].
  split; [lia|]. split; reflexivity.
Qed.


(** ** Ordering and paging of the rows selected *)

Lemma sort_insert_Permutation {A} (cmp : A → A → Z) (x : A) (l : list A) :
  sort_insert cmp x l ≡ₚ x :: l.
Proof.
  induction l as [|y l IH]; cbn [sort_insert]; [reflexivity|].
  destruct (cmp y x <=? 0)%Z; [|reflexivity].
  rewrite IH. apply Permutation_swap.
Qed.

Lemma sort_array_Permutation {A} (cmp : A → A → Z) (l : list A) :
  sort_array cmp l ≡ₚ l.
Proof.
  unfold sort_array. rewrite <- (rev_involutive l) at 2.
  generalize (rev l) as r. intros r. rewrite <- Permutation_rev.
  induction r as [|x r IH]; cbn [foldr]; [reflexivity|].
  rewrite sort_insert_Permutation, IH. reflexivity.
Qed.

Section SortedByKey.
Context {A : Type} (cmp : A → A → Z) (key : A → Z).
Hypothesis cmp_key : ∀ a b, (cmp a b <= 0)%Z ↔ (key a <= key b)%Z.

Lemma sort_insert_sorted (x : A) (l : list A) :
  StronglySorted (fun a b => (key a <= key b)%Z) l →
  StronglySorted (fun a b => (key a <= key b)%Z) (sort_insert cmp x l).
Proof.
  induction 1 as [|y l Hsorted IH Hall]; cbn [sort_insert].
  { repeat constructor. }
  destruct (cmp y x <=? 0)%Z eqn:Hc.
  - apply Z.leb_le, cmp_key in Hc. constructor; [exact IH|].
    rewrite sort_insert_Permutation. constructor; assumption.
  - apply Z.leb_gt in Hc.
    assert (Hxy : (key x <= key y)%Z).
    { destruct (Z.le_gt_cases (key y) (key x)) as [Hle|Hlt]; [|lia].
      apply cmp_key in Hle. lia. }
    constructor; [constructor; assumption|].
    constructor; [exact Hxy|].
    eapply Forall_impl; [exact Hall|]. cbn. intros z Hz. lia.
Qed.

Lemma sort_array_sorted (l : list A) :
  StronglySorted (fun a b => (key a <= key b)%Z) (sort_array cmp l).
Proof.
  unfold sort_array. induction (rev l) as [|x r IH]; cbn [foldr].
  - constructor.
  - apply sort_insert_sorted, IH.
Qed.

End SortedByKey.

Lemma StronglySorted_weaken {A} (R R' : A → A → Prop) (l : list A) :
  (∀ a b, R a b → R' a b) → StronglySorted R l → StronglySorted R' l.
Proof.
  intros Himp. induction 1 as [|x l Hs IH Hall]; constructor; [exact IH|].
  eapply Forall_impl; [exact Hall|]. exact (Himp x).
Qed.

Lemma range_page {A} (offset limit : nat) (l : list A) :
  range (Z.of_nat offset) (Z.of_nat offset + Z.of_nat limit - 1) l
  = take limit (drop offset l).
Proof.
  unfold range. rewrite Nat2Z.id. f_equal. lia.
Qed.

Lemma StronglySorted_strict {A} (key : A → Z) (l : list A) :
  StronglySorted (fun a b => (key b <= key a)%Z) l →
  NoDup (map key l) →
  StronglySorted (fun a b => (key b < key a)%Z) l.
Proof.
  induction 1 as [|x l Hs IH Hall]; intros Hnodup; [constructor|].
  cbn [map] in Hnodup. apply NoDup_cons in Hnodup as [Hx Hnodup].
  constructor; [exact (IH Hnodup)|].
  apply Forall_forall. intros y Hy.
  rewrite Forall_forall in Hall. specialize (Hall y Hy).
  assert (Hne : key y ≠ key x).
  { intros Heq. apply Hx. rewrite <- Heq.
    apply list_elem_of_fmap. exists y. auto. }
  lia.
Qed.

(** X11: [getTransactions] asks for the positions [offset] to
    [offset + limit - 1] of the transactions of the user, newest first.
    When no two of them were created at the same instant (the only key
    of the order), and for pages of a positive size, the page read at
    offset 0 and the page read at the offset where it ended are adjacent
    slices of that list: no row is skipped, none repeated, as long as the
    table does not change in between. *)
Theorem getTransactions_pages (userId : string) (n m : nat) (w w1 w2 : World)
    (page1 page2 : list Transaction) :
  (0 < n)%nat → (0 < m)%nat →
  NoDup (map tx_created_at (transactions_of userId (supabase w))) →
  Services.getTransactions userId n 0 w = (Ok page1, w1) →
  Services.getTransactions userId m n w1 = (Ok page2, w2) →
  ∃ all,
    all ≡ₚ transactions_of userId (supabase w)
    ∧ newest_first all
    ∧ page1 = take n all
    ∧ page2 = take m (drop n all)
    ∧ (page1 ++ page2)%list = take (n + m) all.
Proof.
  intros _ _ Hdistinct H1 H2.
  pose proof (list_service_run (transactions_page userId n 0)
                ltac:(reflexivity) "transaction" "get transactions" userId w)
    as Hout1.
  pose proof (keeps_tables_list_service (transactions_page userId n 0)
                "transaction" "get transactions" (Some userId) w) as Hkeep.
  pose proof (list_service_run (transactions_page userId m n)
                ltac:(reflexivity) "transaction" "get transactions" userId w1)
    as Hout2.
  change (try_catch _ _ w) with (Services.getTransactions userId n 0 w)
    in Hout1, Hkeep.
  change (try_catch _ _ w1) with (Services.getTransactions userId m n w1)
    in Hout2.
  rewrite H1 in Hout1, Hkeep. rewrite H2 in Hout2.
  cbn [list_service_outcome snd] in Hout1, Hout2, Hkeep.
  destruct Hout1 as (-> & _). destruct Hout2 as (-> & _).
  injection Hkeep as Htx _ _.
  set (all := sort_array (fun x y => (tx_created_at y - tx_created_at x)%Z)
                (transactions_of userId (supabase w))).
  assert (Hperm : all ≡ₚ transactions_of userId (supabase w))
    by apply sort_array_Permutation.
  exists all. split; [exact Hperm|].
  split.
  { apply (StronglySorted_strict tx_created_at).
    - eapply StronglySorted_weaken;
        [|apply (sort_array_sorted _ (fun t => (- tx_created_at t)%Z))].
      + cbn. intros a b Hab. lia.
      + intros a b. lia.
    - rewrite Hperm. exact Hdistinct. }
  unfold transactions_page. rewrite !range_page, Htx, drop_0.
  fold (transactions_of userId (supabase w)). fold all.
  split; [reflexivity|]. split; [reflexivity|].
  apply take_take_drop.
Qed.

(** [getTransactions_pages] on a user with two transactions, read one per
    page. *)
Lemma getTransactions_pages_witness :
  ∃ all,
    all ≡ₚ transactions_of "user-1" (supabase two_transactions_world)
    ∧ newest_first all
    ∧ [coffee] = take 1 all
    ∧ [lunch] = take 1 (drop 1 all)
    ∧ ([coffee] ++ [lunch])%list = take (1 + 1) all.
Proof.
  refine (getTransactions_pages "user-1" 1 1 two_transactions_world
            (snd (Services.getTransactions "user-1" 1 0
                    two_transactions_world))
            (snd (Services.getTransactions "user-1" 1 1
                    (snd (Services.getTransactions "user-1" 1 0
                            two_transactions_world))))
            [coffee] [lunch] _ _ _ _ _).
  - lia.
  - lia.
  - vm_compute. repeat constructor; set_solver.
  - vm_compute. reflexivity.
  - vm_compute. reflexivity.
Defined.

(** ** Updates of goals and categories *)

Lemma or_zero_eq (x : Q) : or_zero x == x.
Proof.
  unfold or_zero. destruct (Qeq_bool x 0) eqn:Hz; [|reflexivity].
  apply Qeq_bool_eq in Hz. symmetry. exact Hz.
Qed.

Lemma patch_goal_id id updates now (g : FinancialGoal) :
  goal_id (patch_goal id updates now g) = goal_id g.
Proof. unfold patch_goal. destruct (id_eqb _ _); reflexivity. Qed.

Lemma filter_patch_goal id updates now (l : list FinancialGoal) :
  filter (fun g => goal_id g = id) (map (patch_goal id updates now) l)
  = map (patch_goal id updates now) (filter (fun g => goal_id g = id) l).
Proof.
  induction l as [|g l IH]; [reflexivity|].
  cbn [map]. rewrite !filter_cons, patch_goal_id.
  destruct (decide (goal_id g = id)); cbn [map]; rewrite IH; reflexivity.
Qed.

Lemma patch_goal_other id updates now (g : FinancialGoal) :
  goal_id g ≠ id → patch_goal id updates now g = g.
Proof.
  intros Hne. unfold patch_goal, id_eqb.
  destruct (String.eqb_spec (goal_id g) id); [contradiction|reflexivity].
Qed.

Lemma patch_category_other id updates now (c : SpendingCategory) :
  cat_id c ≠ id → patch_category id updates now c = c.
Proof.
  intros Hne. unfold patch_category, id_eqb.
  destruct (String.eqb_spec (cat_id c) id); [contradiction|reflexivity].
Qed.

Lemma map_patch_goal_missing id updates now (l : list FinancialGoal) :
  filter (fun g => goal_id g = id) l = [] →
  map (patch_goal id updates now) l = l.
Proof.
  induction l as [|g l IH]; [reflexivity|].
  rewrite filter_cons. destruct (decide (goal_id g = id)); [discriminate|].
  intros Hl. cbn [map]. rewrite patch_goal_other, IH; auto.
Qed.

Lemma map_patch_category_missing id updates now (l : list SpendingCategory) :
  filter (fun c => cat_id c = id) l = [] →
  map (patch_category id updates now) l = l.
Proof.
  induction l as [|c l IH]; [reflexivity|].
  rewrite filter_cons. destruct (decide (cat_id c = id)); [discriminate|].
  intros Hl. cbn [map]. rewrite patch_category_other, IH; auto.
Qed.

Lemma filter_none {A} (P : A → Prop) `{∀ x, Decision (P x)} (l : list A) :
  (∀ x, x ∈ l → ¬ P x) → filter P l = [].
Proof.
  induction l as [|x l IH]; [reflexivity|]. intros Hall.
  rewrite filter_cons. destruct (decide (P x)) as [HP|_].
  - exfalso. apply (Hall x); [left|exact HP].
  - apply IH. intros y Hy. apply Hall. right. exact Hy.
Qed.

Lemma set_financial_goals_same (b : Backend) :
  set_financial_goals (tbl_financial_goals b) b = b.
Proof. destruct b. reflexivity. Qed.

Lemma set_spending_categories_same (b : Backend) :
  set_spending_categories (tbl_spending_categories b) b = b.
Proof. destruct b. reflexivity. Qed.

(** A call whose every attempt is one request that fails gives up. *)
Lemma withRetry_default_gives_up {A} (operation : Async World A)
    (P : Backend → Prop) resType op uid resId (w : World) :
  (∀ b, P b → P (after_request b)) →
  (∀ w, P (supabase w) →
        operation w
        = (Throw (thrown (missing_row_error 0 w)),
           set_supabase (after_request (supabase w)) w)) →
  P (supabase w) →
  gave_up op w
    (try_catch (Services.withRetry_default operation)
       (fun error => Services.handleError resType error op uid resId) w).
Proof.
  intros HP Hop Hw. unfold try_catch. rewrite withRetry_default_unroll.
  rewrite (Hop w Hw).
  rewrite Hop by (apply HP; exact Hw).
  rewrite Hop by (do 2 apply HP; exact Hw).
  unfold Services.handleError, await. rewrite logDatabaseError_thrown.
  unfold gave_up, missing_row_error.
  cbn [fst snd reject supabase set_supabase setTimeout World_Runtime
       set_timers faults after_request set_faults count_request requests
       timers console console_error set_console tables tbl_transactions
       tbl_spending_categories tbl_financial_goals].
  repeat split.
  - destruct (faults (supabase w)) as [|f1 [|f2 [|f3 fs]]]; reflexivity.
  - lia.
  - rewrite <- app_assoc. reflexivity.
  - rewrite length_app. cbn. lia.
Qed.

Lemma updateGoal_attempt_missing id updates (w : World) :
  filter (fun g => goal_id g = id) (tbl_financial_goals (supabase w)) = [] →
  (now <- new_Date ;;
   r <- query (update_goal_returning id updates now) ;;
   match r with
   | Error error => reject (thrown error)
   | Data data => resolve data
   end) w
  = (Throw (thrown (missing_row_error 0 w)),
     set_supabase (after_request (supabase w)) w).
Proof.
  intros Hmiss. unfold await at 1, new_Date, update_goal_returning, await.
  unfold missing_row_error. rewrite <- head_lookup.
  destruct (pending_fault w) as [e|] eqn:Hq; step_query;
    unfold pending_fault in Hq; rewrite Hq; [reflexivity|].
  cbn [fst snd].
  change (tbl_financial_goals (after_request (supabase w)))
    with (tbl_financial_goals (supabase w)).
  rewrite map_patch_goal_missing by exact Hmiss.
  rewrite Hmiss. cbn [single default from_option].
  change (tbl_financial_goals (supabase w))
    with (tbl_financial_goals (after_request (supabase w))).
  rewrite set_financial_goals_same. reflexivity.
Qed.

Lemma updateCategory_attempt_missing id updates (w : World) :
  filter (fun c => cat_id c = id) (tbl_spending_categories (supabase w)) = [] →
  (now <- new_Date ;;
   r <- query (update_category_returning id updates now) ;;
   match r with
   | Error error => reject (thrown error)
   | Data data => resolve data
   end) w
  = (Throw (thrown (missing_row_error 0 w)),
     set_supabase (after_request (supabase w)) w).
Proof.
  intros Hmiss. unfold await at 1, new_Date, update_category_returning, await.
  unfold missing_row_error. rewrite <- head_lookup.
  destruct (pending_fault w) as [e|] eqn:Hq; step_query;
    unfold pending_fault in Hq; rewrite Hq; [reflexivity|].
  cbn [fst snd].
  change (tbl_spending_categories (after_request (supabase w)))
    with (tbl_spending_categories (supabase w)).
  rewrite map_patch_category_missing by exact Hmiss.
  rewrite Hmiss. cbn [single default from_option].
  change (tbl_spending_categories (supabase w))
    with (tbl_spending_categories (after_request (supabase w))).
  rewrite set_spending_categories_same. reflexivity.
Qed.

Lemma addContribution_attempt_missing goalId amount (w : World) :
  filter (fun g => goal_id g = goalId) (tbl_financial_goals (supabase w)) = [] →
  (r <- query (select_goal goalId) ;;
   match r with
   | Error fetchError => reject (thrown fetchError)
   | Data goal =>
     let newAmount := (or_zero (goal_current_amount goal) + amount)%Q in
     now <- new_Date ;;
     r' <- query (update_goal_returning goalId
                    (only_current_amount newAmount) now) ;;
     match r' with
     | Error error => reject (thrown error)
     | Data data => resolve data
     end
   end) w
  = (Throw (thrown (missing_row_error 0 w)),
     set_supabase (after_request (supabase w)) w).
Proof.
  intros Hmiss. unfold await at 1, select_goal.
  unfold missing_row_error. rewrite <- head_lookup.
  destruct (pending_fault w) as [e|] eqn:Hq; step_query;
    unfold pending_fault in Hq; rewrite Hq; [reflexivity|].
  cbn [fst snd].
  change (tbl_financial_goals (after_request (supabase w)))
    with (tbl_financial_goals (supabase w)).
  rewrite Hmiss. reflexivity.
Qed.

(** X12: an update of a row that is not there is never reported as done,
    and is retried like a transient failure: whatever the faults,
    [updateGoal], [addContribution] and [updateCategory] on an identifier
    that no row has send three requests, wait twice, log once and reject
    with the message of the last error, the tables left as they
    were. *)
Theorem update_of_missing_row_gives_up (id : string) (goalUpdates : GoalUpdates)
    (amount : Q) (categoryUpdates : CategoryUpdates) (w : World) :
  (∀ g, g ∈ tbl_financial_goals (supabase w) → goal_id g ≠ id) →
  (∀ c, c ∈ tbl_spending_categories (supabase w) → cat_id c ≠ id) →
  gave_up "update goal" w (Services.updateGoal id goalUpdates w)
  ∧ gave_up "add contribution to goal" w (Services.addContribution id amount w)
  ∧ gave_up "update category" w (Services.updateCategory id categoryUpdates w).
Proof.
  intros Hgoals Hcats.
  assert (Hg : filter (fun g => goal_id g = id)
                 (tbl_financial_goals (supabase w)) = []).
  { apply filter_none. exact Hgoals. }
  assert (Hc : filter (fun c => cat_id c = id)
                 (tbl_spending_categories (supabase w)) = []).
  { apply filter_none. exact Hcats. }
  split; [|split].
  - apply (withRetry_default_gives_up _
             (fun b => filter (fun g => goal_id g = id)
                         (tbl_financial_goals b) = []));
      [auto|intros w0; apply updateGoal_attempt_missing|exact Hg].
  - apply (withRetry_default_gives_up _
             (fun b => filter (fun g => goal_id g = id)
                         (tbl_financial_goals b) = []));
      [auto|intros w0; apply addContribution_attempt_missing|exact Hg].
  - apply (withRetry_default_gives_up _
             (fun b => filter (fun c => cat_id c = id)
                         (tbl_spending_categories b) = []));
      [auto|intros w0; apply updateCategory_attempt_missing|exact Hc].
Qed.

(** [update_of_missing_row_gives_up] on the ledger, which has no row
    named [missing]. *)
Lemma update_of_missing_row_gives_up_witness :
  gave_up "update goal" ledger_world
    (Services.updateGoal "missing" rename ledger_world)
  ∧ gave_up "add contribution to goal" ledger_world
      (Services.addContribution "missing" 30 ledger_world)
  ∧ gave_up "update category" ledger_world
      (Services.updateCategory "missing" raise_budget ledger_world).
Proof.
  apply (update_of_missing_row_gives_up "missing" rename 30 raise_budget
           ledger_world).
  - intros g Hin. vm_compute in Hin. inversion Hin.
  - intros c Hin. vm_compute in Hin.
    apply list_elem_of_singleton in Hin. rewrite Hin. vm_compute.
    discriminate.
Defined.

Lemma elem_of_map_patch_goal_other id updates now (l : list FinancialGoal)
    (h : FinancialGoal) :
  goal_id h ≠ id → h ∈ map (patch_goal id updates now) l ↔ h ∈ l.
Proof.
  intros Hne. rewrite list_elem_of_fmap. split.
  - intros (g & -> & Hin).
    rewrite patch_goal_id in Hne. rewrite patch_goal_other; assumption.
  - intros Hin. exists h. split; [|exact Hin].
    symmetry. apply patch_goal_other. exact Hne.
Qed.

Lemma filter_singleton_id {A} (P : A → Prop) `{∀ x, Decision (P x)}
    (l : list A) (x : A) :
  filter P l = [x] → P x.
Proof.
  intros Hrow. assert (Hin : x ∈ filter P l).
  { rewrite Hrow. apply list_elem_of_singleton. reflexivity. }
  apply list_elem_of_filter in Hin as [HP _]. exact HP.
Qed.

(** X13: [addContribution] reads the goal and writes back its amount plus
    the contribution: when its two requests are answered and one goal has
    the identifier, it resolves with that goal, its amount raised by
    [amount] and its modification time set by the store (the trigger
    of the table writes its own clock over the instant the client sends);
    the title, the target and the owner are kept and no other goal is
    changed. *)
Theorem addContribution_adds (goalId : string) (amount : Q)
    (g : FinancialGoal) (w : World) :
  answered 2 w →
  filter (fun g => goal_id g = goalId) (tbl_financial_goals (supabase w))
  = [g] →
  ∃ g' w',
    Services.addContribution goalId amount w = (Ok g', w')
    ∧ goal_current_amount g' == goal_current_amount g + amount
    ∧ goal_updated_at g' = server_now (supabase w)
    ∧ (goal_id g' = goalId ∧ goal_user_id g' = goal_user_id g
       ∧ goal_title g' = goal_title g
       ∧ goal_target_amount g' = goal_target_amount g
       ∧ goal_months_remaining g' = goal_months_remaining g
       ∧ goal_created_at g' = goal_created_at g)
    ∧ filter (fun g => goal_id g = goalId) (tbl_financial_goals (supabase w'))
      = [g']
    ∧ (∀ h, goal_id h ≠ goalId →
            h ∈ tbl_financial_goals (supabase w')
            ↔ h ∈ tbl_financial_goals (supabase w))
    ∧ requests (supabase w') = (requests (supabase w) + 2)%nat
    ∧ console w' = console w.
Proof.
  intros Hans Hrow. apply answered_next in Hans as [Hq Hans].
  pose proof (filter_singleton_id _ _ _ Hrow) as Hid. cbn beta in Hid.
  unfold Services.addContribution, try_catch.
  rewrite withRetry_default_unroll.
  unfold await at 1, select_goal. step_query. cbn [fst snd].
  change (tbl_financial_goals (after_request (supabase w)))
    with (tbl_financial_goals (supabase w)).
  rewrite Hrow. cbn [single]. cbv zeta.
  unfold await at 1, new_Date, update_goal_returning, await.
  match goal with
  | |- context [query (send ?run) ?w1] =>
    assert (Hq1 : pending_fault w1 = None)
      by (apply (answered_next 0); apply answered_set_supabase; exact Hans)
  end.
  step_query. cbn [fst snd].
  cbn [supabase set_supabase tbl_financial_goals set_financial_goals
       after_request set_faults count_request].
  rewrite filter_patch_goal, Hrow. cbn [map single resolve].
  match goal with
  | |- context [Ok (patch_goal ?i ?u ?n g)] =>
    remember (patch_goal i u n g) as g' eqn:Hg'
  end.
  eexists g', _. split; [reflexivity|].
  cbn [supabase set_supabase tbl_financial_goals set_financial_goals
       after_request set_faults count_request requests console].
  rewrite filter_patch_goal, Hrow. cbn [map]. rewrite <- Hg'.
  unfold patch_goal in Hg'. rewrite Hid, id_eqb_refl in Hg'.
  split; [rewrite Hg'; cbn -[Qeq Qplus or_zero]; rewrite or_zero_eq;
          reflexivity|].
  split; [rewrite Hg'; reflexivity|].
  split; [rewrite Hg'; cbn; auto 10|].
  split; [reflexivity|].
  split; [|split; [lia|reflexivity]].
  intros h Hne. apply elem_of_map_patch_goal_other. exact Hne.
Qed.

(** [addContribution_adds] on a contribution of 30 to a goal holding
    100. *)
Lemma addContribution_adds_witness :
  ∃ g' w',
    Services.addContribution "goal-1" 30
      (set_supabase (set_financial_goals [vacation] ledger_backend)
         idle_world)
    = (Ok g', w')
    ∧ goal_current_amount g' == goal_current_amount vacation + 30.
Proof.
  destruct (addContribution_adds "goal-1" 30 vacation
              (set_supabase (set_financial_goals [vacation] ledger_backend)
                 idle_world))
    as (g' & w' & Hrun & Hamount & _).
  - vm_compute. constructor.
  - vm_compute. reflexivity.
  - exists g', w'. split; assumption.
Defined.

(** ** Transactions and the running total, both ways *)

Lemma adjust_category_after_create_applied cid uid amount (w : World) c :
  answered 2 w →
  filter (fun c => cat_id c = cid) (tbl_spending_categories (supabase w)) = [c] →
  ∃ w' c',
    Services.adjust_category_after_create cid uid amount w = (Ok tt, w')
    ∧ console w' = console w
    ∧ filter (fun c => cat_id c = cid) (tbl_spending_categories (supabase w'))
      = [c']
    ∧ cat_value c' = (or_zero (cat_value c) + amount)%Q
    ∧ tbl_transactions (supabase w') = tbl_transactions (supabase w)
    ∧ faults (supabase w') = drop 2 (faults (supabase w))
    ∧ next_id (supabase w') = next_id (supabase w).
Proof.
  intros Hans Hrow. apply answered_next in Hans as [Hq Hans].
  unfold Services.adjust_category_after_create, select_category, await.
  step_query. cbn [fst snd].
  change (tbl_spending_categories (after_request (supabase w)))
    with (tbl_spending_categories (supabase w)).
  rewrite Hrow. cbn [single]. unfold new_Date, update_category.
  match goal with
  | |- context [query (send ?run) ?w1] =>
    assert (Hq1 : pending_fault w1 = None)
      by (apply (answered_next 0); apply answered_set_supabase; exact Hans)
  end.
  step_query. cbn [fst snd]. unfold resolve.
  eexists _, _. split; [reflexivity|]. split; [reflexivity|].
  cbn [supabase set_supabase tbl_spending_categories set_spending_categories
       after_request set_faults count_request tbl_transactions faults
       next_id].
  rewrite filter_patch_category, Hrow. cbn [map].
  split; [reflexivity|].
  pose proof (filter_singleton_id _ _ _ Hrow) as Hid. cbn beta in Hid.
  unfold patch_category. rewrite Hid, id_eqb_refl.
  split; [reflexivity|]. split; [reflexivity|]. split; [|reflexivity].
  destruct (faults (supabase w)) as [|f1 [|f2 fs]]; reflexivity.
Qed.

Lemma answered_le (n m : nat) (w : World) :
  answered n w → (m <= n)%nat → answered m w.
Proof.
  unfold answered. intros Hans Hle.
  replace m with (min m n) by lia. rewrite <- take_take.
  apply Forall_take. exact Hans.
Qed.

Lemma answered_after (n m : nat) (w w' : World) :
  answered (n + m) w →
  faults (supabase w') = drop n (faults (supabase w)) →
  answered m w'.
Proof.
  unfold answered. intros Hans ->.
  rewrite <- (take_drop n (faults (supabase w))) in Hans at 1.
  destruct (decide (n <= length (faults (supabase w)))%nat) as [Hle|Hgt].
  - rewrite take_app_add' in Hans by (rewrite length_take; lia).
    apply Forall_app in Hans as [_ Hans]. exact Hans.
  - rewrite drop_ge by lia. rewrite take_nil. constructor.
Qed.

(** [createTransaction] on a transaction linked to a category, its three
    requests answered. *)
Lemma createTransaction_applied (transaction : TransactionInsert) cid c
    (w : World) :
  answered 3 w →
  truthy_id (ti_category_id transaction) = Some cid →
  filter (fun c => cat_id c = cid) (tbl_spending_categories (supabase w)) = [c] →
  ∃ t c' w',
    Services.createTransaction transaction w = (Ok t, w')
    ∧ t = {| tx_id := "row-" +:+ pretty (next_id (supabase w));
             tx_user_id := ti_user_id transaction;
             tx_category_id := ti_category_id transaction;
             tx_description := ti_description transaction;
             tx_amount := ti_amount transaction;
             tx_category_name := ti_category_name transaction;
             tx_created_at := server_now (supabase w) |}
    ∧ tbl_transactions (supabase w')
      = (tbl_transactions (supabase w) ++ [t])%list
    ∧ filter (fun c => cat_id c = cid) (tbl_spending_categories (supabase w'))
      = [c']
    ∧ cat_value c' = (or_zero (cat_value c) + ti_amount transaction)%Q
    ∧ faults (supabase w') = drop 3 (faults (supabase w))
    ∧ console w' = console w.
Proof.
  intros Hans Hcat Hrow.
  pose proof Hans as Hans3. apply answered_next in Hans as [Hq Hans].
  unfold Services.createTransaction, try_catch.
  rewrite withRetry_default_unroll.
  unfold insert_transaction, await at 1. step_query.
  cbn [fst snd take_id]. rewrite Hcat. unfold await.
  match goal with
  | |- context [Services.adjust_category_after_create ?c0 ?u ?a ?w1] =>
    destruct (adjust_category_after_create_applied c0 u a w1 c)
      as (w2 & c' & Hsec & Hconsole & Hrow' & Hvalue & Htx & Hfaults & _)
  end.
  { apply answered_set_supabase. exact Hans. }
  { exact Hrow. }
  rewrite Hsec. unfold resolve.
  eexists _, c', w2. split; [reflexivity|]. split; [reflexivity|].
  split; [rewrite Htx; reflexivity|]. split; [exact Hrow'|].
  split; [exact Hvalue|]. split; [|rewrite Hconsole; reflexivity].
  rewrite Hfaults. cbn.
  destruct (faults (supabase w)) as [|f1 [|f2 [|f3 fs]]]; reflexivity.
Qed.

(** X14: [createTransaction] on a transaction linked to a category, its
    three requests answered: the stored transaction is appended to the
    table and returned, and the running total of the category is raised
    by the amount. *)
Theorem createTransaction_category_total (transaction : TransactionInsert)
    (cid : string) (c : SpendingCategory) (w : World) :
  answered 3 w →
  truthy_id (ti_category_id transaction) = Some cid →
  filter (fun c => cat_id c = cid) (tbl_spending_categories (supabase w)) = [c] →
  ∃ t c' w',
    Services.createTransaction transaction w = (Ok t, w')
    ∧ tbl_transactions (supabase w')
      = (tbl_transactions (supabase w) ++ [t])%list
    ∧ tx_amount t = ti_amount transaction
    ∧ filter (fun c => cat_id c = cid) (tbl_spending_categories (supabase w'))
      = [c']
    ∧ cat_value c' == cat_value c + ti_amount transaction.
Proof.
  intros Hans Hcat Hrow.
  destruct (createTransaction_applied transaction cid c w Hans Hcat Hrow)
    as (t & c' & w' & Hrun & Ht & Htx & Hrow' & Hvalue & _).
  exists t, c', w'. split; [exact Hrun|]. split; [exact Htx|].
  split; [rewrite Ht; reflexivity|]. split; [exact Hrow'|].
  rewrite Hvalue, or_zero_eq. reflexivity.
Qed.

(** [createTransaction_category_total] on a second lunch of 45.25 in a
    category holding 200. *)
Lemma createTransaction_category_total_witness :
  ∃ t c' w',
    Services.createTransaction second_lunch ledger_world = (Ok t, w')
    ∧ tbl_transactions (supabase w')
      = (tbl_transactions (supabase ledger_world) ++ [t])%list
    ∧ tx_amount t = ti_amount second_lunch
    ∧ filter (fun c => cat_id c = "cat-1")
        (tbl_spending_categories (supabase w'))
      = [c']
    ∧ cat_value c' == cat_value groceries + ti_amount second_lunch.
Proof.
  apply (createTransaction_category_total second_lunch "cat-1" groceries
           ledger_world).
  - vm_compute. constructor.
  - reflexivity.
  - vm_compute. reflexivity.
Defined.

Lemma after_primary_delete_transactions (id : string) (w : World) :
  answered 2 w →
  tbl_transactions (supabase (after_primary_delete id w))
  = filter (fun t => tx_id t ≠ id) (tbl_transactions (supabase w)).
Proof.
  intros Hans. apply answered_next in Hans as [Hq Hans].
  unfold after_primary_delete, select_transaction. step_query. cbn [snd].
  unfold delete_transaction.
  match goal with
  | |- context [query (send ?run) ?w1] =>
    assert (Hq1 : pending_fault w1 = None)
      by (apply (answered_next 0); apply answered_set_supabase; exact Hans)
  end.
  step_query. reflexivity.
Qed.

Lemma filter_all {A} (P : A → Prop) `{∀ x, Decision (P x)} (l : list A) :
  (∀ x, x ∈ l → P x) → filter P l = l.
Proof.
  induction l as [|x l IH]; [reflexivity|]. intros Hall.
  rewrite filter_cons. destruct (decide (P x)) as [_|HP].
  - f_equal. apply IH. intros y Hy. apply Hall. right. exact Hy.
  - exfalso. apply HP, Hall. left.
Qed.

(** X15: deleting a transaction that was just created undoes the
    creation.  When the seven requests of the two calls are answered and
    the store gave the new row an identifier that no other transaction
    has, [deleteTransaction] on the row that [createTransaction] returned
    leaves the table of transactions as it was before the creation, and
    the running total of the category at its previous value, a negative
    previous value becoming zero. *)
Theorem create_then_delete_round_trip (transaction : TransactionInsert)
    (cid : string) (c : SpendingCategory) (t : Transaction) (w w1 : World) :
  answered 7 w →
  truthy_id (ti_category_id transaction) = Some cid →
  filter (fun c => cat_id c = cid) (tbl_spending_categories (supabase w)) = [c] →
  Services.createTransaction transaction w = (Ok t, w1) →
  (∀ t0, t0 ∈ tbl_transactions (supabase w) → tx_id t0 ≠ tx_id t) →
  ∃ w2 c2,
    Services.deleteTransaction (tx_id t) w1 = (Ok tt, w2)
    ∧ tbl_transactions (supabase w2) = tbl_transactions (supabase w)
    ∧ filter (fun c => cat_id c = cid) (tbl_spending_categories (supabase w2))
      = [c2]
    ∧ cat_value c2 == Qmax 0 (cat_value c)
    ∧ ((0 <= cat_value c)%Q → cat_value c2 == cat_value c).
Proof.
  intros Hans Hcat Hrow Hcreate Hfresh.
  assert (Hans3 : answered 3 w).
  { apply (answered_le 7); [exact Hans|lia]. }
  destruct (createTransaction_applied transaction cid c w Hans3 Hcat Hrow)
    as (t' & c' & w1' & Hrun & Ht & Htx & Hrow' & Hvalue & Hfaults & _).
  rewrite Hcreate in Hrun. injection Hrun as <- <-.
  assert (Hans4 : answered 4 w1) by exact (answered_after 3 4 w w1 Hans Hfaults).
  assert (Hans2 : answered 2 w1).
  { apply (answered_le 4); [exact Hans4|lia]. }
  assert (Htrow : filter (fun t0 => tx_id t0 = tx_id t)
                    (tbl_transactions (supabase w1)) = [t]).
  { rewrite Htx, filter_app, filter_none by exact Hfresh.
    rewrite filter_cons, decide_True by reflexivity. reflexivity. }
  assert (Htcat : truthy_id (tx_category_id t) = Some cid).
  { rewrite Ht. exact Hcat. }
  rewrite (deleteTransaction_secondary (tx_id t) t cid w1 Hans2 Htrow Htcat).
  destruct (after_primary_delete_frame (tx_id t) w1 Hans2)
    as (_ & _ & Hcats & Hfaults1).
  pose proof (after_primary_delete_transactions (tx_id t) w1 Hans2) as Htx1.
  destruct (adjust_category_after_delete_resolves cid (tx_user_id t)
              (tx_amount t) (after_primary_delete (tx_id t) w1))
    as (w2 & Hsec & Htx2).
  destruct (adjust_category_after_delete_applied cid (tx_user_id t)
              (tx_amount t) (after_primary_delete (tx_id t) w1) c')
    as (w2' & c2 & Hsec' & _ & Hrow2 & Hvalue2 & _).
  { apply (answered_after 2 2 w1); [exact Hans4|].
    rewrite Hfaults1.
    destruct (faults (supabase w1)) as [|f1 [|f2 fs]]; reflexivity. }
  { rewrite Hcats. exact Hrow'. }
  rewrite Hsec in Hsec'. injection Hsec' as <-.
  rewrite Hsec. exists w2, c2. split; [reflexivity|].
  split.
  { rewrite Htx2, Htx1, Htx, filter_app, filter_all by exact Hfresh.
    rewrite filter_cons, decide_False by (intros Hne; apply Hne; reflexivity).
    apply app_nil_r. }
  split; [exact Hrow2|].
  assert (Hmax : cat_value c2 == Qmax 0 (cat_value c)).
  { rewrite Hvalue2, Hvalue, or_zero_eq.
    assert (Htm : tx_amount t = ti_amount transaction)
      by (rewrite Ht; reflexivity).
    rewrite Htm.
    assert (Hsame : or_zero (cat_value c) + ti_amount transaction
                    - ti_amount transaction == cat_value c).
    { rewrite or_zero_eq. ring. }
    rewrite Hsame. reflexivity. }
  split; [exact Hmax|].
  intros Hpos. rewrite Hmax. apply Q.max_r. exact Hpos.
Qed.

(** [create_then_delete_round_trip] on the second lunch: the ledger is
    back to one lunch and a total of 200. *)
Lemma create_then_delete_round_trip_witness :
  ∃ w2 c2,
    Services.deleteTransaction (tx_id second_lunch_row)
      (snd (Services.createTransaction second_lunch ledger_world))
    = (Ok tt, w2)
    ∧ tbl_transactions (supabase w2) = tbl_transactions (supabase ledger_world)
    ∧ filter (fun c => cat_id c = "cat-1")
        (tbl_spending_categories (supabase w2))
      = [c2]
    ∧ cat_value c2 == Qmax 0 (cat_value groceries)
    ∧ ((0 <= cat_value groceries)%Q → cat_value c2 == cat_value groceries).
Proof.
  apply (create_then_delete_round_trip second_lunch "cat-1" groceries
           second_lunch_row ledger_world
           (snd (Services.createTransaction second_lunch ledger_world))).
  - vm_compute. constructor.
  - reflexivity.
  - vm_compute. reflexivity.
  - vm_compute. reflexivity.
  - intros t0 Hin. vm_compute in Hin.
    apply list_elem_of_singleton in Hin. rewrite Hin. vm_compute.
    discriminate.
Defined.

(** ** Deletions *)

Lemma deleteTransaction_attempt_missing id (w : World) :
  filter (fun t => tx_id t = id) (tbl_transactions (supabase w)) = [] →
  (r <- query (select_transaction id) ;;
   match r with
   | Error fetchError => reject (thrown fetchError)
   | Data transaction =>
     r' <- query (delete_transaction id) ;;
     match r' with
     | Error deleteError => reject (thrown deleteError)
     | Data _ =>
       match truthy_id (tx_category_id transaction) with
       | Some category_id =>
         Services.adjust_category_after_delete category_id
           (tx_user_id transaction) (tx_amount transaction)
       | None => resolve tt
       end
     end
   end) w
  = (Throw (thrown (missing_row_error 0 w)),
     set_supabase (after_request (supabase w)) w).
Proof.
  intros Hmiss. unfold await at 1, select_transaction.
  unfold missing_row_error. rewrite <- head_lookup.
  destruct (pending_fault w) as [e|] eqn:Hq; step_query;
    unfold pending_fault in Hq; rewrite Hq; [reflexivity|].
  cbn [fst snd].
  change (tbl_transactions (after_request (supabase w)))
    with (tbl_transactions (supabase w)).
  rewrite Hmiss. reflexivity.
Qed.

(** X16: [deleteTransaction] reads the transaction before it deletes it,
    so deleting a transaction that is not there (deleted already, say) is
    an error, retried like a transient one: whatever the faults, the call
    sends three requests, waits twice, logs once and rejects, the tables
    left as they were. *)
Theorem deleteTransaction_missing_gives_up (id : string) (w : World) :
  (∀ t, t ∈ tbl_transactions (supabase w) → tx_id t ≠ id) →
  gave_up "delete transaction" w (Services.deleteTransaction id w).
Proof.
  intros Hmiss.
  apply (withRetry_default_gives_up _
           (fun b => filter (fun t => tx_id t = id) (tbl_transactions b) = []));
    [auto|intros w0; apply deleteTransaction_attempt_missing|].
  apply filter_none. exact Hmiss.
Qed.

(** [deleteTransaction_missing_gives_up] on the ledger, which holds the
    transaction [tx-1] only. *)
Lemma deleteTransaction_missing_gives_up_witness :
  gave_up "delete transaction" ledger_world
    (Services.deleteTransaction "tx-2" ledger_world).
Proof.
  apply (deleteTransaction_missing_gives_up "tx-2" ledger_world).
  intros t Hin. vm_compute in Hin.
  apply list_elem_of_singleton in Hin. rewrite Hin. vm_compute. discriminate.
Defined.



(** ** What the services and the hooks reject with *)

Lemma rejects_query {A} (P : JsError → Prop)
    (q : Backend → Response A * Backend) :
  rejects_with P (query q).
Proof.
  intros w e w'. unfold query. destruct (q (supabase w)). discriminate.
Qed.

Lemma rejects_resolve {A} (P : JsError → Prop) (a : A) :
  rejects_with P (resolve a).
Proof. intros w e w'. discriminate. Qed.

Lemma rejects_reject {A} (P : JsError → Prop) (e : JsError) :
  P e → rejects_with P (@reject World A e).
Proof. intros He w e' w' Hrun. injection Hrun as <- _. exact He. Qed.

Lemma rejects_new_Date (P : JsError → Prop) : rejects_with P new_Date.
Proof. intros w e w'. discriminate. Qed.

Lemma rejects_await {A B} (P : JsError → Prop) (m : Async World A)
    (k : A → Async World B) :
  rejects_with P m → (∀ a, rejects_with P (k a)) → rejects_with P (await m k).
Proof.
  intros Hm Hk w e w'. unfold await.
  destruct (m w) as [[a|e0] w1] eqn:Hrun.
  - apply Hk.
  - intros Heq. injection Heq as <- _. exact (Hm _ _ _ Hrun).
Qed.

Lemma rejects_adjust_after_create (P : JsError → Prop) cid uid amount :
  rejects_with P (Services.adjust_category_after_create cid uid amount).
Proof.
  intros w e w' Hrun.
  destruct (adjust_category_after_create_resolves cid uid amount w)
    as (w2 & Hok & _).
  rewrite Hok in Hrun. discriminate.
Qed.

Lemma rejects_adjust_after_delete (P : JsError → Prop) cid uid amount :
  rejects_with P (Services.adjust_category_after_delete cid uid amount).
Proof.
  intros w e w' Hrun.
  destruct (adjust_category_after_delete_resolves cid uid amount w)
    as (w2 & Hok & _).
  rewrite Hok in Hrun. discriminate.
Qed.

Lemma rejects_withRetry_default {A} (P : JsError → Prop)
    (operation : Async World A) :
  rejects_with P operation →
  rejects_with P (Services.withRetry_default operation).
Proof.
  intros Hop w e w'. rewrite withRetry_default_unroll.
  destruct (operation w) as [[v|e1] w1]; [discriminate|].
  destruct (operation _) as [[v|e2] w2]; [discriminate|].
  intros Hrun. exact (Hop _ _ _ Hrun).
Qed.

(** A service rejects with the error that [handleError] builds. *)
Lemma service_rejects {A} (operation : Async World A) resType op uid resId :
  rejects_with store_error operation →
  rejects_with (service_error op)
    (try_catch (Services.withRetry_default operation)
       (fun error => Services.handleError resType error op uid resId)).
Proof.
  intros Hop w e w'. unfold try_catch.
  destruct (Services.withRetry_default operation w) as [[v|e0] w1] eqn:Hrun;
    [discriminate|].
  destruct (rejects_withRetry_default _ _ Hop _ _ _ Hrun) as [pe ->].
  unfold Services.handleError, await. rewrite logDatabaseError_thrown.
  intros Heq. injection Heq as <- _. exists pe. reflexivity.
Qed.

Ltac store_errors :=
  repeat first
    [ apply rejects_resolve
    | apply rejects_new_Date
    | apply rejects_query
    | apply rejects_reject; eexists; reflexivity
    | apply rejects_await; [|intros ?]
    | match goal with
      | |- rejects_with _ (match ?r with _ => _ end) => destruct r
      end ].

Lemma getTransactions_rejects userId limit offset :
  rejects_with (service_error "get transactions")
    (Services.getTransactions userId limit offset).
Proof. apply service_rejects. store_errors. Qed.

Lemma createTransaction_rejects transaction :
  rejects_with (service_error "create transaction")
    (Services.createTransaction transaction).
Proof.
  apply service_rejects.
  apply rejects_await; [apply rejects_query|].
  intros [newTransaction|transactionError];
    [|apply rejects_reject; eexists; reflexivity].
  apply rejects_await; [|intros _; apply rejects_resolve].
  destruct (truthy_id _);
    [apply rejects_adjust_after_create|apply rejects_resolve].
Qed.

Lemma deleteTransaction_rejects id :
  rejects_with (service_error "delete transaction")
    (Services.deleteTransaction id).
Proof.
  apply service_rejects.
  apply rejects_await; [apply rejects_query|].
  intros [transaction|fetchError];
    [|apply rejects_reject; eexists; reflexivity].
  apply rejects_await; [apply rejects_query|].
  intros [[]|deleteError]; [|apply rejects_reject; eexists; reflexivity].
  destruct (truthy_id _);
    [apply rejects_adjust_after_delete|apply rejects_resolve].
Qed.

Lemma getCategories_rejects userId :
  rejects_with (service_error "get categories")
    (Services.getCategories userId).
Proof. apply service_rejects. store_errors. Qed.

Lemma createCategory_rejects category :
  rejects_with (service_error "create category")
    (Services.createCategory category).
Proof. apply service_rejects. store_errors. Qed.

Lemma updateCategory_rejects id updates :
  rejects_with (service_error "update category")
    (Services.updateCategory id updates).
Proof. apply service_rejects. store_errors. Qed.


Lemma getGoals_rejects userId :
  rejects_with (service_error "get goals") (Services.getGoals userId).
Proof. apply service_rejects. store_errors. Qed.

Lemma createGoal_rejects goal :
  rejects_with (service_error "create goal") (Services.createGoal goal).
Proof. apply service_rejects. store_errors. Qed.

Lemma updateGoal_rejects id updates :
  rejects_with (service_error "update goal") (Services.updateGoal id updates).
Proof. apply service_rejects. store_errors. Qed.


Lemma addContribution_rejects goalId amount :
  rejects_with (service_error "add contribution to goal")
    (Services.addContribution goalId amount).
Proof. apply service_rejects. store_errors. Qed.


(** ** The hooks when a service rejects *)

Lemma message_or_service_error op (e : JsError) fallback :
  service_error op e → message_or e fallback = error_message e.
Proof. intros [pe ->]. reflexivity. Qed.

Lemma rejects_Promise_all {A} (P : JsError → Prop)
    (ms : list (Async World A)) :
  Forall (rejects_with P) ms → rejects_with P (Promise_all ms).
Proof.
  induction 1 as [|m ms Hm Hms IH]; [apply rejects_resolve|].
  intros w e w'. cbn [Promise_all].
  destruct (m w) as [[a|e0] w1] eqn:Hrun.
  - destruct (Promise_all ms w1) as [[l|e1] w2] eqn:Hrest; [discriminate|].
    intros Heq. injection Heq as <- _. exact (IH _ _ _ Hrest).
  - intros Heq. injection Heq as <- _. exact (Hm _ _ _ Hrun).
Qed.

Lemma keeps_Promise_all {A} (ms : list (Async World A)) :
  Forall keeps_localStorage ms → keeps_localStorage (Promise_all ms).
Proof.
  induction 1 as [|m ms Hm Hms IH]; [apply keeps_resolve|].
  intros w. cbn [Promise_all]. specialize (Hm w).
  destruct (m w) as [[a|e0] w1]; cbn [snd] in *.
  - specialize (IH w1).
    destruct (Promise_all ms w1) as [[l|e1] w2]; cbn [snd] in *; congruence.
  - rewrite (IH w1). exact Hm.
Qed.

Lemma keeps_createCategory category :
  keeps_localStorage (Services.createCategory category).
Proof.
  apply keeps_try_catch; [|intros e; apply keeps_handleError].
  apply keeps_withRetry_loop, keeps_await; [apply keeps_query|].
  intros [data|error]; [apply keeps_resolve|apply keeps_reject].
Qed.

Lemma keeps_fetchCategories_try uid :
  keeps_localStorage (useCategories.fetchCategories_try uid).
Proof.
  apply keeps_await;
    [apply (keeps_localStorage_list_service (categories_of uid))|].
  intros data. cbv zeta. destruct (0 <? _)%nat; [|apply keeps_resolve].
  apply keeps_await; [|intros l; apply keeps_resolve].
  apply keeps_Promise_all, Forall_fmap, Forall_forall.
  intros name _. apply keeps_createCategory.
Qed.

Lemma fetchCategories_try_rejects uid :
  rejects_with
    (fun e => service_error "get categories" e
              ∨ service_error "create category" e)
    (useCategories.fetchCategories_try uid).
Proof.
  apply rejects_await.
  { intros w e w' Hrun. left. exact (getCategories_rejects uid w e w' Hrun). }
  intros data. cbv zeta. destruct (0 <? _)%nat; [|apply rejects_resolve].
  apply rejects_await; [|intros l; apply rejects_resolve].
  apply rejects_Promise_all, Forall_fmap, Forall_forall.
  intros name _ w e w' Hrun. right.
  exact (createCategory_rejects _ w e w' Hrun).
Qed.

(** X19: a fetch that fails keeps what the hook shows.  When the service
    rejects, [fetchTransactions], [fetchGoals] and [fetchCategories] leave
    the collection, the paging cells and [localStorage] as they were,
    clear [loading], and set [error] to the message of the service error:
    the fallback text of the hook is never shown. *)
Theorem fetch_failure_keeps_collection :
  (∀ uid limit offset (reset : bool) st w e w1,
     Services.getTransactions uid limit (if reset then O else offset) w
     = (Throw e, w1) →
     let after := useTransactions.fetchTransactions (Some uid) limit offset
                    reset st w in
     useTransactions.transactions (fst after) = useTransactions.transactions st
     ∧ useTransactions.offset (fst after) = useTransactions.offset st
     ∧ useTransactions.hasMore (fst after) = useTransactions.hasMore st
     ∧ useTransactions.loading (fst after) = false
     ∧ useTransactions.error (fst after) = error_message e
     ∧ service_error "get transactions" e
     ∧ localStorage (snd after) = localStorage w)
  ∧ (∀ uid st w e w1,
       Services.getGoals uid w = (Throw e, w1) →
       let after := useGoals.fetchGoals (Some uid) st w in
       useGoals.goals (fst after) = useGoals.goals st
       ∧ useGoals.loading (fst after) = false
       ∧ useGoals.error (fst after) = error_message e
       ∧ service_error "get goals" e
       ∧ localStorage (snd after) = localStorage w)
  ∧ (∀ uid st w e w1,
       useCategories.fetchCategories_try uid w = (Throw e, w1) →
       let after := useCategories.fetchCategories (Some uid) st w in
       useCategories.categories (fst after) = useCategories.categories st
       ∧ useCategories.loading (fst after) = false
       ∧ useCategories.error (fst after) = error_message e
       ∧ (service_error "get categories" e
          ∨ service_error "create category" e)
       ∧ localStorage (snd after) = localStorage w).
Proof.
  split; [|split].
  - intros uid limit offset reset st w e w1 Hfetch. cbv zeta.
    pose proof (getTransactions_rejects _ _ _ _ _ _ Hfetch) as He.
    pose proof (keeps_getTransactions uid limit
                  (if reset then O else offset) w) as Hkeep.
    unfold useTransactions.fetchTransactions. rewrite Hfetch in *.
    cbn [fst snd]. rewrite (message_or_service_error _ _ _ He).
    repeat split; try reflexivity; [exact He|exact Hkeep].
  - intros uid st w e w1 Hfetch. cbv zeta.
    pose proof (getGoals_rejects _ _ _ _ Hfetch) as He.
    pose proof (keeps_localStorage_list_service (goals_of uid)
                  "financial_goal" "get goals" (Some uid) w) as Hkeep.
    change (try_catch _ _ w) with (Services.getGoals uid w) in Hkeep.
    unfold useGoals.fetchGoals. rewrite Hfetch in *.
    cbn [fst snd]. rewrite (message_or_service_error _ _ _ He).
    repeat split; try reflexivity; [exact He|exact Hkeep].
  - intros uid st w e w1 Hfetch. cbv zeta.
    pose proof (fetchCategories_try_rejects _ _ _ _ Hfetch) as He.
    pose proof (keeps_fetchCategories_try uid w) as Hkeep.
    unfold useCategories.fetchCategories. rewrite Hfetch in *.
    cbn [fst snd].
    assert (Hmsg : message_or e "Failed to load categories" = error_message e).
    { destruct He as [He|He]; exact (message_or_service_error _ _ _ He). }
    rewrite Hmsg. repeat split; try reflexivity; [exact He|exact Hkeep].
Qed.

(** [fetch_failure_keeps_collection] on a fetch of the goals when the
    store cannot be reached. *)
Lemma fetch_failure_keeps_collection_witness :
  useGoals.goals
    (fst (useGoals.fetchGoals (Some "user-1")
            {| useGoals.goals := [vacation]; useGoals.loading := true;
               useGoals.error := None |} failing_world))
  = [vacation]
  ∧ useGoals.error
      (fst (useGoals.fetchGoals (Some "user-1")
              {| useGoals.goals := [vacation]; useGoals.loading := true;
                 useGoals.error := None |} failing_world))
    = Some "Failed to get goals: TypeError: Failed to fetch".
Proof.
  destruct fetch_failure_keeps_collection as (_ & Hgoals & _).
  destruct (Hgoals "user-1"
              {| useGoals.goals := [vacation]; useGoals.loading := true;
                 useGoals.error := None |} failing_world
              (failed_to "get goals" (thrown fetch_failure))
              (snd (Services.getGoals "user-1" failing_world)))
    as (Hkept & _ & Herror & _).
  - vm_compute. reflexivity.
  - split; [exact Hkept|]. rewrite Herror. reflexivity.
Defined.

Ltac settle rejects :=
  match goal with
  | |- context [match ?call with _ => _ end] =>
    destruct call as [[r|e] w1] eqn:Hrun;
    [split; reflexivity
    |assert (He : service_error _ e) by (eapply rejects; exact Hrun);
     split; [reflexivity|];
     split; [exact (message_or_service_error _ _ _ He)|exact He]]
  end.

(** X20: past their guards, the mutation hooks always settle: whether the
    service resolves or rejects, the busy flag is cleared; the error cell
    is empty after a resolution; after a rejection the hook rethrows the
    error of the service and the error cell holds its message, never the
    fallback text of the hook.  [deleteTransactionMutation] and
    [updateGoalMutation] have no guard, the other four run once a user is
    signed in and the browser is not offline. *)
Theorem mutation_hooks_settle :
  (∀ V uid onOptimisticAdd onRollback transaction st (v : V) w,
     offline w = false →
     let out := useTransactions.addTransaction (Some uid) onOptimisticAdd
                  onRollback transaction st v w in
     settled "create transaction" (fst out)
       (useTransactions.adding (fst (fst (snd out))))
       (useTransactions.add_error (fst (fst (snd out)))))
  ∧ (∀ id st w,
       let out := useTransactions.deleteTransactionMutation id st w in
       settled "delete transaction" (fst out)
         (useTransactions.deleting (fst (snd out)))
         (useTransactions.delete_error (fst (snd out))))
  ∧ (∀ V onOptimisticUpdate onRollback id updates st (v : V) w,
       offline w = false →
       let out := useCategories.updateCategoryMutation onOptimisticUpdate
                    onRollback id updates st v w in
       settled "update category" (fst out)
         (useCategories.updating (fst (fst (snd out))))
         (useCategories.update_error (fst (fst (snd out)))))
  ∧ (∀ V onOptimisticUpdate onRollback id updates st (v : V) w,
       let out := useGoals.updateGoalMutation onOptimisticUpdate onRollback
                    id updates st v w in
       settled "update goal" (fst out)
         (useGoals.updating (fst (fst (snd out))))
         (useGoals.update_error (fst (fst (snd out)))))
  ∧ (∀ V onOptimisticUpdate onRollback goalId amount st (v : V) w,
       offline w = false →
       let out := useGoals.addContributionMutation onOptimisticUpdate
                    onRollback goalId amount st v w in
       settled "add contribution to goal" (fst out)
         (useGoals.updating (fst (fst (snd out))))
         (useGoals.update_error (fst (fst (snd out)))))
  ∧ (∀ uid goal st w,
       offline w = false →
       let out := useGoals.addGoal (Some uid) goal st w in
       settled "create goal" (fst out)
         (useGoals.adding (fst (snd out)))
         (useGoals.add_error (fst (snd out)))).
Proof.
  split; [|split; [|split; [|split; [|split]]]].
  - intros V uid onOptimisticAdd onRollback transaction st v w Hon. cbv zeta.
    unfold useTransactions.addTransaction, settled. rewrite Hon.
    settle createTransaction_rejects.
  - intros id st w. cbv zeta.
    unfold useTransactions.deleteTransactionMutation, settled.
    settle deleteTransaction_rejects.
  - intros V onOptimisticUpdate onRollback id updates st v w Hon. cbv zeta.
    unfold useCategories.updateCategoryMutation, settled. rewrite Hon.
    settle updateCategory_rejects.
  - intros V onOptimisticUpdate onRollback id updates st v w. cbv zeta.
    unfold useGoals.updateGoalMutation, settled.
    settle updateGoal_rejects.
  - intros V onOptimisticUpdate onRollback goalId amount st v w Hon. cbv zeta.
    unfold useGoals.addContributionMutation, settled. rewrite Hon.
    settle addContribution_rejects.
  - intros uid goal st w Hon. cbv zeta.
    unfold useGoals.addGoal, settled. rewrite Hon.
    settle createGoal_rejects.
Qed.

(** [mutation_hooks_settle] on a goal added while the store cannot be
    reached. *)
Lemma mutation_hooks_settle_witness :
  settled "create goal"
    (fst (useGoals.addGoal (Some "user-1")
            {| useGoals.gd_title := "Bike"; useGoals.gd_target_amount := 900;
               useGoals.gd_current_amount := 0;
               useGoals.gd_months_remaining := 6 |}
            {| useGoals.adding := false; useGoals.add_error := None |}
            failing_world))
    (useGoals.adding
       (fst (snd (useGoals.addGoal (Some "user-1")
                    {| useGoals.gd_title := "Bike";
                       useGoals.gd_target_amount := 900;
                       useGoals.gd_current_amount := 0;
                       useGoals.gd_months_remaining := 6 |}
                    {| useGoals.adding := false; useGoals.add_error := None |}
                    failing_world))))
    (useGoals.add_error
       (fst (snd (useGoals.addGoal (Some "user-1")
                    {| useGoals.gd_title := "Bike";
                       useGoals.gd_target_amount := 900;
                       useGoals.gd_current_amount := 0;
                       useGoals.gd_months_remaining := 6 |}
                    {| useGoals.adding := false; useGoals.add_error := None |}
                    failing_world)))).
Proof.
  destruct mutation_hooks_settle as (_ & _ & _ & _ & _ & HaddGoal).
  apply (HaddGoal "user-1"
           {| useGoals.gd_title := "Bike"; useGoals.gd_target_amount := 900;
              useGoals.gd_current_amount := 0;
              useGoals.gd_months_remaining := 6 |}
           {| useGoals.adding := false; useGoals.add_error := None |}
           failing_world).
  reflexivity.
Defined.

(** ** Consumers: merged lists and optimistic entries *)

(** X21: the list that [AppContext] exposes shows every persisted
    transaction, after the optimistic entries that are shown; an
    optimistic entry is left out as soon as a persisted transaction has
    its description and its amount, whatever their identifiers: a second
    expense with the description and the amount of an earlier one is
    never shown before it is persisted.  With no optimistic entry the
    list is the persisted one, and with nothing persisted it is the
    optimistic one. *)
Theorem AppContext_transactions_merge (toString : Q → string)
    (dbTransactions optimisticTransactions : list Transaction) :
  let merged :=
    AppContext.transactions toString dbTransactions optimisticTransactions in
  (∃ shown,
     merged = (shown ++ dbTransactions)%list
     ∧ sublist shown optimisticTransactions
     ∧ ∀ t p,
         t ∈ shown → p ∈ dbTransactions →
         ¬ (tx_description p = tx_description t ∧ tx_amount p = tx_amount t))
  ∧ AppContext.transactions toString dbTransactions [] = dbTransactions
  ∧ AppContext.transactions toString [] optimisticTransactions
    = optimisticTransactions.
Proof.
  cbv zeta. unfold AppContext.transactions. split; [|split].
  - eexists. split; [reflexivity|]. split; [apply sublist_filter|].
    intros t p Ht Hp [Hd Ha].
    apply list_elem_of_filter in Ht as [Hkey _]. apply Hkey.
    apply list_elem_of_fmap. exists p. split; [|exact Hp].
    rewrite Hd, Ha. reflexivity.
  - reflexivity.
  - cbn [map]. rewrite app_nil_r.
    apply filter_all. intros t _. apply not_elem_of_nil.
Qed.

(** X22: [addTransaction] with the handlers of [AppContext].  Past the
    guards, the provisional entry [temp-<Date.now()>] is put in front of
    the optimistic list; when the service resolves it stays there; when
    the service rejects, the list is
    the previous one again, provided that no entry of it carried the
    same provisional identifier. *)
Theorem addTransaction_optimistic_list (uid : string)
    (transaction : TransactionDraft) (st : useTransactions.AddState)
    (prev : list Transaction) (w : World) :
  offline w = false →
  Forall (fun t' => tx_id t' ≠ "temp-" +:+ pretty (Date_now w)) prev →
  let out :=
    useTransactions.addTransaction (Some uid)
      (Some AppContext.handleOptimisticAdd) (Some AppContext.handleRollback)
      transaction st prev w in
  match fst out with
  | Ok _ =>
    ∃ provisional,
      view_of out = provisional :: prev
      ∧ tx_id provisional = "temp-" +:+ pretty (Date_now w)
      ∧ tx_description provisional = td_description transaction
      ∧ tx_amount provisional = td_amount transaction
  | Throw _ => view_of out = prev
  end.
Proof.
  intros Hon Hfresh. cbv zeta.
  unfold useTransactions.addTransaction. rewrite Hon.
  destruct (Services.createTransaction _ w) as [[t|e] w1] eqn:Hrun.
  - cbn [fst]. eexists. split; [reflexivity|]. repeat split; reflexivity.
  - cbn [fst]. unfold view_of. cbn [fst snd call_optional option_map].
    match goal with
    | |- AppContext.handleRollback _ (AppContext.handleOptimisticAdd ?t _) = _
      => apply (AppContext_rollback_restores t)
    end.
    exact Hfresh.
Qed.

(** [addTransaction_optimistic_list] on a lunch added while the store
    cannot be reached: the optimistic list is empty again. *)
Lemma addTransaction_optimistic_list_witness :
  view_of
    (useTransactions.addTransaction (Some "user-1")
       (Some AppContext.handleOptimisticAdd) (Some AppContext.handleRollback)
       {| td_category_id := Some "cat-1"; td_description := "Lunch";
          td_amount := 45.25; td_category_name := "Food and Groceries" |}
       {| useTransactions.adding := false;
          useTransactions.add_error := None |} [] failing_world)
  = [].
Proof.
  exact (addTransaction_optimistic_list "user-1"
           {| td_category_id := Some "cat-1"; td_description := "Lunch";
              td_amount := 45.25; td_category_name := "Food and Groceries" |}
           {| useTransactions.adding := false;
              useTransactions.add_error := None |} [] failing_world
           eq_refl (Forall_nil_2 _)).
Defined.

Lemma find_has_id goalId (l : list FinancialGoal) (g : FinancialGoal) :
  List.find (Goals.has_id goalId) l = Some g → goal_id g = goalId ∧ g ∈ l.
Proof.
  induction l as [|h l IH]; [discriminate|]. cbn [List.find].
  destruct (Goals.has_id goalId h) eqn:Hh.
  - intros Heq. injection Heq as <-. split; [|left].
    apply String.eqb_eq. exact Hh.
  - intros Hfind. destruct (IH Hfind) as [Hid Hin].
    split; [exact Hid|right; exact Hin].
Qed.

(** X23: the goals that the [Goals] component renders are the persisted
    ones, one for one and in their order: an optimistic entry may stand
    in for the persisted goal of its identifier, but the merge never
    adds, drops or reorders a goal, and an optimistic entry whose
    identifier no persisted goal has is not rendered. *)
Theorem Goals_goals_follow_persisted (dbGoals optimisticGoals
    : list FinancialGoal) :
  map goal_id (Goals.goals dbGoals optimisticGoals) = map goal_id dbGoals
  ∧ Forall2 (fun shown g => shown = g ∨ shown ∈ optimisticGoals)
      (Goals.goals dbGoals optimisticGoals) dbGoals
  ∧ Goals.goals dbGoals [] = dbGoals.
Proof.
  unfold Goals.goals. split; [|split].
  - rewrite <- list_fmap_compose. apply list_fmap_ext. intros i g _. cbn.
    match goal with
    | |- context [List.find ?f ?l] =>
      destruct (List.find f l) as [g'|] eqn:Hfind
    end; [|reflexivity].
    apply find_has_id in Hfind as [Hid _]. exact Hid.
  - apply Forall2_fmap_l, Forall_Forall2_diag, Forall_forall. intros g _.
    unfold compose. cbn beta.
    match goal with
    | |- context [List.find ?f ?l] =>
      destruct (List.find f l) as [g'|] eqn:Hfind
    end; [|left; reflexivity].
    apply find_has_id in Hfind as [_ Hin]. right. cbn.
    apply list_elem_of_In, in_rev, list_elem_of_In. exact Hin.
  - cbn [rev List.find]. induction dbGoals as [|g l IH]; [reflexivity|].
    cbn [map]. f_equal. exact IH.
Qed.

(** ** The fixed categories *)

Lemma indexOf_bounds (l : list string) (x : string) :
  (indexOf l x = -1 ∨ 0 <= indexOf l x < Z.of_nat (length l))%Z.
Proof.
  induction l as [|y l IH]; [left; reflexivity|]. cbn [indexOf length].
  destruct (String.eqb y x); [right; lia|].
  destruct (indexOf l x =? -1)%Z eqn:Hi; [left; reflexivity|].
  apply Z.eqb_neq in Hi. right. lia.
Qed.

Lemma by_fixed_order_rank (a b : SpendingCategory) :
  (useCategories.by_fixed_order a b <= 0)%Z ↔ (fixed_rank a <= fixed_rank b)%Z.
Proof.
  unfold useCategories.by_fixed_order, fixed_rank. cbv zeta.
  pose proof (indexOf_bounds useCategories.FIXED_CATEGORIES (cat_name a)) as Ha.
  pose proof (indexOf_bounds useCategories.FIXED_CATEGORIES (cat_name b)) as Hb.
  set (n := Z.of_nat (length useCategories.FIXED_CATEGORIES)) in *.
  set (ia := indexOf useCategories.FIXED_CATEGORIES (cat_name a)) in *.
  set (ib := indexOf useCategories.FIXED_CATEGORIES (cat_name b)) in *.
  destruct (Z.eqb_spec ia (-1)); destruct (Z.eqb_spec ib (-1));
    cbn [negb andb]; lia.
Qed.

(** [createCategory] when its request is answered. *)
Lemma createCategory_answered (category : CategoryInsert) (w : World) :
  pending_fault w = None →
  ∃ row,
    Services.createCategory category w
    = (Ok row,
       set_supabase
         (snd (insert_category
                 {| ci_user_id := ci_user_id category;
                    ci_name := ci_name category;
                    ci_value := or_zero (ci_value category);
                    ci_budget := ci_budget category;
                    ci_color := ci_color category |} (supabase w))) w)
    ∧ cat_user_id row = ci_user_id category
    ∧ cat_name row = ci_name category
    ∧ cat_value row = or_zero (ci_value category)
    ∧ cat_budget row = ci_budget category
    ∧ cat_color row = ci_color category
    ∧ tbl_spending_categories
        (snd (insert_category
                {| ci_user_id := ci_user_id category;
                   ci_name := ci_name category;
                   ci_value := or_zero (ci_value category);
                   ci_budget := ci_budget category;
                   ci_color := ci_color category |} (supabase w)))
      = (tbl_spending_categories (supabase w) ++ [row])%list.
Proof.
  intros Hq. unfold Services.createCategory, try_catch.
  rewrite withRetry_default_unroll.
  unfold await at 1. unfold insert_category at 1. step_query.
  cbn [fst snd take_id resolve].
  unfold insert_category, send, next_fault.
  unfold pending_fault in Hq.
  change (faults (count_request (supabase w))) with (faults (supabase w)).
  rewrite Hq. cbn [fst snd take_id].
  eexists. split; [reflexivity|]. repeat split; reflexivity.
Qed.

Lemma createCategory_quiet (category : CategoryInsert) (w : World) :
  faults (supabase w) = [] →
  ∃ row w',
    Services.createCategory category w = (Ok row, w')
    ∧ (cat_user_id row = ci_user_id category
       ∧ cat_name row = ci_name category
       ∧ cat_value row = or_zero (ci_value category)
       ∧ cat_budget row = ci_budget category
       ∧ cat_color row = ci_color category)
    ∧ tbl_spending_categories (supabase w')
      = (tbl_spending_categories (supabase w) ++ [row])%list
    ∧ faults (supabase w') = []
    ∧ requests (supabase w') = S (requests (supabase w)).
Proof.
  intros Hquiet.
  assert (Hq : pending_fault w = None)
    by (unfold pending_fault; rewrite Hquiet; reflexivity).
  destruct (createCategory_answered category w Hq)
    as (row & Hrun & Hu & Hn & Hv & Hb & Hc & Htbl).
  eexists row, _. split; [exact Hrun|]. split; [auto|].
  split; [exact Htbl|].
  unfold insert_category, send, next_fault.
  change (faults (count_request (supabase w))) with (faults (supabase w)).
  rewrite Hquiet. split; reflexivity.
Qed.

Lemma seed_categories_quiet (uid : string) (names : list string) (w : World) :
  faults (supabase w) = [] →
  ∃ created w',
    Promise_all
      (map (fun name =>
              Services.createCategory
                {| ci_user_id := uid; ci_name := name; ci_value := 0;
                   ci_budget := 0;
                   ci_color := useCategories.default_color name |})
           names) w
    = (Ok created, w')
    ∧ map cat_name created = names
    ∧ Forall (seeded uid) created
    ∧ tbl_spending_categories (supabase w')
      = (tbl_spending_categories (supabase w) ++ created)%list
    ∧ faults (supabase w') = []
    ∧ requests (supabase w') = (requests (supabase w) + length names)%nat.
Proof.
  revert w. induction names as [|name names IH]; intros w Hquiet.
  - exists [], w. cbn. rewrite app_nil_r. repeat split; auto; lia.
  - cbn [map Promise_all].
    destruct (createCategory_quiet
                {| ci_user_id := uid; ci_name := name; ci_value := 0;
                   ci_budget := 0;
                   ci_color := useCategories.default_color name |} w Hquiet)
      as (row & w1 & Hrun & (Hu & Hn & Hv & Hb & Hc) & Htbl & Hquiet1 & Hreq).
    rewrite Hrun.
    destruct (IH w1 Hquiet1)
      as (created & w' & Hrest & Hnames & Hseeded & Htbl' & Hquiet' & Hreq').
    rewrite Hrest. exists (row :: created), w'.
    split; [reflexivity|]. cbn [map ci_name] in *.
    split; [rewrite Hn, Hnames; reflexivity|].
    split.
    { constructor; [|exact Hseeded]. unfold seeded.
      cbn [ci_user_id ci_value ci_budget ci_color] in *.
      rewrite Hu, Hv, Hb, Hc, Hn. repeat split; reflexivity. }
    split; [rewrite Htbl', Htbl, <- app_assoc; reflexivity|].
    split; [exact Hquiet'|]. rewrite Hreq', Hreq. cbn [length]. lia.
Qed.

(** [getCategories] when no fault is pending. *)
Lemma getCategories_quiet (uid : string) (w : World) :
  faults (supabase w) = [] →
  ∃ w',
    Services.getCategories uid w = (Ok (categories_of uid (supabase w)), w')
    ∧ tables w' = tables w
    ∧ faults (supabase w') = []
    ∧ requests (supabase w') = S (requests (supabase w)).
Proof.
  intros Hquiet. unfold Services.getCategories, try_catch.
  rewrite withRetry_default_unroll.
  change (r <- query (select_categories uid) ;;
          match r with
          | Error error => reject (thrown error)
          | Data data => resolve data
          end)
    with (list_attempt (categories_of uid)).
  rewrite list_attempt_run. unfold pending_fault. rewrite Hquiet.
  cbn [head mjoin option_join].
  eexists. split; [reflexivity|]. split; [reflexivity|].
  cbn. rewrite Hquiet. split; reflexivity.
Qed.

Lemma categories_of_Permutation (uid : string) (w : World) :
  categories_of uid (supabase w) ≡ₚ categories_in_store uid w.
Proof. apply sort_array_Permutation. Qed.

(** X24: [fetchCategories] makes the fixed categories exist.  When no
    fault is pending, the fetch resolves after creating one category for
    each name of [FIXED_CATEGORIES] that the user lacks, and no other:
    each is created with nothing spent, no budget and its default colour,
    and appended to the table.  The list shown holds exactly the
    categories of the user now in the store, every fixed name among
    them, the fixed ones first in the order of [FIXED_CATEGORIES].  A
    user who has them all gets nothing created. *)
Theorem fetchCategories_seeds_fixed (uid : string) (w : World) :
  faults (supabase w) = [] →
  ∃ sorted created w',
    useCategories.fetchCategories_try uid w = (Ok sorted, w')
    ∧ tbl_spending_categories (supabase w')
      = (tbl_spending_categories (supabase w) ++ created)%list
    ∧ Forall (seeded uid) created
    ∧ map cat_name created
      = filter (fun name => name ∉ map cat_name (categories_in_store uid w))
          useCategories.FIXED_CATEGORIES
    ∧ sorted ≡ₚ categories_in_store uid w'
    ∧ (∀ name, name ∈ useCategories.FIXED_CATEGORIES →
               name ∈ map cat_name sorted)
    ∧ StronglySorted (fun a b => (fixed_rank a <= fixed_rank b)%Z) sorted
    ∧ requests (supabase w')
      = (requests (supabase w) + 1 + length created)%nat.
Proof.
  intros Hquiet.
  destruct (getCategories_quiet uid w Hquiet)
    as (w1 & Hget & Htables & Hquiet1 & Hreq1).
  injection Htables as _ Hcats _.
  set (data := categories_of uid (supabase w)) in *.
  set (missing := filter (fun name => name ∉ map cat_name data)
                    useCategories.FIXED_CATEGORIES).
  assert (Hmissing :
            missing
            = filter (fun name =>
                        name ∉ map cat_name (categories_in_store uid w))
                useCategories.FIXED_CATEGORIES).
  { apply list_filter_iff. intros name.
    unfold data. rewrite (categories_of_Permutation uid w). reflexivity. }
  destruct (seed_categories_quiet uid missing w1 Hquiet1)
    as (created & w2 & Hseed & Hnames & Hseeded & Htbl & Hquiet2 & Hreq2).
  assert (Hstore : ∀ w', tbl_spending_categories (supabase w')
                         = (tbl_spending_categories (supabase w)
                            ++ created)%list →
                         (data ++ created)%list ≡ₚ categories_in_store uid w').
  { intros w' Hw'. unfold categories_in_store. rewrite Hw', filter_app.
    fold (categories_in_store uid w).
    rewrite <- (categories_of_Permutation uid w).
    rewrite (filter_all _ created); [reflexivity|].
    intros c Hc. rewrite Forall_forall in Hseeded.
    destruct (Hseeded c Hc) as [Hu _]. exact Hu. }
  assert (Hfixed : ∀ name, name ∈ useCategories.FIXED_CATEGORIES →
                           name ∈ map cat_name (data ++ created)%list).
  { intros name Hname. rewrite map_app, elem_of_app, Hnames.
    destruct (decide (name ∈ map cat_name data)) as [Hin|Hnin];
      [left; exact Hin|right].
    apply list_elem_of_filter. split; assumption. }
  assert (Hsorted : ∀ l, StronglySorted
                           (fun a b => (fixed_rank a <= fixed_rank b)%Z)
                           (sort_array useCategories.by_fixed_order l)).
  { intros l. apply sort_array_sorted. exact by_fixed_order_rank. }
  unfold useCategories.fetchCategories_try, await at 1. rewrite Hget.
  cbv zeta. fold data. fold missing.
  destruct missing as [|name names] eqn:Hm.
  - cbn [length Nat.ltb Nat.leb]. unfold resolve.
    assert (Hnone : created = []) by (destruct created; [reflexivity|discriminate]).
    exists (sort_array useCategories.by_fixed_order data), [], w1.
    subst created. rewrite app_nil_r in *.
    split; [reflexivity|]. split; [exact Hcats|]. split; [constructor|].
    split; [rewrite <- Hmissing; reflexivity|].
    split.
    { rewrite sort_array_Permutation. rewrite <- (app_nil_r data).
      apply Hstore. exact Hcats. }
    split.
    { intros n Hn. specialize (Hfixed n Hn).
      rewrite <- (sort_array_Permutation useCategories.by_fixed_order data)
        in Hfixed. exact Hfixed. }
    split; [apply Hsorted|]. rewrite Hreq1. cbn [length]. lia.
  - change (0 <? length (name :: names))%nat with true. cbv iota.
    unfold await. rewrite Hseed. unfold resolve.
    exists (sort_array useCategories.by_fixed_order (data ++ created)),
      created, w2.
    split; [reflexivity|]. split; [rewrite Htbl, Hcats; reflexivity|].
    split; [exact Hseeded|].
    split; [rewrite Hnames; exact Hmissing|].
    split.
    { rewrite sort_array_Permutation. apply Hstore.
      rewrite Htbl, Hcats. reflexivity. }
    split.
    { intros n Hn. specialize (Hfixed n Hn).
      rewrite <- (sort_array_Permutation useCategories.by_fixed_order
                    (data ++ created)) in Hfixed. exact Hfixed. }
    split; [apply Hsorted|].
    rewrite Hreq2, Hreq1, <- Hnames, length_map. lia.
Qed.

(** [fetchCategories_seeds_fixed] on a new user: the ten fixed categories
    are created. *)
Lemma fetchCategories_seeds_fixed_witness :
  ∃ sorted created w',
    useCategories.fetchCategories_try "user-1" idle_world = (Ok sorted, w')
    ∧ map cat_name created = useCategories.FIXED_CATEGORIES
    ∧ map cat_name sorted = useCategories.FIXED_CATEGORIES
    ∧ requests (supabase w') = 11%nat.
Proof.
  destruct (fetchCategories_seeds_fixed "user-1" idle_world eq_refl)
    as (sorted & created & w' & Hrun & _ & _ & Hnames & _ & _ & _ & Hreq).
  exists sorted, created, w'. split; [exact Hrun|].
  split; [rewrite Hnames; vm_compute; reflexivity|].
  split.
  - assert (Hsorted : fst (useCategories.fetchCategories_try "user-1"
                             idle_world) = Ok sorted)
      by (rewrite Hrun; reflexivity).
    vm_compute in Hsorted. injection Hsorted as <-. vm_compute. reflexivity.
  - rewrite Hreq, <- (length_map cat_name), Hnames. vm_compute. reflexivity.
Defined.

(** ** Paging in the transactions hook *)

Lemma getTransactions_page (uid : string) (limit offset : nat) (w w1 : World)
    (data : list Transaction) :
  Services.getTransactions uid limit offset w = (Ok data, w1) →
  data = transactions_page uid limit offset (supabase w)
  ∧ tbl_transactions (supabase w1) = tbl_transactions (supabase w).
Proof.
  intros Hrun.
  pose proof (list_service_run (transactions_page uid limit offset)
                ltac:(reflexivity) "transaction" "get transactions" uid w)
    as Hout.
  pose proof (keeps_tables_list_service (transactions_page uid limit offset)
                "transaction" "get transactions" (Some uid) w) as Hkeep.
  change (try_catch _ _ w) with (Services.getTransactions uid limit offset w)
    in Hout, Hkeep.
  rewrite Hrun in Hout, Hkeep. cbn [list_service_outcome snd] in Hout, Hkeep.
  destruct Hout as (-> & _). injection Hkeep as Htx _ _.
  split; [reflexivity|exact Htx].
Qed.

(** X25: [loadMore] after the first page.  When the first page came
    short, [hasMore] is down and [loadMore] does nothing, no request
    sent.  When it came full, [loadMore] advances [offset] by [limit] but
    fetches with the offset of the render it was created in, which is 0:
    the request reads the first page once more, and the collection shown
    is the first page twice. *)
Theorem loadMore_after_first_page (uid : string) (limit offset : nat)
    (st : useTransactions.State) (w w1 : World) (data : list Transaction) :
  (0 < limit)%nat →
  Services.getTransactions uid limit 0 w = (Ok data, w1) →
  let first :=
    useTransactions.fetchTransactions (Some uid) limit offset true st w in
  let second :=
    useTransactions.loadMore (Some uid) limit (fst first) (snd first) in
  (length data ≠ limit → second = first)
  ∧ (length data = limit →
     ∀ data' w2,
       Services.getTransactions uid limit 0 (snd first) = (Ok data', w2) →
       useTransactions.transactions (fst second) = (data ++ data)%list
       ∧ useTransactions.offset (fst second) = limit).
Proof.
  intros _ Hfirst. cbv zeta.
  unfold useTransactions.fetchTransactions. rewrite Hfirst. cbn [fst snd].
  split.
  - intros Hshort. unfold useTransactions.loadMore.
    cbn [useTransactions.hasMore useTransactions.setLoading
         useTransactions.setHasMore].
    apply Nat.eqb_neq in Hshort. rewrite Hshort. reflexivity.
  - intros Hfull data' w2 Hsecond. unfold useTransactions.loadMore.
    cbn [useTransactions.hasMore useTransactions.loading
         useTransactions.offset useTransactions.setLoading
         useTransactions.setHasMore useTransactions.setOffset
         useTransactions.setTransactions useTransactions.setError].
    rewrite (proj2 (Nat.eqb_eq _ _) Hfull). cbn [negb orb].
    unfold useTransactions.fetchTransactions. rewrite Hsecond.
    cbn [fst snd useTransactions.transactions useTransactions.offset
         useTransactions.setLoading useTransactions.setHasMore
         useTransactions.setOffset useTransactions.setTransactions
         useTransactions.setError].
    destruct (getTransactions_page _ _ _ _ _ _ Hfirst) as [Hdata Htx].
    destruct (getTransactions_page _ _ _ _ _ _ Hsecond) as [Hdata' _].
    split; [|lia]. f_equal. rewrite Hdata', Hdata.
    unfold transactions_page.
    cbn [supabase localStorage_setItem set_localStorage].
    rewrite Htx. reflexivity.
Qed.

(** [loadMore_after_first_page] on a user with two transactions and pages
    of one: the newest transaction is shown twice. *)
Lemma loadMore_after_first_page_witness :
  useTransactions.transactions
    (fst (useTransactions.loadMore (Some "user-1") 1 (fst first_page)
            (snd first_page)))
  = [coffee; coffee].
Proof.
  destruct (loadMore_after_first_page "user-1" 1 0 mounted
              two_transactions_world
              (snd (Services.getTransactions "user-1" 1 0
                      two_transactions_world))
              [coffee]) as [_ Hfull].
  - lia.
  - vm_compute. reflexivity.
  - destruct (Hfull eq_refl [coffee]
                (snd (Services.getTransactions "user-1" 1 0 (snd first_page))))
      as [Hshown _].
    + vm_compute. reflexivity.
    + exact Hshown.
Defined.

(** ** The caches of the hooks *)

Lemma append_inj_r (p a b : string) : p +:+ a = p +:+ b → a = b.
Proof.
  induction p as [|c p IH]; cbn [String.append]; [auto|].
  intros Heq. injection Heq as Heq. exact (IH Heq).
Qed.

Lemma hydrate_goals_insert_other uid key value st (w : World) :
  key ≠ useGoals.CACHE_KEY_PREFIX +:+ uid →
  useGoals.hydrate (Some uid) st (localStorage_setItem key value w)
  = useGoals.hydrate (Some uid) st w.
Proof.
  intros Hne. unfold useGoals.hydrate, localStorage_setItem.
  cbn [localStorage set_localStorage].
  rewrite lookup_insert_ne by exact Hne. reflexivity.
Qed.

Lemma hydrate_transactions_insert_other uid key value st (w : World) :
  key ≠ useTransactions.CACHE_KEY_PREFIX +:+ uid →
  useTransactions.hydrate (Some uid) st (localStorage_setItem key value w)
  = useTransactions.hydrate (Some uid) st w.
Proof.
  intros Hne. unfold useTransactions.hydrate, localStorage_setItem.
  cbn [localStorage set_localStorage].
  rewrite lookup_insert_ne by exact Hne. reflexivity.
Qed.

Lemma hydrate_categories_insert_other uid key value st (w : World) :
  key ≠ useCategories.CACHE_KEY_PREFIX +:+ uid →
  useCategories.hydrate (Some uid) st (localStorage_setItem key value w)
  = useCategories.hydrate (Some uid) st w.
Proof.
  intros Hne. unfold useCategories.hydrate, localStorage_setItem.
  cbn [localStorage set_localStorage].
  rewrite lookup_insert_ne by exact Hne. reflexivity.
Qed.

Lemma hydrate_goals_frame user st (w w' : World) :
  localStorage w' = localStorage w →
  useGoals.hydrate user st w' = useGoals.hydrate user st w.
Proof. intros Hls. unfold useGoals.hydrate. rewrite Hls. reflexivity. Qed.

Lemma hydrate_transactions_frame user st (w w' : World) :
  localStorage w' = localStorage w →
  useTransactions.hydrate user st w' = useTransactions.hydrate user st w.
Proof.
  intros Hls. unfold useTransactions.hydrate. rewrite Hls. reflexivity.
Qed.

Lemma hydrate_categories_frame user st (w w' : World) :
  localStorage w' = localStorage w →
  useCategories.hydrate user st w' = useCategories.hydrate user st w.
Proof.
  intros Hls. unfold useCategories.hydrate. rewrite Hls. reflexivity.
Qed.

(** X26: the caches are kept apart.  A fetch of the goals of a user that
    succeeds is what the next mount of [useGoals] shows to that user
    before any request; what the mount shows to another user, and what
    the mounts of [useTransactions] and [useCategories] show to any user,
    is as before the fetch. *)
Theorem fetchGoals_cache_is_private (uid other : string)
    (st : useGoals.State) (w w1 : World) (data : list FinancialGoal) :
  Services.getGoals uid w = (Ok data, w1) →
  let after := snd (useGoals.fetchGoals (Some uid) st w) in
  (∀ st0, useGoals.goals (useGoals.hydrate (Some uid) st0 after) = data)
  ∧ (other ≠ uid →
     ∀ st0, useGoals.hydrate (Some other) st0 after
            = useGoals.hydrate (Some other) st0 w)
  ∧ (∀ user st0, useTransactions.hydrate user st0 after
                 = useTransactions.hydrate user st0 w)
  ∧ (∀ user st0, useCategories.hydrate user st0 after
                 = useCategories.hydrate user st0 w).
Proof.
  intros Hrun. cbv zeta.
  pose proof (keeps_localStorage_list_service (goals_of uid)
                "financial_goal" "get goals" (Some uid) w) as Hkeep.
  change (try_catch _ _ w) with (Services.getGoals uid w) in Hkeep.
  unfold useGoals.fetchGoals. rewrite Hrun in *. cbn [snd] in *.
  split; [|split; [|split]].
  - intros st0. unfold useGoals.hydrate, localStorage_setItem.
    cbn [localStorage set_localStorage]. rewrite lookup_insert_eq.
    reflexivity.
  - intros Hother st0. rewrite hydrate_goals_insert_other.
    + apply hydrate_goals_frame. exact Hkeep.
    + intros Heq. apply Hother. symmetry.
      exact (append_inj_r _ _ _ Heq).
  - intros [user|] st0; [|reflexivity].
    rewrite hydrate_transactions_insert_other.
    + apply hydrate_transactions_frame. exact Hkeep.
    + unfold useGoals.CACHE_KEY_PREFIX, useTransactions.CACHE_KEY_PREFIX.
      cbn [String.append]. discriminate.
  - intros [user|] st0; [|reflexivity].
    rewrite hydrate_categories_insert_other.
    + apply hydrate_categories_frame. exact Hkeep.
    + unfold useGoals.CACHE_KEY_PREFIX, useCategories.CACHE_KEY_PREFIX.
      cbn [String.append]. discriminate.
Qed.

(** [fetchGoals_cache_is_private] on the ledger with one goal: the next
    mount shows the goal. *)
Lemma fetchGoals_cache_is_private_witness :
  useGoals.goals
    (useGoals.hydrate (Some "user-1") goals_mounted
       (snd (useGoals.fetchGoals (Some "user-1") goals_mounted goals_world)))
  = [vacation].
Proof.
  destruct (fetchGoals_cache_is_private "user-1" "user-2" goals_mounted
              goals_world (snd (Services.getGoals "user-1" goals_world))
              [vacation]) as [Hshown _].
  - vm_compute. reflexivity.
  - exact (Hshown goals_mounted).
Defined.

(** ** Change events: order of delivery *)

(** ** The colour of a spending bar *)

Lemma gtb_true (x y : Q) : SpendingBreakdown.gtb x y = true ↔ (y < x)%Q.
Proof.
  unfold SpendingBreakdown.gtb. rewrite negb_true_iff.
  split.
  - intros Hle. apply Qnot_le_lt. intros Hxy.
    apply Qle_bool_iff in Hxy. congruence.
  - intros Hlt. destruct (Qle_bool x y) eqn:Hle; [|reflexivity].
    apply Qle_bool_iff in Hle. exfalso. exact (Qlt_not_le _ _ Hlt Hle).
Qed.

Lemma gtb_false (x y : Q) : SpendingBreakdown.gtb x y = false ↔ (x <= y)%Q.
Proof.
  unfold SpendingBreakdown.gtb. rewrite negb_false_iff. apply Qle_bool_iff.
Qed.

Lemma percentage_mono (value value' budget : Q) :
  (0 < budget)%Q → (value <= value')%Q →
  (value / budget * 100 <= value' / budget * 100)%Q.
Proof.
  intros Hb Hv. apply Qmult_le_compat_r; [|discriminate].
  unfold Qdiv. apply Qmult_le_compat_r; [exact Hv|].
  apply Qlt_le_weak, Qinv_lt_0_compat. exact Hb.
Qed.

(** X28: the colour of the bar of a category.  For a positive budget the
    colour never gets milder as the amount spent grows (green, yellow,
    orange, red); without a budget the bar is red as soon as anything is
    spent, and grey otherwise; with a negative budget any amount spent
    that is not negative shows green. *)
Theorem getBarColor_severity (value value' budget : Q) :
  ((0 < budget)%Q → (value <= value')%Q →
   (severity (SpendingBreakdown.getBarColor value budget)
    <= severity (SpendingBreakdown.getBarColor value' budget))%nat)
  ∧ (budget == 0 →
     SpendingBreakdown.getBarColor value budget
     = if SpendingBreakdown.gtb value 0 then "bg-red-500" else "bg-slate-300")
  ∧ ((budget < 0)%Q → (0 <= value)%Q →
     SpendingBreakdown.getBarColor value budget = "bg-green-500").
Proof.
  split; [|split].
  - intros Hb Hv. unfold SpendingBreakdown.getBarColor.
    assert (Hnz : Qeq_bool budget 0 = false).
    { destruct (Qeq_bool budget 0) eqn:Hz; [|reflexivity].
      apply Qeq_bool_eq in Hz. rewrite Hz in Hb. discriminate Hb. }
    rewrite Hnz. cbn [andb]. cbv zeta.
    pose proof (percentage_mono value value' budget Hb Hv) as Hp.
    set (p := (value / budget * 100)%Q) in *.
    set (p' := (value' / budget * 100)%Q) in *.
    assert (Hmono : ∀ t, SpendingBreakdown.gtb p t = true →
                         SpendingBreakdown.gtb p' t = true).
    { intros t Ht. apply gtb_true. apply gtb_true in Ht.
      eapply Qlt_le_trans; [exact Ht|exact Hp]. }
    destruct (SpendingBreakdown.gtb p 100) eqn:H100.
    { rewrite (Hmono _ H100). reflexivity. }
    destruct (SpendingBreakdown.gtb p 90) eqn:H90.
    { rewrite (Hmono _ H90).
      destruct (SpendingBreakdown.gtb p' 100); vm_compute; lia. }
    destruct (SpendingBreakdown.gtb p 70) eqn:H70.
    { rewrite (Hmono _ H70).
      destruct (SpendingBreakdown.gtb p' 100);
        destruct (SpendingBreakdown.gtb p' 90); vm_compute; lia. }
    destruct (SpendingBreakdown.gtb p' 100);
      destruct (SpendingBreakdown.gtb p' 90);
      destruct (SpendingBreakdown.gtb p' 70); vm_compute; lia.
  - intros Hz. unfold SpendingBreakdown.getBarColor.
    rewrite (proj2 (Qeq_bool_iff budget 0) Hz). cbn [andb].
    destruct (SpendingBreakdown.gtb value 0); reflexivity.
  - intros Hb Hv. unfold SpendingBreakdown.getBarColor.
    assert (Hnz : Qeq_bool budget 0 = false).
    { destruct (Qeq_bool budget 0) eqn:Hz; [|reflexivity].
      apply Qeq_bool_eq in Hz. rewrite Hz in Hb. discriminate Hb. }
    rewrite Hnz. cbn [andb]. cbv zeta.
    assert (Hp : (value / budget * 100 <= 0)%Q).
    { assert (Hq : (value / budget <= 0)%Q).
      { unfold Qdiv.
        assert (Hinv : (/ budget <= 0)%Q).
        { apply Qnot_lt_le. intros Hpos.
          apply Qinv_lt_0_compat in Hpos. rewrite Qinv_involutive in Hpos.
          exact (Qlt_irrefl _ (Qlt_trans _ _ _ Hpos Hb)). }
        nra. }
      lra. }
    assert (Hnot : ∀ t, (0 <= t)%Q →
                        SpendingBreakdown.gtb (value / budget * 100) t
                        = false).
    { intros t Ht. apply gtb_false. eapply Qle_trans; [exact Hp|exact Ht]. }
    rewrite !Hnot by discriminate. reflexivity.
Qed.

(** [getBarColor_severity] on a budget of 500: 200 spent shows green, 480
    orange. *)
Lemma getBarColor_severity_witness :
  (severity (SpendingBreakdown.getBarColor 200 500)
   <= severity (SpendingBreakdown.getBarColor 480 500))%nat.
Proof.
  apply (proj1 (getBarColor_severity 200 480 500)).
  - reflexivity.
  - discriminate.
Defined.

(** ** When the classifier itself raises *)



(** ** A goal created is a goal listed *)

Lemma list_service_answered {A} (rows : Backend → list A) resType op uid
    (w : World) :
  pending_fault w = None →
  try_catch (Services.withRetry_default (list_attempt rows))
    (fun error => Services.handleError resType error op uid None) w
  = (Ok (rows (after_request (supabase w))),
     set_supabase (after_request (supabase w)) w).
Proof.
  intros Hq. unfold try_catch. rewrite withRetry_default_unroll.
  rewrite list_attempt_run, Hq. reflexivity.
Qed.

(** X30: a goal that [createGoal] stored is among the goals that
    [getGoals] lists for its owner.  When the two requests are answered,
    [createGoal] resolves with a row that carries the title, the target,
    the months and the owner given, and the amount given ([0] for an
    amount that is [0] or missing); [getGoals] for the owner then resolves
    with the goals the owner had and that row, and nothing else. *)
Theorem createGoal_then_getGoals (goal : GoalInsert) (w : World) :
  answered 2 w →
  ∃ g w1 listed w2,
    Services.createGoal goal w = (Ok g, w1)
    ∧ Services.getGoals (gi_user_id goal) w1 = (Ok listed, w2)
    ∧ g ∈ listed
    ∧ listed
      ≡ₚ (filter (fun g0 => goal_user_id g0 = gi_user_id goal)
            (tbl_financial_goals (supabase w)) ++ [g])%list
    ∧ (goal_user_id g = gi_user_id goal
       ∧ goal_title g = gi_title goal
       ∧ goal_target_amount g = gi_target_amount goal
       ∧ goal_current_amount g == gi_current_amount goal
       ∧ goal_months_remaining g = gi_months_remaining goal).
Proof.
  intros Hans. apply answered_next in Hans as [Hq Hans].
  unfold Services.createGoal, try_catch. rewrite withRetry_default_unroll.
  unfold await at 1, insert_goal. step_query.
  cbn [fst snd take_id resolve].
  match goal with
  | |- ∃ g w1 listed w2, (Ok ?row, ?w') = _ ∧ _ =>
    set (g := row); set (w1 := w')
  end.
  assert (Hq1 : pending_fault w1 = None)
    by (apply (answered_next 0); apply answered_set_supabase; exact Hans).
  exists g, w1. eexists _, _. split; [reflexivity|].
  split.
  { apply (list_service_answered (goals_of (gi_user_id goal))). exact Hq1. }
  assert (Hlisted :
            goals_of (gi_user_id goal) (after_request (supabase w1))
            ≡ₚ (filter (fun g0 => goal_user_id g0 = gi_user_id goal)
                  (tbl_financial_goals (supabase w)) ++ [g])%list).
  { unfold goals_of. rewrite sort_array_Permutation.
    subst w1.
    cbn [supabase set_supabase tbl_financial_goals set_financial_goals
         after_request set_faults count_request].
    rewrite filter_app, filter_cons, decide_True by reflexivity.
    reflexivity. }
  split.
  { rewrite Hlisted. apply elem_of_app. right. left. }
  split; [exact Hlisted|].
  subst g. cbn -[Qeq or_zero]. rewrite or_zero_eq. repeat split; reflexivity.
Qed.

(** [createGoal_then_getGoals] on a second goal for the owner of the
    ledger. *)
Lemma createGoal_then_getGoals_witness :
  ∃ g w1 listed w2,
    Services.createGoal
      {| gi_user_id := "user-1"; gi_title := "Bike"; gi_target_amount := 900;
         gi_current_amount := 0; gi_months_remaining := 6 |} goals_world
    = (Ok g, w1)
    ∧ Services.getGoals "user-1" w1 = (Ok listed, w2)
    ∧ g ∈ listed.
Proof.
  destruct (createGoal_then_getGoals
              {| gi_user_id := "user-1"; gi_title := "Bike";
                 gi_target_amount := 900; gi_current_amount := 0;
                 gi_months_remaining := 6 |} goals_world)
    as (g & w1 & listed & w2 & Hcreate & Hlist & Hin & _).
  - vm_compute. constructor.
  - exists g, w1, listed, w2. auto.
Defined.

(** ** Change events *)

Lemma on_postgres_changes_run {A St} (h : Realtime.Handler A St)
    (ch : Realtime.Channel A St) :
  Realtime.on_postgres_changes h ch
  = {| Realtime.in_flight :=
         (Realtime.in_flight ch
          ++ [(Realtime.issued ch,
               fst (Realtime.list_call h (Realtime.world ch)))])%list;
       Realtime.issued := S (Realtime.issued ch);
       Realtime.hook := Realtime.hook ch;
       Realtime.world := snd (Realtime.list_call h (Realtime.world ch)) |}.
Proof.
  unfold Realtime.on_postgres_changes.
  destruct (Realtime.list_call h (Realtime.world ch)). reflexivity.
Qed.

Lemma run_burst_S {A St} (h : Realtime.Handler A St) (n : nat)
    (ch : Realtime.Channel A St) :
  Realtime.run h (burst (S n)) ch
  = Realtime.run h (burst n) (Realtime.on_postgres_changes h ch).
Proof. reflexivity. Qed.

Lemma find_call {A} (k n from : nat) (x : A) :
  (from <= k < from + n)%nat →
  List.find (fun c : nat * A => Nat.eqb (fst c) k)
    (map (fun i => (i, x)) (seq from n))
  = Some (k, x).
Proof.
  revert from. induction n as [|n IH]; intros from Hk; [lia|].
  cbn [seq map List.find fst].
  destruct (Nat.eqb_spec from k) as [->|Hne]; [reflexivity|].
  apply IH. lia.
Qed.

Lemma filter_calls {A} (k : nat) (l : list (nat * A)) :
  map fst (filter (fun c => fst c ≠ k) l)
  = filter (fun i => i ≠ k) (map fst l).
Proof.
  induction l as [|c l IH]; [reflexivity|].
  cbn [map]. rewrite !filter_cons.
  destruct (decide (fst c ≠ k)); cbn [map]; rewrite IH; reflexivity.
Qed.

Section ListHandler.

Context {A St : Type} (rows : Backend → list A).
Context (Hrows : ∀ b, rows (after_request b) = rows b).
Context (resType op uid : string) (h : Realtime.Handler A St).
Context (Hcall :
  Realtime.list_call h
  = try_catch (Services.withRetry_default (list_attempt rows))
      (fun error => Services.handleError resType error op (Some uid) None)).

Lemma list_call_requests (w : World) :
  (requests (supabase w) + 1
   <= requests (supabase (snd (Realtime.list_call h w))))%nat.
Proof.
  pose proof (list_service_run rows Hrows resType op uid w) as Hout.
  rewrite <- Hcall in Hout.
  destruct (Realtime.list_call h w) as [[data|e] w'];
    cbn [list_service_outcome snd] in *.
  - destruct Hout as (_ & _ & n & Hn & -> & _). lia.
  - destruct Hout as (fault & _ & _ & _ & -> & _). lia.
Qed.

Lemma burst_calls : calls_on_every_event h.
Proof.
  intros n. induction n as [|n IH]; intros ch.
  - cbn. rewrite app_nil_r. split; [reflexivity|]. split; [lia|reflexivity].
  - rewrite run_burst_S.
    destruct (IH (Realtime.on_postgres_changes h ch)) as (Hcalls & Hreq & Hhook).
    rewrite Hcalls, Hhook. rewrite on_postgres_changes_run in Hreq |- *.
    cbn [Realtime.in_flight Realtime.issued Realtime.hook Realtime.world]
      in Hreq |- *.
    split; [|split; [|reflexivity]].
    + rewrite map_app, <- app_assoc. reflexivity.
    + pose proof (list_call_requests (Realtime.world ch)). lia.
Qed.

Lemma burst_answered (n : nat) (ch : Realtime.Channel A St) :
  answered n (Realtime.world ch) →
  Realtime.in_flight (Realtime.run h (burst n) ch)
  = (Realtime.in_flight ch
     ++ map (fun i => (i, Ok (rows (supabase (Realtime.world ch)))))
          (seq (Realtime.issued ch) n))%list
  ∧ Realtime.hook (Realtime.run h (burst n) ch) = Realtime.hook ch.
Proof.
  revert ch. induction n as [|n IH]; intros ch Hans.
  - cbn. rewrite app_nil_r. auto.
  - rewrite run_burst_S. apply answered_next in Hans as [Hq Hans].
    pose proof (list_service_answered rows resType op (Some uid)
                  (Realtime.world ch) Hq) as Hrun.
    rewrite <- Hcall in Hrun.
    destruct (IH (Realtime.on_postgres_changes h ch)) as [Hcalls Hhook].
    { rewrite on_postgres_changes_run, Hrun. cbn [Realtime.world snd].
      apply answered_set_supabase. exact Hans. }
    rewrite Hcalls, Hhook, on_postgres_changes_run, Hrun.
    cbn [Realtime.in_flight Realtime.issued Realtime.hook Realtime.world
         fst snd supabase set_supabase].
    rewrite !Hrows, <- app_assoc. auto.
Qed.

Lemma burst_hands_over : hands_over h rows.
Proof.
  intros n k st w Hans Hk.
  destruct (burst_answered n (Realtime.subscribe st w) Hans) as [Hcalls Hhook].
  cbn [Realtime.subscribe Realtime.in_flight Realtime.issued Realtime.hook
       Realtime.world app] in Hcalls, Hhook.
  unfold Realtime.settle. rewrite Hcalls, find_call by lia.
  cbn [Realtime.resume]. rewrite Hhook.
  destruct (Realtime.callback h (rows (supabase w)) st
              (Realtime.world
                 (Realtime.run h (burst n) (Realtime.subscribe st w))))
    as [st' w'].
  cbn [Realtime.hook Realtime.world Realtime.in_flight].
  split; [reflexivity|].
  rewrite filter_calls, map_map. cbn [fst]. rewrite map_id. reflexivity.
Qed.

End ListHandler.

(** C10, as stated, fails: two change events in a row on the subscription
    of [useGoals] leave two list calls in flight, each with the goals it
    read, after two requests to the store. *)
Lemma two_change_events_two_list_calls :
  Realtime.in_flight
    (Realtime.run (goals_subscription "user-1") (burst 2)
       (Realtime.subscribe goals_mounted goals_world))
  = [(0%nat, Ok [vacation]); (1%nat, Ok [vacation])]
  ∧ requests
      (supabase
         (Realtime.world
            (Realtime.run (goals_subscription "user-1") (burst 2)
               (Realtime.subscribe goals_mounted goals_world))))
    = (requests (supabase goals_world) + 2)%nat
  ∧ ¬ (length
         (Realtime.in_flight
            (Realtime.run (goals_subscription "user-1") (burst 2)
               (Realtime.subscribe goals_mounted goals_world)))
       <= 1)%nat.
Proof.
  split; [vm_compute; reflexivity|]. split; [vm_compute; reflexivity|].
  vm_compute. lia.
Qed.

(** C10 (amended): the handlers that [subscribeToGoals],
    [subscribeToTransactions] and [subscribeToCategories] register call
    their list service on every change event, whatever is already in
    flight: [n] change events arriving before any call settles add [n]
    calls in flight and send at least [n] requests to the store; and each
    call that resolves hands the rows it fetched to the callback of the
    hook, the other calls staying in flight. *)
Theorem change_events_are_not_coalesced {Sg St Sc : Type} (userId : string)
    (onGoals : list FinancialGoal → Sg → World → Sg * World)
    (onTransactions : list Transaction → St → World → St * World)
    (onCategories : list SpendingCategory → Sc → World → Sc * World) :
  (calls_on_every_event (Realtime.subscribeToGoals userId onGoals)
   ∧ calls_on_every_event
       (Realtime.subscribeToTransactions userId onTransactions)
   ∧ calls_on_every_event
       (Realtime.subscribeToCategories userId onCategories))
  ∧ (hands_over (Realtime.subscribeToGoals userId onGoals) (goals_of userId)
     ∧ hands_over (Realtime.subscribeToTransactions userId onTransactions)
         (transactions_page userId 50 0)
     ∧ hands_over (Realtime.subscribeToCategories userId onCategories)
         (categories_of userId)).
Proof.
  split; (split; [|split]).
  - apply (burst_calls (goals_of userId) ltac:(reflexivity)
             "financial_goal" "get goals" userId). reflexivity.
  - apply (burst_calls (transactions_page userId 50 0) ltac:(reflexivity)
             "transaction" "get transactions" userId). reflexivity.
  - apply (burst_calls (categories_of userId) ltac:(reflexivity)
             "spending_category" "get categories" userId). reflexivity.
  - apply (burst_hands_over (goals_of userId) ltac:(reflexivity)
             "financial_goal" "get goals" userId). reflexivity.
  - apply (burst_hands_over (transactions_page userId 50 0)
             ltac:(reflexivity) "transaction" "get transactions" userId).
    reflexivity.
  - apply (burst_hands_over (categories_of userId) ltac:(reflexivity)
             "spending_category" "get categories" userId). reflexivity.
Qed.

(** [change_events_are_not_coalesced] on the subscription of [useGoals]:
    of two calls in flight, the first to settle shows its goals and
    leaves the second in flight. *)
Lemma change_events_are_not_coalesced_witness :
  answered 2 goals_world ∧ (0 < 2)%nat
  ∧ useGoals.goals
      (Realtime.hook
         (Realtime.settle (goals_subscription "user-1") 0
            (Realtime.run (goals_subscription "user-1") (burst 2)
               (Realtime.subscribe goals_mounted goals_world))))
    = [vacation]
  ∧ map fst
      (Realtime.in_flight
         (Realtime.settle (goals_subscription "user-1") 0
            (Realtime.run (goals_subscription "user-1") (burst 2)
               (Realtime.subscribe goals_mounted goals_world))))
    = [1%nat].
Proof.
  assert (Hans : answered 2 goals_world) by (vm_compute; constructor).
  assert (Hlt : (0 < 2)%nat) by lia.
  split; [exact Hans|]. split; [exact Hlt|].
  destruct (proj1 (proj2 (change_events_are_not_coalesced
                            (Sg := useGoals.State) (St := unit) (Sc := unit)
                            "user-1" (useGoals.onChange "user-1")
                            (fun _ st w => (st, w)) (fun _ st w => (st, w))))
              2%nat 0%nat goals_mounted goals_world Hans Hlt)
    as [Hsettle Hrest].
  split.
  - change (Realtime.subscribeToGoals "user-1" (useGoals.onChange "user-1"))
      with (goals_subscription "user-1") in Hsettle.
    apply (f_equal fst) in Hsettle. cbn [fst] in Hsettle.
    rewrite Hsettle. vm_compute. reflexivity.
  - exact Hrest.
Defined.

(** ** A refetch that is rejected *)

Lemma transformError_new_Error (msg : string) :
  ∃ se, transformError (Raw (new_Error msg)) = Ok se
        ∧ (type se = UNKNOWN_ERROR ∨ type se = NETWORK_ERROR).
Proof.
  unfold transformError, TypeError_about_fetch. cbn.
  destruct (includes msg "NetworkError" || includes msg "Failed to fetch");
    eexists; (split; [reflexivity|]); cbn; auto.
Qed.

(** X27: a refetch that a change event starts and that is rejected leaves
    the hook alone.  When [getGoals] gives up, [handleError] has written
    its log line as the call rejected; once the handler of [useGoals]
    resumes, its [catch] block writes a second line, for the operation
    [refetch goals on real-time update], the error of the service
    classified as unknown or as a network error.  The cells of the hook,
    [localStorage] and the tables are what they were, the callback is not
    called, and the call is no longer in flight. *)
Theorem rejected_refetch_leaves_hook (userId : string) (st : useGoals.State)
    (w w1 : World) (e : JsError) :
  Services.getGoals userId w = (Throw e, w1) →
  ∃ fault se,
    mjoin (faults (supabase w) !! 2%nat) = Some fault
    ∧ transformError e = Ok se
    ∧ (type se = UNKNOWN_ERROR ∨ type se = NETWORK_ERROR)
    ∧ Realtime.hook
        (Realtime.settle (goals_subscription userId) 0
           (Realtime.on_postgres_changes (goals_subscription userId)
              (Realtime.subscribe st w)))
      = st
    ∧ Realtime.in_flight
        (Realtime.settle (goals_subscription userId) 0
           (Realtime.on_postgres_changes (goals_subscription userId)
              (Realtime.subscribe st w)))
      = []
    ∧ localStorage
        (Realtime.world
           (Realtime.settle (goals_subscription userId) 0
              (Realtime.on_postgres_changes (goals_subscription userId)
                 (Realtime.subscribe st w))))
      = localStorage w
    ∧ tables
        (Realtime.world
           (Realtime.settle (goals_subscription userId) 0
              (Realtime.on_postgres_changes (goals_subscription userId)
                 (Realtime.subscribe st w))))
      = tables w
    ∧ console
        (Realtime.world
           (Realtime.settle (goals_subscription userId) 0
              (Realtime.on_postgres_changes (goals_subscription userId)
                 (Realtime.subscribe st w))))
      = (console w
         ++ [database_error_line fault "get goals" "financial_goal" None
               (Some userId);
             SupabaseErrorLine
               {| log_type := type se; log_message := message se;
                  log_context := goals_refetch_context userId;
                  log_originalError := originalError se |}])%list.
Proof.
  intros Hrun.
  pose proof (list_service_run (goals_of userId) ltac:(reflexivity)
                "financial_goal" "get goals" userId w) as Hout.
  pose proof (keeps_tables_list_service (goals_of userId)
                "financial_goal" "get goals" (Some userId) w) as Htables.
  pose proof (keeps_localStorage_list_service (goals_of userId)
                "financial_goal" "get goals" (Some userId) w) as Hstorage.
  change (try_catch _ _ w) with (Services.getGoals userId w)
    in Hout, Htables, Hstorage.
  rewrite Hrun in Hout, Htables, Hstorage.
  cbn [list_service_outcome snd] in Hout, Htables, Hstorage.
  destruct Hout as (fault & Hfault & -> & Hconsole & _).
  assert (Hclass : ∃ se,
             transformError (failed_to "get goals" (thrown fault)) = Ok se
             ∧ (type se = UNKNOWN_ERROR ∨ type se = NETWORK_ERROR))
    by apply transformError_new_Error.
  destruct Hclass as (se & Hse & Htype).
  exists fault, se. split; [exact Hfault|].
  split; [exact Hse|]. split; [exact Htype|].
  rewrite on_postgres_changes_run.
  change (Realtime.list_call (goals_subscription userId))
    with (Services.getGoals userId).
  cbn [Realtime.subscribe Realtime.world Realtime.in_flight Realtime.issued
       Realtime.hook app].
  rewrite Hrun. unfold Realtime.settle.
  cbn [Realtime.in_flight List.find fst snd Nat.eqb Realtime.resume
       Realtime.hook Realtime.world].
  unfold logDatabaseError, logError. rewrite Hse.
  cbn [snd Realtime.hook Realtime.in_flight Realtime.world].
  split; [reflexivity|].
  split; [rewrite filter_cons; cbn; reflexivity|].
  split; [exact Hstorage|]. split; [exact Htables|].
  cbn [console_error World_Runtime set_console console].
  rewrite Hconsole, <- app_assoc. reflexivity.
Qed.

(** [rejected_refetch_leaves_hook] on a store that cannot be reached: the
    goals that the hook shows stay, and the console holds two lines. *)
Lemma rejected_refetch_leaves_hook_witness :
  useGoals.goals
    (Realtime.hook
       (Realtime.settle (goals_subscription "user-1") 0
          (Realtime.on_postgres_changes (goals_subscription "user-1")
             (Realtime.subscribe (useGoals.setGoals [vacation] goals_mounted)
                failing_world))))
  = [vacation]
  ∧ length
      (console
         (Realtime.world
            (Realtime.settle (goals_subscription "user-1") 0
               (Realtime.on_postgres_changes (goals_subscription "user-1")
                  (Realtime.subscribe
                     (useGoals.setGoals [vacation] goals_mounted)
                     failing_world)))))
    = 2%nat.
Proof.
  destruct (rejected_refetch_leaves_hook "user-1"
              (useGoals.setGoals [vacation] goals_mounted) failing_world
              (snd (Services.getGoals "user-1" failing_world))
              (failed_to "get goals" (thrown fetch_failure)))
    as (fault & se & _ & _ & _ & Hhook & _ & _ & _ & Hconsole).
  - vm_compute. reflexivity.
  - split; [rewrite Hhook; reflexivity|].
    rewrite Hconsole, length_app. reflexivity.
Defined.
